(** * desietc.etc: the top-level exposure-time-calculator pipeline

    A shallow embedding of [src/desietc/etc.py] (class [ETC]) and the
    properties of its acquisition / guide-star / guide-frame sequencing.

    Modelling conventions.
    - Python ints are [Z].  A float that [etc.py] itself compares, rounds
      or subtracts (a header value, a catalog column, a field of a guide
      star) is an IEEE binary64, with its rounding, its NaN and its
      infinities: Rocq's primitive [float].  A numpy [int64] is the [Z] of
      its value, with the wrap-around of its arithmetic written out.
    - The elements of the arrays that [etc.py] takes from a collaborator
      and hands to another (pixel values, the grid of the fit, the dither
      offsets) and the fiber geometry of line 121 are rationals [Q]:
      [etc.py] slices, stores and passes them on.
    - A Python dict keeps insertion order, which fixes the order in which
      [process_guide_frame] visits the cameras: it is an association list.
    - A dict with a fixed set of string keys and values of different types
      (a camera result, a header) is a record of [option] fields; [None]
      means that the key is absent.
    - An instance attribute that [__init__] does not assign is a [slot]
      that starts [Missing]; reading it raises [AttributeError].
    - Every method runs in a state-and-exception monad over the [ETC]
      object: the mutations made before an exception is raised persist.
    - Logging and timing calls have no effect on the object and are left
      out, except that the attributes and names they read are read.
    - A bare name is looked up in the globals of the module, which are a
      parameter of the guide-frame methods; [etc_globals] are the globals
      of the module as it is written.
    - The camera, fit and template code that the module calls is a class
      of parameters; a small computable instance of it runs the methods on
      concrete payloads. *)

From Stdlib Require Import ZArith QArith Qround List String Bool Lia Lqa Floats.
Import ListNotations.

Local Open Scope string_scope.
Local Open Scope Z_scope.

Set Implicit Arguments.

(** ** Python values *)

(** The exceptions that the methods of [ETC] can raise. *)
Inductive exn : Type :=
| KeyError (key : string)
| AttributeError (attr : string)
| NameError (name : string)
| IndexError
| TypeError
| ZeroDivisionError
| AssertionError
| ValueError (msg : string).

(** The way a call ends: with a value, or with an exception. *)
Inductive outcome (A : Type) : Type :=
| Return (a : A)
| Raise (e : exn).

Arguments Return {A} a.
Arguments Raise {A} e.

(** An instance attribute: not assigned yet, or bound to a value. *)
Inductive slot (A : Type) : Type :=
| Missing
| Bound (a : A).

Arguments Missing {A}.
Arguments Bound {A} a.

(** *** Insertion-ordered dictionaries with string keys *)

Definition dict (V : Type) : Type := list (string * V).

Fixpoint dict_get {V : Type} (d : dict V) (k : string) : option V :=
  match d with
  | [] => None
  | (k', v) :: d' => if String.eqb k k' then Some v else dict_get d' k
  end.

(** [d[k] = v]: an existing key keeps its place, a new key goes last. *)
Fixpoint dict_set {V : Type} (d : dict V) (k : string) (v : V) : dict V :=
  match d with
  | [] => [(k, v)]
  | (k', v') :: d' =>
      if String.eqb k k' then (k', v) :: d' else (k', v') :: dict_set d' k v
  end.

(** [k in d] *)
Definition dict_in {V : Type} (k : string) (d : dict V) : bool :=
  match dict_get d k with Some _ => true | None => false end.

Definition dict_keys {V : Type} (d : dict V) : list string := map fst d.

(** *** Arrays *)

(** A two-dimensional array, as the list of its rows. *)
Definition image : Type := list (list Q).

(** [slice(start, stop)] *)
Record slice : Type := { start : Z; stop : Z }.

(** The position a slice bound denotes in a sequence of length [n]: a
    negative bound counts from the end, and both are clipped to [0..n]. *)
Definition clip_index (n i : Z) : Z :=
  if i <? 0 then Z.max 0 (i + n) else Z.min i n.

(** [l[s]] *)
Definition take_slice {A : Type} (s : slice) (l : list A) : list A :=
  let n := Z.of_nat (List.length l) in
  let lo := clip_index n (start s) in
  let hi := clip_index n (stop s) in
  firstn (Z.to_nat (hi - lo)) (skipn (Z.to_nat lo) l).

(** [img[ys, xs]] *)
Definition cutout (img : image) (ys xs : slice) : image :=
  map (take_slice xs) (take_slice ys img).

(** [img.shape == (r, c)] *)
Definition has_shape (r c : nat) (img : image) : bool :=
  Nat.eqb (List.length img) r && forallb (fun row => Nat.eqb (List.length row) c) img.

(** [np.sum(a * b)] for two arrays of one shape. *)
Definition image_dot (a b : image) : Q :=
  fold_right Qplus 0%Q
    (map (fun rows =>
            fold_right Qplus 0%Q
              (map (fun p => (fst p * snd p)%Q) (combine (fst rows) (snd rows))))
         (combine a b)).

Definition Qltb (x y : Q) : bool :=
  match (x ?= y)%Q with Lt => true | _ => false end.

(** *** Floats and 64-bit integers *)

(** The rational that a finite float stands for; [None] for a NaN and for
    the infinities. *)
Definition float_value (x : float) : option Q :=
  match Prim2SF x with
  | S754_zero _ => Some 0%Q
  | S754_finite sign m e =>
      Some ((if sign then - inject_Z (Z.pos m) else inject_Z (Z.pos m)) * 2 ^ e)%Q
  | S754_infinity _ | S754_nan => None
  end.

(** The integer nearest to [q], a tie going to the even one: the value of
    [np.round(x)] for a float [x] of value [q], which a binary64 holds
    exactly. *)
Definition round_half_even (q : Q) : Z :=
  let f := Qfloor q in
  match ((q - inject_Z f) ?= (1 # 2))%Q with
  | Lt => f
  | Gt => f + 1
  | Eq => if Z.even f then f else f + 1
  end.

Definition int64_min : Z := - 2 ^ 63.
Definition int64_max : Z := 2 ^ 63 - 1.

(** The result of an addition or subtraction of [int64]: the sum [z]
    wrapped around into the range of [int64]. *)
Definition wrap64 (z : Z) : Z := (z + 2 ^ 63) mod 2 ^ 64 - 2 ^ 63.

(** [np.round(x).astype(int)]: the cast of the rounded float to [int64]
    gives its value when that is in the range of [int64], and the smallest
    [int64] for a NaN, an infinity and every value beyond the range (the
    result of the conversion instruction of x86-64). *)
Definition np_round_int (x : float) : Z :=
  match float_value x with
  | Some q =>
      let z := round_half_even q in
      if (int64_min <=? z) && (z <=? int64_max) then z else int64_min
  | None => int64_min
  end.

(** The float64 that numpy converts an [int64] to in an operation with a
    float64: the nearest float. *)
Definition float_of_int64 (z : Z) : float :=
  if z =? int64_min then (- 0x1p+63)%float
  else if z <? 0 then (- PrimFloat.of_uint63 (Uint63.of_Z (- z)))%float
  else PrimFloat.of_uint63 (Uint63.of_Z z).

(** [np.where(sel)[0]] *)
Fixpoint where_from (i : nat) (sel : list bool) : list nat :=
  match sel with
  | [] => []
  | b :: sel' => if b then i :: where_from (S i) sel' else where_from (S i) sel'
  end.

Definition np_where (sel : list bool) : list nat := where_from 0 sel.

(** [a[sel]] for a boolean mask [sel]. *)
Fixpoint mask_select {A : Type} (sel : list bool) (a : list A) : list A :=
  match sel, a with
  | b :: sel', x :: a' => if b then x :: mask_select sel' a' else mask_select sel' a'
  | _, _ => []
  end.

(** ** Payloads *)

(** [data['header']] of an exposure. *)
Record exposure_header : Type := {
  NIGHT : option Z;
  EXPID : option Z
}.

(** [data[camera]['header']]: the keys that [preprocess_gfa] reads with
    [hdr.get(key, None)]. *)
Record camera_header : Type := {
  MJD_OBS : option float;
  EXPTIME : option float;
  GCCDTEMP : option float
}.

(** The result of [GMMFit.fit_dithered]. *)
Record fit_result : Type := {
  fit_dx : float;
  fit_dy : float;
  fit_flux : float;
  fit_bg : float;
  fit_nll : float;
  fit_best : image
}.

(** ** The collaborators

    [desietc.sky], [desietc.gfa], [desietc.gmm], [desietc.util] and numpy's
    float power are used by [etc.py] and are not part of it: they are
    parameters of the development.  A method that updates the camera object
    in place returns the updated object. *)
Class Collaborators : Type := {
  SkyCamera : Type;
  GFACamera : Type;
  GMMFit : Type;
  raw_image : Type;
  gmm_params : Type;
  dark_current : Type;
  (** [desietc.sky.SkyCamera(calib_name=...)] *)
  SkyCamera_new : string -> SkyCamera;
  (** [desietc.gfa.GFACamera(calib_name=...)] and its attributes *)
  GFACamera_new : string -> GFACamera;
  guide_names : GFACamera -> list string;
  nampx : GFACamera -> Z;
  nampy : GFACamera -> Z;
  (** [GFA.data[0]] and [GFA.ivar[0]] *)
  gfa_data : GFACamera -> image;
  gfa_ivar : GFACamera -> image;
  (** [GFA.setraw(raw, name=camera)]: [false] when it raises [ValueError] *)
  setraw : GFACamera -> raw_image -> string -> bool * GFACamera;
  get_dark_current : GFACamera -> float -> float -> dark_current;
  (** [GFA.data -= dark] *)
  isub_data : GFACamera -> dark_current -> GFACamera;
  get_psfs : GFACamera -> GFACamera;
  (** [GFA.psf_stack]: [None] when its first component is [None] *)
  psf_stack : GFACamera -> option (image * image);
  (** [desietc.gmm.GMMFit(x, y)] and its methods *)
  GMMFit_new : list Q -> list Q -> GMMFit;
  GMM_fit : GMMFit -> image -> image -> Z -> option gmm_params;
  GMM_predict : GMMFit -> gmm_params -> image;
  GMM_dither : GMMFit -> gmm_params -> list Q -> list Q -> list image;
  GMM_fit_dithered :
    GMMFit -> list Q -> list Q -> list image -> image -> image -> fit_result;
  (** [desietc.util.diskgrid(n, radius, alpha=...)] *)
  diskgrid : Z -> Q -> Q -> list Q * list Q;
  (** [desietc.util.make_template(size, profile, dx=, dy=, normalized=)] *)
  make_template : Z -> (Q -> Q -> Q) -> float -> float -> bool -> image;
  (** [base ** exponent] on the elements of a float64 array *)
  power : float -> float -> float
}.

(** ** The state of the pipeline *)

Section Model.

Context {C : Collaborators}.

(** One entry of [acquisition_results]: a dict with the keys ['data'],
    ['ivar'], ['gmm'], ['model'] and ['dithered']. *)
Record camera_result : Type := {
  cr_data : option image;
  cr_ivar : option image;
  cr_gmm : option gmm_params;
  cr_model : option image;
  cr_dithered : option (list image)
}.

(** One registered guide star: the dict that [set_guide_stars] appends. *)
Record star : Type := {
  x0 : float;
  y0 : float;
  rmag : float;
  nelec_rate : list float;
  fiber_dx : float;
  fiber_dy : float;
  yslice : slice;
  xslice : slice;
  fiber : image
}.

(** The attributes of an [ETC] object.  [acquisition_results] and
    [guide_stars] are bound by [__init__], to [None] or to a dict; the
    slots are bound later. *)
Record ETC : Type := {
  SKY : SkyCamera;
  GFA : GFACamera;
  GMM : GMMFit;
  psf_pixels : Z;
  xdither : list Q;
  ydither : list Q;
  acquisition_results : option (dict camera_result);
  guide_stars : option (dict (list star));
  night : slot Z;
  expid : slot Z;
  num_guide_frames : slot Z;
  gfa_mjd_obs : slot (option float);
  gfa_exptime : slot (option float)
}.

Definition set_GFA (v : GFACamera) (e : ETC) : ETC :=
  {| SKY := SKY e; GFA := v; GMM := GMM e; psf_pixels := psf_pixels e;
     xdither := xdither e; ydither := ydither e;
     acquisition_results := acquisition_results e;
     guide_stars := guide_stars e; night := night e; expid := expid e;
     num_guide_frames := num_guide_frames e;
     gfa_mjd_obs := gfa_mjd_obs e; gfa_exptime := gfa_exptime e |}.

Definition set_acquisition_results (v : option (dict camera_result)) (e : ETC) : ETC :=
  {| SKY := SKY e; GFA := GFA e; GMM := GMM e; psf_pixels := psf_pixels e;
     xdither := xdither e; ydither := ydither e;
     acquisition_results := v;
     guide_stars := guide_stars e; night := night e; expid := expid e;
     num_guide_frames := num_guide_frames e;
     gfa_mjd_obs := gfa_mjd_obs e; gfa_exptime := gfa_exptime e |}.

Definition set_guide_stars_attr (v : option (dict (list star))) (e : ETC) : ETC :=
  {| SKY := SKY e; GFA := GFA e; GMM := GMM e; psf_pixels := psf_pixels e;
     xdither := xdither e; ydither := ydither e;
     acquisition_results := acquisition_results e;
     guide_stars := v; night := night e; expid := expid e;
     num_guide_frames := num_guide_frames e;
     gfa_mjd_obs := gfa_mjd_obs e; gfa_exptime := gfa_exptime e |}.

Definition set_night (v : Z) (e : ETC) : ETC :=
  {| SKY := SKY e; GFA := GFA e; GMM := GMM e; psf_pixels := psf_pixels e;
     xdither := xdither e; ydither := ydither e;
     acquisition_results := acquisition_results e;
     guide_stars := guide_stars e; night := Bound v; expid := expid e;
     num_guide_frames := num_guide_frames e;
     gfa_mjd_obs := gfa_mjd_obs e; gfa_exptime := gfa_exptime e |}.

Definition set_expid (v : Z) (e : ETC) : ETC :=
  {| SKY := SKY e; GFA := GFA e; GMM := GMM e; psf_pixels := psf_pixels e;
     xdither := xdither e; ydither := ydither e;
     acquisition_results := acquisition_results e;
     guide_stars := guide_stars e; night := night e; expid := Bound v;
     num_guide_frames := num_guide_frames e;
     gfa_mjd_obs := gfa_mjd_obs e; gfa_exptime := gfa_exptime e |}.

Definition set_num_guide_frames (v : Z) (e : ETC) : ETC :=
  {| SKY := SKY e; GFA := GFA e; GMM := GMM e; psf_pixels := psf_pixels e;
     xdither := xdither e; ydither := ydither e;
     acquisition_results := acquisition_results e;
     guide_stars := guide_stars e; night := night e; expid := expid e;
     num_guide_frames := Bound v;
     gfa_mjd_obs := gfa_mjd_obs e; gfa_exptime := gfa_exptime e |}.

Definition set_gfa_mjd_obs (v : option float) (e : ETC) : ETC :=
  {| SKY := SKY e; GFA := GFA e; GMM := GMM e; psf_pixels := psf_pixels e;
     xdither := xdither e; ydither := ydither e;
     acquisition_results := acquisition_results e;
     guide_stars := guide_stars e; night := night e; expid := expid e;
     num_guide_frames := num_guide_frames e;
     gfa_mjd_obs := Bound v; gfa_exptime := gfa_exptime e |}.

Definition set_gfa_exptime (v : option float) (e : ETC) : ETC :=
  {| SKY := SKY e; GFA := GFA e; GMM := GMM e; psf_pixels := psf_pixels e;
     xdither := xdither e; ydither := ydither e;
     acquisition_results := acquisition_results e;
     guide_stars := guide_stars e; night := night e; expid := expid e;
     num_guide_frames := num_guide_frames e;
     gfa_mjd_obs := gfa_mjd_obs e; gfa_exptime := Bound v |}.

(** ** Payloads that carry camera data *)

(** [data[camera]]: a dict with the keys ['header'] and ['data']. *)
Record camera_payload : Type := {
  cp_header : option camera_header;
  cp_data : option raw_image
}.

(** The argument of [process_acquisition] and [process_guide_frame]: a
    dict with the key ['header'] and one key per camera that has an image.
    The header is kept apart from the camera entries. *)
Record payload : Type := {
  header : option exposure_header;
  images : dict camera_payload
}.

(** ** Global names

    A bare name in a method body is looked up in the globals of the module
    when the line runs. *)
Inductive pyobj : Type :=
| PyModule (name : string)
| PyClass (name : string)
| PyCamera (g : GFACamera)
| PyArray (a : image).

Definition namespace : Type := string -> option pyobj.

Definition one_of (names : list string) (name : string) : bool :=
  existsb (String.eqb name) names.

(** The names that [etc.py] binds at module level: its imports and the
    class.  (No builtin is called [GFA], [WD] or [loggining].) *)
Definition etc_globals : namespace :=
  fun name =>
    if one_of ["time"; "pathlib"; "logging"; "np"; "fitsio"; "desietc"] name
    then Some (PyModule name)
    else if String.eqb name "ETC" then Some (PyClass "ETC")
    else None.

(** The namespace [G] with [name] bound to [obj] as well. *)
Definition with_global (name : string) (obj : pyobj) (G : namespace) : namespace :=
  fun n => if String.eqb n name then Some obj else G n.

(** ** Exceptions and state *)

Definition obind {A B : Type} (m : outcome A) (f : A -> outcome B) : outcome B :=
  match m with
  | Return a => f a
  | Raise e => Raise e
  end.

(** A method body: it runs on the object and leaves an outcome and the
    object as it is then. *)
Definition M (A : Type) : Type := ETC -> outcome A * ETC.

Definition ret {A : Type} (a : A) : M A := fun s => (Return a, s).

Definition raise {A : Type} (e : exn) : M A := fun s => (Raise e, s).

Definition bind {A B : Type} (m : M A) (f : A -> M B) : M B :=
  fun s =>
    match m s with
    | (Return a, s') => f a s'
    | (Raise e, s') => (Raise e, s')
    end.

Definition get : M ETC := fun s => (Return s, s).

Definition modify (f : ETC -> ETC) : M unit := fun s => (Return tt, f s).

Definition lift {A : Type} (o : outcome A) : M A := fun s => (o, s).

(** [d[k]] on a record of optional keys. *)
Definition key {A : Type} (k : string) (v : option A) : outcome A :=
  match v with
  | Some a => Return a
  | None => Raise (KeyError k)
  end.

(** [self.name] for an attribute kept in a slot. *)
Definition attr {A : Type} (name : string) (v : slot A) : outcome A :=
  match v with
  | Bound a => Return a
  | Missing => Raise (AttributeError name)
  end.

(** [a[i]] for [0 <= i]. *)
Definition index {A : Type} (a : list A) (i : nat) : outcome A :=
  match nth_error a i with
  | Some x => Return x
  | None => Raise IndexError
  end.

(** A bare global name. *)
Definition global (G : namespace) (name : string) : outcome pyobj :=
  match G name with
  | Some obj => Return obj
  | None => Raise (NameError name)
  end.

(** [assert b] *)
Definition assert (b : bool) : outcome unit :=
  if b then Return tt else Raise AssertionError.

(** [for x in l: body(x)] *)
Fixpoint for_each {A : Type} (l : list A) (body : A -> M unit) : M unit :=
  match l with
  | [] => ret tt
  | x :: l' => bind (body x) (fun _ => for_each l' body)
  end.

End Model.

Notation "x <- m ;; k" := (bind m (fun x => k))
  (at level 61, m at next level, right associativity).
Notation "m ;; k" := (bind m (fun _ => k))
  (at level 61, right associativity).
Notation "x <-- m ;; k" := (obind m (fun x => k))
  (at level 61, m at next level, right associativity).

(** ** The methods of [ETC] *)

Section Methods.

Context {C : Collaborators}.

(** [np.arange(n)] *)
Definition arange (n : Z) : list Q :=
  map (fun i => inject_Z (Z.of_nat i)) (seq 0 (Z.to_nat n)).

(** [ETC.__init__(sky_calib, gfa_calib, psf_pixels=25, max_dither=7,
    num_dither=1200)].  [night], [expid], [num_guide_frames],
    [gfa_mjd_obs] and [gfa_exptime] are not assigned here. *)
Definition ETC_init (sky_calib gfa_calib : string) (psf_pixels : Z)
    (max_dither : Q) (num_dither : Z) : outcome ETC :=
  let sky := SkyCamera_new sky_calib in
  let gfa := GFACamera_new gfa_calib in
  if psf_pixels mod 2 =? 0 then Raise (ValueError "psf_pixels must be odd.")
  else
    let psf_grid :=
      map (fun a => (a - inject_Z psf_pixels / 2)%Q) (arange (psf_pixels + 1)) in
    let gmm := GMMFit_new psf_grid psf_grid in
    let dither := diskgrid num_dither max_dither 2 in
    Return {| SKY := sky; GFA := gfa; GMM := gmm; psf_pixels := psf_pixels;
              xdither := fst dither; ydither := snd dither;
              acquisition_results := None; guide_stars := None;
              night := Missing; expid := Missing; num_guide_frames := Missing;
              gfa_mjd_obs := Missing; gfa_exptime := Missing |}.

(** [ETC.preprocess_gfa(camera, data, default_ccdtemp=10)] *)
Definition preprocess_gfa (camera : string) (data : camera_payload)
    (default_ccdtemp : float) : M bool :=
  hdr <- lift (key "header" (cp_header data)) ;;
  modify (set_gfa_mjd_obs (MJD_OBS hdr)) ;;
  match MJD_OBS hdr with
  | None => ret false
  | Some mjd =>
    if (mjd <? 58484)%float then ret false
    else
      modify (set_gfa_exptime (EXPTIME hdr)) ;;
      match EXPTIME hdr with
      | None => ret false
      | Some exptime =>
        if (exptime <=? 0)%float then ret false
        else
          let ccdtemp :=
            match GCCDTEMP hdr with
            | Some t => t
            | None => default_ccdtemp
            end in
          raw <- lift (key "data" (cp_data data)) ;;
          self <- get ;;
          let r := setraw (GFA self) raw camera in
          modify (set_GFA (snd r)) ;;
          if negb (fst r) then ret false
          else
            modify (set_GFA
                      (isub_data (snd r) (get_dark_current (snd r) ccdtemp exptime))) ;;
            ret true
      end
  end.

(** [self.acquisition_results[camera] = camera_result] *)
Definition store_result (camera : string) (cr : camera_result) : M unit :=
  self <- get ;;
  match acquisition_results self with
  | None => raise TypeError
  | Some d => modify (set_acquisition_results (Some (dict_set d camera cr)))
  end.

Definition with_gmm (p : gmm_params) (cr : camera_result) : camera_result :=
  {| cr_data := cr_data cr; cr_ivar := cr_ivar cr; cr_gmm := Some p;
     cr_model := cr_model cr; cr_dithered := cr_dithered cr |}.

Definition with_model (m : image) (cr : camera_result) : camera_result :=
  {| cr_data := cr_data cr; cr_ivar := cr_ivar cr; cr_gmm := cr_gmm cr;
     cr_model := Some m; cr_dithered := cr_dithered cr |}.

Definition with_dithered (d : list image) (cr : camera_result) : camera_result :=
  {| cr_data := cr_data cr; cr_ivar := cr_ivar cr; cr_gmm := cr_gmm cr;
     cr_model := cr_model cr; cr_dithered := Some d |}.

(** The body of the camera loop of [process_acquisition].  [camera_result]
    is the dict object that line 91 stores in [acquisition_results]: the
    keys that lines 97 to 101 add to it afterwards are added to the stored
    entry. *)
Definition acquire_camera (data : payload) (camera : string) : M unit :=
  match dict_get (images data) camera with
  | None => ret tt
  | Some cdata =>
    ok <- preprocess_gfa camera cdata 10%float ;;
    if negb ok then ret tt
    else
      self <- get ;;
      modify (set_GFA (get_psfs (GFA self))) ;;
      self <- get ;;
      match psf_stack (GFA self) with
      | None => ret tt
      | Some (T, WT) =>
        let nT := List.length T in
        lift (assert (has_shape nT nT T && has_shape nT nT WT)) ;;
        lift (assert (psf_pixels self <=? Z.of_nat nT)) ;;
        let ntrim := (Z.of_nat nT - psf_pixels self) / 2 in
        let S := {| start := ntrim; stop := ntrim + psf_pixels self |} in
        let T := cutout T S S in
        let WT := cutout WT S S in
        let camera_result :=
          {| cr_data := Some T; cr_ivar := Some WT; cr_gmm := None;
             cr_model := None; cr_dithered := None |} in
        (* line 91, before the fit of line 93 *)
        store_result camera camera_result ;;
        match GMM_fit (GMM self) T WT 3 with
        | None => ret tt
        | Some gmm_params =>
          let camera_result := with_gmm gmm_params camera_result in
          store_result camera camera_result ;;
          let camera_result :=
            with_model (GMM_predict (GMM self) gmm_params) camera_result in
          store_result camera camera_result ;;
          let dithered :=
            GMM_dither (GMM self) gmm_params (xdither self) (ydither self) in
          store_result camera (with_dithered dithered camera_result)
        end
      end
  end.

(** [ETC.process_acquisition(data)] *)
Definition process_acquisition (data : payload) : M unit :=
  hdr <- lift (key "header" (header data)) ;;
  n <- lift (key "NIGHT" (NIGHT hdr)) ;;
  modify (set_night n) ;;
  e <- lift (key "EXPID" (EXPID hdr)) ;;
  modify (set_expid e) ;;
  modify (set_acquisition_results (Some [])) ;;
  self <- get ;;
  for_each (guide_names (GFA self)) (acquire_camera data) ;;
  (* lines 105 and 106 *)
  modify (set_num_guide_frames 0) ;;
  modify (set_guide_stars_attr None) ;;
  ret tt.

(** The element-wise combination of two one-dimensional arrays: of one
    length, or one of them of length one. *)
Definition broadcast2 {A B D : Type} (f : A -> B -> D) (a : list A) (b : list B)
    : outcome (list D) :=
  if Nat.eqb (List.length a) (List.length b)
  then Return (map (fun p => f (fst p) (snd p)) (combine a b))
  else
    match a, b with
    | [x], _ => Return (map (f x) b)
    | _, [y] => Return (map (fun x => f x y) a)
    | _, _ => Raise (ValueError "operands could not be broadcast together")
    end.

(** [(gfa_loc == camera) & (mag > 0)] *)
Definition star_selection (gfa_loc : list string) (mag : list float)
    (camera : string) : outcome (list bool) :=
  broadcast2 andb
    (map (fun loc => String.eqb loc camera) gfa_loc)
    (map (fun m => (0 <? m)%float) mag).

(** [a[sel]] *)
Definition mask_index {A : Type} (a : list A) (sel : list bool) : outcome (list A) :=
  if Nat.eqb (List.length sel) (List.length a)
  then Return (mask_select sel a)
  else Raise IndexError.

(** [1.0 * (x ** 2 + y ** 2 < max_rsq)] *)
Definition fiber_profile (max_rsq : Q) (x y : Q) : Q :=
  if Qltb (x ^ 2 + y ^ 2) max_rsq then 1%Q else 0%Q.

(** The window test of line 147. *)
Definition outside_frame (ylo yhi xlo xhi ny nx : Z) : bool :=
  (ylo <? 0) || (yhi >? ny) || (xlo <? 0) || (xhi >? nx).

(** The body of the star loop of [set_guide_stars] for the catalog index
    [i]: [None] when the star is skipped.  [pixels] is [self.psf_pixels].
    [iy] and [ix] are [int64], and so are the four bounds that lines 145
    and 146 compute from them and the Python int [halfsize]. *)
Definition guide_star (pixels : Z) (col row mag : list float) (zeropoint : float)
    (profile : Q -> Q -> Q) (halfsize ny nx : Z) (sel : list bool) (i : nat)
    : outcome (option star) :=
  (* lines 137 to 139 *)
  c <-- index col i ;;
  let x0 := (c - 0.5)%float in
  r <-- index row i ;;
  let y0 := (r - 0.5)%float in
  rmag <-- index mag i ;;
  (* line 142: nelec_rate = 10 ** (-(mag[sel] - zeropoint) / 2.5) *)
  selected <-- mask_index mag sel ;;
  let nelec_rate :=
    map (fun m => power 10 (- (m - zeropoint) / 2.5)%float) selected in
  let iy := np_round_int y0 in
  let ix := np_round_int x0 in
  let ylo := wrap64 (iy - halfsize) in
  let yhi := wrap64 (wrap64 (iy + halfsize) + 1) in
  let xlo := wrap64 (ix - halfsize) in
  let xhi := wrap64 (wrap64 (ix + halfsize) + 1) in
  if outside_frame ylo yhi xlo xhi ny nx then Return None
  else
    let yslice := {| start := ylo; stop := yhi |} in
    let xslice := {| start := xlo; stop := xhi |} in
    let fiber_dx := (x0 - float_of_int64 ix)%float in
    let fiber_dy := (y0 - float_of_int64 iy)%float in
    let fiber := make_template pixels profile fiber_dx fiber_dy false in
    Return (Some {| x0 := x0; y0 := y0; rmag := rmag; nelec_rate := nelec_rate;
                    fiber_dx := fiber_dx; fiber_dy := fiber_dy;
                    yslice := yslice; xslice := xslice; fiber := fiber |}).

(** [stars = []; for i in idx: ...; stars.append(...)] *)
Fixpoint collect_stars (build : nat -> outcome (option star)) (idx : list nat)
    : outcome (list star) :=
  match idx with
  | [] => Return []
  | i :: idx' =>
    s <-- build i ;;
    stars <-- collect_stars build idx' ;;
    Return (match s with Some st => st :: stars | None => stars end)
  end.

(** [self.guide_stars[camera] = stars] *)
Definition store_stars (camera : string) (stars : list star) : M unit :=
  self <- get ;;
  match guide_stars self with
  | None => raise TypeError
  | Some d => modify (set_guide_stars_attr (Some (dict_set d camera stars)))
  end.

(** The body of the camera loop of [set_guide_stars]. *)
Definition register_camera (gfa_loc : list string) (col row mag : list float)
    (zeropoint : float) (profile : Q -> Q -> Q) (halfsize ny nx : Z)
    (camera : string) : M unit :=
  sel <- lift (star_selection gfa_loc mag camera) ;;
  if negb (existsb (fun b => b) sel) then ret tt
  else
    self <- get ;;
    stars <- lift (collect_stars
                     (guide_star (psf_pixels self) col row mag zeropoint profile
                        halfsize ny nx sel)
                     (np_where sel)) ;;
    match stars with
    | [] => ret tt
    | _ :: _ => store_stars camera stars
    end.

(** The reads of [f'... {self.night}/{self.expid}'] in a log message. *)
Definition read_exposure_id : M unit :=
  self <- get ;;
  lift (attr "night" (night self)) ;;
  lift (attr "expid" (expid self)) ;;
  ret tt.

(** [ETC.set_guide_stars(gfa_loc, col, row, mag, zeropoint=27.06,
    fiber_diam_um=107, pixel_size_um=15)] *)
Definition set_guide_stars (gfa_loc : list string) (col row mag : list float)
    (zeropoint : float) (fiber_diam_um pixel_size_um : Q) : M bool :=
  self <- get ;;
  match acquisition_results self with
  | None => ret false
  | Some _ =>
    match guide_stars self with
    | Some _ => read_exposure_id
    | None => ret tt
    end ;;
    (* line 121: a float divided by a zero *)
    (if Qeq_bool pixel_size_um 0 then raise ZeroDivisionError else ret tt) ;;
    let max_rsq := (((1 # 2) * fiber_diam_um / pixel_size_um) ^ 2)%Q in
    let profile := fiber_profile max_rsq in
    let halfsize := psf_pixels self / 2 in
    modify (set_guide_stars_attr (Some [])) ;;
    let ny := 2 * nampx (GFA self) in
    let nx := 2 * nampy (GFA self) in
    for_each (guide_names (GFA self))
      (register_camera gfa_loc col row mag zeropoint profile halfsize ny nx) ;;
    self <- get ;;
    match guide_stars self with
    | None => raise TypeError
    | Some [] => read_exposure_id ;; ret false
    | Some (_ :: _) => read_exposure_id ;; ret true
    end
  end.

(** 27.06 *)
Definition default_zeropoint : float := 0x1.b0f5c28f5c28fp+4%float.
Definition default_fiber_diam_um : Q := 107.
Definition default_pixel_size_um : Q := 15.

(** [obj.info]: the logging module has it. *)
Definition attr_info (obj : pyobj) : outcome unit :=
  match obj with
  | PyModule "logging" => Return tt
  | _ => Raise (AttributeError "info")
  end.

(** [obj.data[0]] and [obj.ivar[0]] *)
Definition attr_data (obj : pyobj) : outcome image :=
  match obj with
  | PyCamera g => Return (gfa_data g)
  | _ => Raise (AttributeError "data")
  end.

Definition attr_ivar (obj : pyobj) : outcome image :=
  match obj with
  | PyCamera g => Return (gfa_ivar g)
  | _ => Raise (AttributeError "ivar")
  end.

(** An object passed where [fit_dithered] takes an array. *)
Definition as_array (obj : pyobj) : outcome image :=
  match obj with
  | PyArray a => Return a
  | _ => Raise TypeError
  end.

(** The local variables at the end of the star loop of
    [process_guide_frame]. *)
Record star_fit : Type := {
  D : image;
  DW : image;
  dx : float;
  dy : float;
  flux : float;
  bg : float;
  nll : float;
  best_fit : image;
  ffrac : Q;
  transp : list float
}.

(** The body of the star loop of [process_guide_frame] (lines 203 to 216),
    with the names [GFA] and [WD] looked up in the globals [G]. *)
Definition guide_star_fit (G : namespace) (self : ETC) (psf : camera_result)
    (s : star) : outcome star_fit :=
  (* line 204: D = GFA.data[0, star['yslice'], star['xslice']] *)
  gfa <-- global G "GFA" ;;
  data <-- attr_data gfa ;;
  let D := cutout data (yslice s) (xslice s) in
  (* line 205: DW = GFA.ivar[0, star['yslice'], star['xslice']] *)
  gfa <-- global G "GFA" ;;
  ivar <-- attr_ivar gfa ;;
  let DW := cutout ivar (yslice s) (xslice s) in
  (* lines 208 and 209: the arguments are evaluated from left to right *)
  dithered <-- key "dithered" (cr_dithered psf) ;;
  wd <-- global G "WD" ;;
  WD <-- as_array wd ;;
  let r := GMM_fit_dithered (GMM self) (xdither self) (ydither self) dithered D WD in
  let dx := (fit_dx r - fiber_dx s)%float in
  let dy := (fit_dy r - fiber_dy s)%float in
  let ffrac := image_dot (fiber s) (fit_best r) in
  (* line 216: transp = flux / (star['nelec_rate'] * self.gfa_exptime) *)
  exptime <-- attr "gfa_exptime" (gfa_exptime self) ;;
  exptime <-- match exptime with Some t => Return t | None => Raise TypeError end ;;
  let transp :=
    map (fun rate => (fit_flux r / (rate * exptime))%float) (nelec_rate s) in
  Return {| D := D; DW := DW; dx := dx; dy := dy; flux := fit_flux r;
            bg := fit_bg r; nll := fit_nll r; best_fit := fit_best r;
            ffrac := ffrac; transp := transp |}.

(** The body of the camera loop of [process_guide_frame]. *)
Definition guide_camera (G : namespace) (data : payload)
    (item : string * camera_result) : M unit :=
  let camera := fst item in
  self <- get ;;
  registry <- lift (match guide_stars self with
                    | Some d => Return d
                    | None => Raise TypeError
                    end) ;;
  (* line 190: if camera not in self.guide_stars *)
  if negb (dict_in camera registry)
  then
    (* line 191: loggining.info(...); continue *)
    logger <- lift (global G "loggining") ;;
    lift (attr_info logger) ;;
    ret tt
  else
    (* line 193: if camera not in data *)
    match dict_get (images data) camera with
    | None => ret tt
    | Some cdata =>
      (* line 196 *)
      ok <- preprocess_gfa camera cdata 10%float ;;
      if negb ok then ret tt
      else
        (* lines 200 and 202 *)
        self <- get ;;
        results <- lift (match acquisition_results self with
                         | Some d => Return d
                         | None => Raise TypeError
                         end) ;;
        psf <- lift (key camera (dict_get results camera)) ;;
        registry <- lift (match guide_stars self with
                          | Some d => Return d
                          | None => Raise TypeError
                          end) ;;
        stars <- lift (key camera (dict_get registry camera)) ;;
        for_each stars
          (fun s =>
             self <- get ;;
             lift (guide_star_fit G self psf s) ;;
             ret tt)
    end.

(** [ETC.process_guide_frame(data)], run in a module whose globals are
    [G]. *)
Definition process_guide_frame (G : namespace) (data : payload) : M bool :=
  self <- get ;;
  (* line 175: fnum = self.num_guide_frames *)
  fnum <- lift (attr "num_guide_frames" (num_guide_frames self)) ;;
  (* lines 176 to 181 *)
  match acquisition_results self with
  | None => ret false
  | Some results =>
    match guide_stars self with
    | None => ret false
    | Some _ =>
      (* lines 182 to 187 *)
      hdr <- lift (key "header" (header data)) ;;
      lift (attr "night" (night self)) ;;
      lift (key "NIGHT" (NIGHT hdr)) ;;
      lift (attr "expid" (expid self)) ;;
      lift (key "EXPID" (EXPID hdr)) ;;
      read_exposure_id ;;
      (* lines 189 to 216 *)
      for_each results (guide_camera G data) ;;
      (* line 220: self.num_guide_frames += 1 *)
      self <- get ;;
      n <- lift (attr "num_guide_frames" (num_guide_frames self)) ;;
      modify (set_num_guide_frames (n + 1)) ;;
      ret true
    end
  end.

End Methods.

(** ** Vocabulary of the statements *)

Section Vocabulary.

Context {C : Collaborators}.

(** The list [stars] that the camera loop of [set_guide_stars] builds for
    [camera] (lines 128 to 158). *)
Definition camera_stars (pixels : Z) (gfa_loc : list string)
    (col row mag : list float) (zeropoint : float) (profile : Q -> Q -> Q)
    (halfsize ny nx : Z)
    (camera : string) : outcome (list star) :=
  sel <-- star_selection gfa_loc mag camera ;;
  collect_stars (guide_star pixels col row mag zeropoint profile halfsize ny nx sel)
    (np_where sel).

(** The catalog position [(c, r)] passes the test of line 147 on the
    frame of [self.GFA]: the four [int64] bounds that lines 144 to 146
    compute for it are not outside. *)
Definition window_fits (self : ETC) (c r : float) : bool :=
  let halfsize := psf_pixels self / 2 in
  let iy := np_round_int (r - 0.5)%float in
  let ix := np_round_int (c - 0.5)%float in
  negb (outside_frame (wrap64 (iy - halfsize)) (wrap64 (wrap64 (iy + halfsize) + 1))
          (wrap64 (ix - halfsize)) (wrap64 (wrap64 (ix + halfsize) + 1))
          (2 * nampx (GFA self)) (2 * nampy (GFA self))).

(** The catalog entry [j] passes the tests of lines 128 and 147 for one of
    the guide cameras. *)
Definition usable (self : ETC) (gfa_loc : list string) (col row mag : list float)
    (j : nat) : bool :=
  match nth_error gfa_loc j, nth_error col j, nth_error row j, nth_error mag j with
  | Some loc, Some c, Some r, Some m =>
      one_of (guide_names (GFA self)) loc && (0 <? m)%float && window_fits self c r
  | _, _, _, _ => false
  end.

(** The four arrays of a catalog have one length. *)
Definition catalog_ok (gfa_loc : list string) (col row mag : list float) : bool :=
  Nat.eqb (List.length gfa_loc) (List.length mag)
  && Nat.eqb (List.length col) (List.length mag)
  && Nat.eqb (List.length row) (List.length mag).

(** A payload has the keys that the methods subscript: ['header'] with
    ['NIGHT'] and ['EXPID'], and ['header'] and ['data'] for every camera
    it has. *)
Definition exposure_ok (data : payload) : bool :=
  match header data with
  | Some hdr =>
      match NIGHT hdr, EXPID hdr with
      | Some _, Some _ => true
      | _, _ => false
      end
  | None => false
  end.

Definition camera_ok (p : camera_payload) : bool :=
  match cp_header p, cp_data p with
  | Some _, Some _ => true
  | _, _ => false
  end.

Definition payload_ok (data : payload) : bool :=
  exposure_ok data && forallb (fun kv => camera_ok (snd kv)) (images data).

(** The assertions of lines 83 and 84 hold for every stack of PSF stamps
    that the camera object gives. *)
Definition stamps_ok (pixels : Z) : Prop :=
  forall g T WT,
    psf_stack g = Some (T, WT) ->
    has_shape (List.length T) (List.length T) T
    && has_shape (List.length T) (List.length T) WT
    && (pixels <=? Z.of_nat (List.length T)) = true.

(** The image [p] of [camera] passes [preprocess_gfa] and the search for
    PSFs when the pipeline is in the state [s]. *)
Definition camera_processed (camera : string) (p : camera_payload) (s : ETC) : bool :=
  match preprocess_gfa camera p 10%float s with
  | (Return true, s') =>
      match psf_stack (get_psfs (GFA s')) with
      | Some _ => true
      | None => false
      end
  | _ => false
  end.

(** The state in which the camera loop of [process_acquisition] starts
    (lines 62 to 67), for the ['NIGHT'] and ['EXPID'] of the header. *)
Definition acquisition_start (n e : Z) (s : ETC) : ETC :=
  set_acquisition_results (Some []) (set_expid e (set_night n s)).

(** The turns of that loop over the cameras [l] from the state [s]: each
    camera with the state in which its turn starts. *)
Fixpoint camera_turns (data : payload) (l : list string) (s : ETC)
    : list (string * ETC) :=
  match l with
  | [] => []
  | camera :: l' =>
      (camera, s) :: camera_turns data l' (snd (acquire_camera data camera s))
  end.

(** The turn [t] stores an entry under the key [k]: it is the turn of [k],
    which has an image that passes [preprocess_gfa] and the search for
    PSFs. *)
Definition stored_in_turn (data : payload) (k : string) (t : string * ETC) : bool :=
  String.eqb k (fst t)
  && match dict_get (images data) (fst t) with
     | Some p => camera_processed (fst t) p (snd t)
     | None => false
     end.

(** [s'] differs from [s] at most in the camera object and in the two
    attributes that [preprocess_gfa] assigns. *)
Definition same_exposure (s s' : ETC) : Prop :=
  acquisition_results s' = acquisition_results s
  /\ guide_stars s' = guide_stars s
  /\ psf_pixels s' = psf_pixels s
  /\ GMM s' = GMM s
  /\ xdither s' = xdither s
  /\ ydither s' = ydither s
  /\ night s' = night s
  /\ expid s' = expid s
  /\ num_guide_frames s' = num_guide_frames s.

End Vocabulary.

(** ** A laboratory instance of the collaborators

    A small, computable stand-in for the camera, fit and template code,
    used to run the methods on concrete payloads: 6 by 6 frames, three
    guide cameras. *)
Module Lab.

Record camera : Type := { frame : image; weights : image }.

Definition first_pixel (img : image) : Q :=
  match img with
  | (p :: _) :: _ => p
  | _ => 0%Q
  end.

Definition flat (v : Q) : image := repeat (repeat v 6%nat) 6%nat.

(** An empty raw image is refused. *)
Definition lab_setraw (g : camera) (raw : image) (name : string) : bool * camera :=
  match raw with
  | [] => (false, g)
  | _ :: _ => (true, {| frame := raw; weights := map (map (fun _ => 1%Q)) raw |})
  end.

Definition lab_isub_data (g : camera) (dark : Q) : camera :=
  {| frame := map (map (fun p => (p - dark)%Q)) (frame g); weights := weights g |}.

(** The stack is the frame itself, when it is square, at least three
    pixels wide and does not start with a negative pixel. *)
Definition lab_psf_stack (g : camera) : option (image * image) :=
  let n := List.length (frame g) in
  if has_shape n n (frame g) && has_shape n n (weights g)
     && (3 <=? Z.of_nat n) && negb (Qltb (first_pixel (frame g)) 0)
  then Some (frame g, weights g)
  else None.

(** The fit fails on a stamp that starts with a zero. *)
Definition lab_fit (gmm : unit) (T WT : image) (maxgauss : Z) : option Q :=
  if Qeq_bool (first_pixel T) 0 then None else Some (first_pixel T).

(** The fit of a guide star finds it where the catalog says, with a flux
    of one electron. *)
Definition lab_fit_dithered (gmm : unit) (xd yd : list Q) (dithered : list image)
    (D W : image) : fit_result :=
  {| fit_dx := 0%float; fit_dy := 0%float; fit_flux := 1%float; fit_bg := 0%float;
     fit_nll := 0%float; fit_best := D |}.

(** The power with the exponent rounded down to an integer, for an
    exponent between zero and [fuel]. *)
Fixpoint float_pow (fuel : nat) (b e : float) : float :=
  match fuel with
  | O => 1%float
  | S fuel' => if (e <? 1)%float then 1%float else (b * float_pow fuel' b (e - 1))%float
  end.

Definition lab_power (b e : float) : float := float_pow 8 b e.

Definition lab : Collaborators :=
  {| SkyCamera := unit;
     GFACamera := camera;
     GMMFit := unit;
     raw_image := image;
     gmm_params := Q;
     dark_current := Q;
     SkyCamera_new := fun _ => tt;
     GFACamera_new := fun _ => {| frame := []; weights := [] |};
     guide_names := fun _ => ["GUIDE0"; "GUIDE2"; "GUIDE3"];
     nampx := fun _ => 3;
     nampy := fun _ => 3;
     gfa_data := frame;
     gfa_ivar := weights;
     setraw := lab_setraw;
     get_dark_current := fun _ _ _ => 0%Q;
     isub_data := lab_isub_data;
     get_psfs := fun g => g;
     psf_stack := lab_psf_stack;
     GMMFit_new := fun _ _ => tt;
     GMM_fit := lab_fit;
     GMM_predict := fun _ p => [[p]];
     GMM_dither := fun _ p xd _ => map (fun _ => [[p]]) xd;
     GMM_fit_dithered := lab_fit_dithered;
     diskgrid := fun _ _ _ => ([0%Q], [0%Q]);
     make_template := fun _ profile _ _ _ => [[profile 0%Q 0%Q]];
     power := lab_power |}.

(** The object that [ETC('sky', 'gfa', psf_pixels=3)] builds. *)
Definition fresh : @ETC lab :=
  @Build_ETC lab tt {| frame := []; weights := [] |} tt 3 [0%Q] [0%Q]
    None None Missing Missing Missing Missing Missing.

Definition shot (raw : image) : @camera_payload lab :=
  @Build_camera_payload lab
    (Some {| MJD_OBS := Some 59197%float; EXPTIME := Some 5%float;
             GCCDTEMP := None |})
    (Some raw).

(** An exposure with images for two of the three guide cameras; the fit of
    the PSF fails on the image of GUIDE0. *)
Definition frames : @payload lab :=
  @Build_payload lab
    (Some {| NIGHT := Some 20201214; EXPID := Some 68000 |})
    [("GUIDE0", shot (flat 0)); ("GUIDE2", shot (flat 1))].

(** The pipeline after [process_acquisition(frames)]. *)
Definition acquired : @ETC lab :=
  Eval vm_compute in snd (process_acquisition frames fresh).

(** A catalog: one star on GUIDE0, three on GUIDE2, the last of them too
    close to the border. *)
Definition cat_loc : list string := ["GUIDE0"; "GUIDE2"; "GUIDE2"; "GUIDE2"].
Definition cat_col : list float :=
  [3.5; 3.5; 2.5; 0x1.6666666666666p-1 (* 0.7 *)]%float.
Definition cat_row : list float := [3.5; 3.5; 3.5; 3]%float.
Definition cat_mag : list float := [15; 15; 18; 16]%float.

(** The pipeline after [set_guide_stars] with that catalog. *)
Definition registered : @ETC lab :=
  Eval vm_compute in
    snd (set_guide_stars cat_loc cat_col cat_row cat_mag default_zeropoint
           default_fiber_diam_um default_pixel_size_um acquired).

(** A catalog whose stars are all too close to the border. *)
Definition edge_col : list float :=
  [0x1.6666666666666p-1 (* 0.7 *); 0x1.999999999999ap-3 (* 0.2 *); 6;
   0x1.799999999999ap+2 (* 5.9 *)]%float.

Definition unregistered : @ETC lab :=
  Eval vm_compute in
    snd (set_guide_stars cat_loc edge_col cat_row cat_mag default_zeropoint
           default_fiber_diam_um default_pixel_size_um acquired).

(** Module globals in which the names [GFA], [WD] and [loggining] are
    bound: to a camera object, an array and the logging module. *)
Definition patched (g : camera) (wd : image) : @namespace lab :=
  with_global "GFA" (@PyCamera lab g)
    (with_global "WD" (PyArray wd)
       (with_global "loggining" (PyModule "logging") etc_globals)).

End Lab.

(** ** Vocabulary of the further properties *)

Section Coverage.

Context {C : Collaborators}.

(** [psf_grid] of line 50: [np.arange(psf_pixels + 1) - psf_pixels / 2]. *)
Definition psf_grid (pixels : Z) : list Q :=
  map (fun a => (a - inject_Z pixels / 2)%Q) (arange (pixels + 1)).

(** The two tests of lines 235 and 239 on the header of a camera image
    both pass. *)
Definition header_valid (hdr : camera_header) : bool :=
  match MJD_OBS hdr, EXPTIME hdr with
  | Some mjd, Some exptime =>
      negb (mjd <? 58484)%float && negb (exptime <=? 0)%float
  | _, _ => false
  end.

(** The temperature that line 251 passes to [get_dark_current]. *)
Definition ccdtemp_of (hdr : camera_header) (default_ccdtemp : float) : float :=
  match GCCDTEMP hdr with
  | Some t => t
  | None => default_ccdtemp
  end.

(** An entry of [acquisition_results] as a turn of the camera loop leaves
    it: two stamps of the size of the PSF stamp, the parameters that the
    fit gives for them, and the model and the dithered renderings of those
    parameters. *)
Definition entry_ok (self : ETC) (cr : camera_result) : Prop :=
  exists T WT,
    cr_data cr = Some T
    /\ cr_ivar cr = Some WT
    /\ has_shape (Z.to_nat (psf_pixels self)) (Z.to_nat (psf_pixels self)) T = true
    /\ has_shape (Z.to_nat (psf_pixels self)) (Z.to_nat (psf_pixels self)) WT = true
    /\ cr_gmm cr = GMM_fit (GMM self) T WT 3
    /\ cr_model cr = option_map (GMM_predict (GMM self)) (cr_gmm cr)
    /\ cr_dithered cr
       = option_map
           (fun p => GMM_dither (GMM self) p (xdither self) (ydither self))
           (cr_gmm cr).

(** The float [x] is finite and at most 2^62 in absolute value: far from
    the values that the cast of line 144 and the sums of lines 145 and 146
    cannot hold in an [int64]. *)
Definition moderate (x : float) : bool :=
  match float_value x with
  | Some q => Qle_bool (- inject_Z (2 ^ 62)) q && Qle_bool q (inject_Z (2 ^ 62))
  | None => false
  end.

(** [s'] differs from [s] at most in the camera object, in the two
    attributes that [preprocess_gfa] assigns and in the counter of guide
    frames. *)
Definition same_pipeline (s s' : ETC) : Prop :=
  acquisition_results s' = acquisition_results s
  /\ guide_stars s' = guide_stars s
  /\ psf_pixels s' = psf_pixels s
  /\ GMM s' = GMM s
  /\ xdither s' = xdither s
  /\ ydither s' = ydither s
  /\ night s' = night s
  /\ expid s' = expid s.

End Coverage.

(** Further payloads and states of the laboratory. *)
Module Bench.

Import Lab.

(** An exposure without any camera image. *)
Definition blank : @payload lab :=
  @Build_payload lab (Some {| NIGHT := Some 20201214; EXPID := Some 68001 |}) [].

(** The pipeline after [process_acquisition(blank)]: no camera has a
    result. *)
Definition idle : @ETC lab :=
  Eval vm_compute in snd (process_acquisition blank fresh).

(** The pipeline after [set_guide_stars] with the catalog on [idle]. *)
Definition idle_registered : @ETC lab :=
  Eval vm_compute in
    snd (set_guide_stars cat_loc cat_col cat_row cat_mag default_zeropoint
           default_fiber_diam_um default_pixel_size_um idle).

(** The registered pipeline, had it been built with [psf_pixels=7]: wider
    than the stamps of the laboratory camera. *)
Definition oversized : @ETC lab :=
  @Build_ETC lab (SKY registered) (GFA registered) (GMM registered) 7
    (xdither registered) (ydither registered) (acquisition_results registered)
    (guide_stars registered) (night registered) (expid registered)
    (num_guide_frames registered) (gfa_mjd_obs registered)
    (gfa_exptime registered).

(** A camera image taken before 2019. *)
Definition old_shot : @camera_payload lab :=
  @Build_camera_payload lab
    (Some {| MJD_OBS := Some 58000%float; EXPTIME := Some 5%float;
             GCCDTEMP := None |})
    (Some (flat 1)).

(** A camera image whose raw data the camera refuses. *)
Definition empty_shot : @camera_payload lab :=
  @Build_camera_payload lab
    (Some {| MJD_OBS := Some 59197%float; EXPTIME := Some 5%float;
             GCCDTEMP := Some 3%float |})
    (Some []).

(** The exposure [frames] with another night and exposure identifier. *)
Definition other_night : @payload lab :=
  @Build_payload lab (Some {| NIGHT := Some 20201215; EXPID := Some 1 |})
    (images frames).

(** A camera image with a valid header and without the key ['data']. *)
Definition no_data : @camera_payload lab :=
  @Build_camera_payload lab
    (Some {| MJD_OBS := Some 59197%float; EXPTIME := Some 5%float;
             GCCDTEMP := None |})
    None.

(** The pipeline after [preprocess_gfa('GUIDE2', shot)] on a new object. *)
Definition exposed : @ETC lab :=
  Eval vm_compute in snd (preprocess_gfa "GUIDE2" (shot (flat 1)) 10%float fresh).

(** A camera image whose header has a NaN for the observation date and
    for the exposure time. *)
Definition nan_shot : @camera_payload lab :=
  @Build_camera_payload lab
    (Some {| MJD_OBS := Some nan; EXPTIME := Some nan; GCCDTEMP := None |})
    (Some (flat 1)).

(** The pipeline after [preprocess_gfa('GUIDE2', nan_shot)] on a new
    object. *)
Definition dazed : @ETC lab :=
  Eval vm_compute in snd (preprocess_gfa "GUIDE2" nan_shot 10%float fresh).

(** The pipeline after [preprocess_gfa('GUIDE2', no_data)] has raised. *)
Definition stalled : @ETC lab :=
  Eval vm_compute in snd (preprocess_gfa "GUIDE2" no_data 10%float acquired).

(** The pipeline after [process_acquisition(frames)] has raised on
    [oversized]. *)
Definition aborted : @ETC lab :=
  Eval vm_compute in snd (process_acquisition frames oversized).

(** A catalog with a star of GUIDE2 far outside the frame, at the column
    1e30, and one too close to the border. *)
Definition far_loc : list string := ["GUIDE0"; "GUIDE2"; "GUIDE2"].
Definition far_col : list float :=
  [3.5; 0x1.93e5939a08ceap+99 (* 1e30 *); 0x1.6666666666666p-1 (* 0.7 *)]%float.
Definition far_row : list float := [3.5; 3.5; 3]%float.
Definition far_mag : list float := [15; 15; 16]%float.

(** The pipeline after [set_guide_stars] with that catalog. *)
Definition overflowed : @ETC lab :=
  Eval vm_compute in
    snd (set_guide_stars far_loc far_col far_row far_mag default_zeropoint
           default_fiber_diam_um default_pixel_size_um acquired).




End Bench.

(** * Properties *)

Unset Implicit Arguments.

(** ** Dictionaries *)

Lemma dict_get_set {V : Type} (d : dict V) (c k : string) (v : V) :
  dict_get (dict_set d c v) k = if String.eqb k c then Some v else dict_get d k.
Proof.
  induction d as [|[k' v'] d IH]; simpl.
  - reflexivity.
  - destruct (String.eqb c k') eqn:Eck; simpl.
    + apply String.eqb_eq in Eck; subst k'.
      destruct (String.eqb k c); reflexivity.
    + destruct (String.eqb k k') eqn:Ekk.
      * apply String.eqb_eq in Ekk; subst k'.
        rewrite String.eqb_sym, Eck. reflexivity.
      * exact IH.
Qed.

Lemma dict_in_set {V : Type} (d : dict V) (c k : string) (v : V) :
  dict_in k (dict_set d c v) = dict_in k d || String.eqb k c.
Proof.
  unfold dict_in. rewrite dict_get_set.
  destruct (String.eqb k c), (dict_get d k); reflexivity.
Qed.

Lemma dict_get_In {V : Type} (d : dict V) (k : string) (v : V) :
  dict_get d k = Some v -> In (k, v) d.
Proof.
  induction d as [|[k' v'] d IH]; simpl; [discriminate|].
  destruct (String.eqb k k') eqn:E.
  - apply String.eqb_eq in E; subst k'. intros [= ->]. now left.
  - intros H. right. now apply IH.
Qed.

(** ** Construction *)

Section Construction.

Context {C : Collaborators}.

(** C7.  [ETC(...)] raises [ValueError('psf_pixels must be odd.')] for
    every even [psf_pixels], and for every odd [psf_pixels] it raises
    nothing and returns the object, which keeps that stamp size. *)
Theorem init_raises_exactly_on_even_psf_pixels :
  forall (sky_calib gfa_calib : string) (pixels : Z) (max_dither : Q)
         (num_dither : Z),
    (Z.even pixels = true ->
     ETC_init sky_calib gfa_calib pixels max_dither num_dither
     = Raise (ValueError "psf_pixels must be odd."))
    /\ (Z.odd pixels = true ->
        exists self,
          ETC_init sky_calib gfa_calib pixels max_dither num_dither = Return self
          /\ psf_pixels self = pixels).
Proof.
  intros sky_calib gfa_calib pixels max_dither num_dither.
  unfold ETC_init. split; intros H.
  - rewrite Zeven_mod in H. rewrite H. reflexivity.
  - rewrite Zodd_mod in H.
    assert (E : (pixels mod 2 =? 0) = false).
    { apply Z.eqb_neq. intros E0. rewrite E0 in H. discriminate. }
    rewrite E. eexists. split; reflexivity.
Qed.

(** What [__init__] leaves: no acquisition, no guide stars, and no
    attribute [num_guide_frames]. *)
Lemma init_state sky_calib gfa_calib pixels max_dither num_dither self :
  ETC_init sky_calib gfa_calib pixels max_dither num_dither = Return self ->
  acquisition_results self = None
  /\ guide_stars self = None
  /\ num_guide_frames self = Missing.
Proof.
  unfold ETC_init. destruct (pixels mod 2 =? 0); [discriminate|].
  intros [= <-]. repeat split.
Qed.

End Construction.

(** ** Guide frames out of sequence *)

Section Sequencing.

Context {C : Collaborators}.

(** C4.  On the object that [__init__] returns, that is before any
    acquisition, [process_guide_frame] does not return [False]: line 175
    reads [self.num_guide_frames], which only [process_acquisition]
    assigns, and the call raises [AttributeError].  The object is left as
    it was. *)
Theorem guide_frame_before_acquisition_raises :
  forall (sky_calib gfa_calib : string) (pixels : Z) (max_dither : Q)
         (num_dither : Z) (self : ETC) (G : namespace) (data : payload),
    ETC_init sky_calib gfa_calib pixels max_dither num_dither = Return self ->
    process_guide_frame G data self
    = (Raise (AttributeError "num_guide_frames"), self).
Proof.
  intros sky_calib gfa_calib pixels max_dither num_dither self G data H.
  apply init_state in H. destruct H as (_ & _ & Hn).
  unfold process_guide_frame, bind, get, lift. rewrite Hn. reflexivity.
Qed.

(** Once the counter exists, a guide frame that comes before the
    acquisition results or before the guide stars is refused with [False]
    and the object is left as it was. *)
Lemma guide_frame_out_of_sequence (G : namespace) (data : payload) (self : ETC) (n : Z) :
  num_guide_frames self = Bound n ->
  acquisition_results self = None \/ guide_stars self = None ->
  process_guide_frame G data self = (Return false, self).
Proof.
  intros Hn H. unfold process_guide_frame, bind, get, lift. rewrite Hn. simpl.
  destruct H as [H|H]; rewrite H.
  - reflexivity.
  - destruct (acquisition_results self); reflexivity.
Qed.

End Sequencing.

(** ** The star loop of a guide frame *)

Section StarLoop.

Context {C : Collaborators}.

(** C2.  In the module as written the star loop of [process_guide_frame]
    never calls [fit_dithered]: line 204 names a global [GFA] that the
    module does not bind.  With [GFA] bound the call still is not reached,
    because its last argument names [WD] and the weights were stored in
    [DW]; and with [WD] bound too the fit receives that global array, not
    the cutout [DW] of the weights. *)
Theorem guide_star_fit_uses_unbound_names :
  forall (self : ETC) (psf : camera_result) (s : star),
    guide_star_fit etc_globals self psf s = Raise (NameError "GFA")
    /\ (forall (g : GFACamera) (dithered : list image),
          guide_star_fit (with_global "GFA" (PyCamera g) etc_globals) self
            (with_dithered dithered psf) s
          = Raise (NameError "WD"))
    /\ (forall (g : GFACamera) (wd : image) (dithered : list image) (t : float),
          exists r,
            guide_star_fit
              (with_global "WD" (PyArray wd)
                 (with_global "GFA" (PyCamera g) etc_globals))
              (set_gfa_exptime (Some t) self) (with_dithered dithered psf) s
            = Return r
            /\ D r = cutout (gfa_data g) (yslice s) (xslice s)
            /\ DW r = cutout (gfa_ivar g) (yslice s) (xslice s)
            /\ flux r
               = fit_flux (GMM_fit_dithered (GMM self) (xdither self)
                             (ydither self) dithered (D r) wd)).
Proof.
  intros self psf s. split; [reflexivity|]. split.
  - intros g dithered. reflexivity.
  - intros g wd dithered t. eexists. split; [reflexivity|].
    repeat split.
Qed.

(** A camera whose entry has no key ['dithered'] makes the star loop raise
    [KeyError], whatever the globals bind [GFA] to. *)
Lemma guide_star_fit_without_dithered (G : namespace) (g : GFACamera)
    (self : ETC) (psf : camera_result) (s : star) :
  G "GFA" = Some (PyCamera g) ->
  cr_dithered psf = None ->
  guide_star_fit G self psf s = Raise (KeyError "dithered").
Proof.
  intros HG Hd. unfold guide_star_fit, global. rewrite HG. simpl.
  rewrite Hd. reflexivity.
Qed.

(** One turn of the camera loop of a guide frame, in the module as
    written: a camera that has a registered star and a frame that passes
    [preprocess_gfa] ends the loop with [NameError]. *)
Lemma guide_camera_aborts data camera acquisition s registry cdata st stars s1
    results psf :
  guide_stars s = Some registry ->
  dict_get registry camera = Some (st :: stars) ->
  dict_get (images data) camera = Some cdata ->
  preprocess_gfa camera cdata 10%float s = (Return true, s1) ->
  acquisition_results s1 = Some results ->
  dict_get results camera = Some psf ->
  guide_stars s1 = guide_stars s ->
  guide_camera etc_globals data (camera, acquisition) s
  = (Raise (NameError "GFA"), s1).
Proof.
  intros Hreg Hstars Himg Hpre Hres Hpsf Hsame.
  unfold guide_camera. cbv [bind get lift ret fst]. rewrite Hreg.
  unfold dict_in. rewrite Hstars, Himg. cbn iota. cbn [negb]. rewrite Hpre.
  cbn iota. cbn [negb]. rewrite Hres. cbn iota. rewrite Hpsf. cbn [key].
  rewrite Hsame, Hreg. cbn iota. rewrite Hstars. reflexivity.
Qed.

End StarLoop.

(** ** Acquisition *)

Section Acquisition.

Context {C : Collaborators}.

Lemma same_exposure_refl (s : ETC) : same_exposure s s.
Proof. repeat split. Qed.

Lemma same_exposure_trans (s1 s2 s3 : ETC) :
  same_exposure s1 s2 -> same_exposure s2 s3 -> same_exposure s1 s3.
Proof.
  unfold same_exposure. intros H1 H2.
  decompose [and] H1. decompose [and] H2. repeat split; congruence.
Qed.

(** [preprocess_gfa] assigns [GFA], [gfa_mjd_obs] and [gfa_exptime] only,
    however it ends. *)
Lemma preprocess_gfa_same_exposure camera p t s :
  same_exposure s (snd (preprocess_gfa camera p t s)).
Proof.
  unfold preprocess_gfa, bind, lift, key, modify, ret, get.
  destruct (cp_header p) as [hdr|]; cbn; [|apply same_exposure_refl].
  destruct (MJD_OBS hdr) as [mjd|]; cbn; [|repeat split].
  destruct (mjd <? 58484)%float; cbn; [repeat split|].
  destruct (EXPTIME hdr) as [exptime|]; cbn; [|repeat split].
  destruct (exptime <=? 0)%float; cbn; [repeat split|].
  destruct (cp_data p) as [raw|]; cbn; [|repeat split].
  destruct (setraw (GFA s) raw camera) as [[|] g]; cbn; repeat split.
Qed.

(** On a camera payload that has its two keys, [preprocess_gfa] returns. *)
Lemma preprocess_gfa_returns camera p t s :
  camera_ok p = true ->
  exists b, fst (preprocess_gfa camera p t s) = Return b.
Proof.
  unfold camera_ok, preprocess_gfa, bind, lift, key, modify, ret, get.
  destruct (cp_header p) as [hdr|]; [|discriminate].
  destruct (cp_data p) as [raw|]; [|discriminate]. intros _. cbn.
  destruct (MJD_OBS hdr) as [mjd|]; cbn; [|eauto].
  destruct (mjd <? 58484)%float; cbn; [eauto|].
  destruct (EXPTIME hdr) as [exptime|]; cbn; [|eauto].
  destruct (exptime <=? 0)%float; cbn; [eauto|].
  destruct (setraw (GFA s) raw camera) as [[|] g]; cbn; eauto.
Qed.

Lemma store_result_run camera cr s d :
  acquisition_results s = Some d ->
  store_result camera cr s
  = (Return tt, set_acquisition_results (Some (dict_set d camera cr)) s).
Proof.
  intros H. unfold store_result, bind, get, modify. rewrite H. reflexivity.
Qed.

(** One turn of the camera loop of [process_acquisition] on a well-formed
    payload: it returns, and the key of the camera is added exactly when
    the camera has an image that passes [preprocess_gfa] and the search
    for PSFs. *)
Lemma acquire_camera_spec data c s d :
  (forall p, dict_get (images data) c = Some p -> camera_ok p = true) ->
  stamps_ok (psf_pixels s) ->
  acquisition_results s = Some d ->
  exists s' d',
    acquire_camera data c s = (Return tt, s')
    /\ acquisition_results s' = Some d'
    /\ psf_pixels s' = psf_pixels s
    /\ (forall k,
          dict_in k d'
          = dict_in k d
            || (String.eqb k c
                && match dict_get (images data) c with
                   | Some p => camera_processed c p s
                   | None => false
                   end)).
Proof.
  intros Hok Hst Hd. unfold acquire_camera, camera_processed.
  destruct (dict_get (images data) c) as [p|] eqn:Ep.
  2:{ exists s, d. repeat split; auto. intros k.
      now rewrite andb_false_r, orb_false_r. }
  specialize (Hok p eq_refl).
  destruct (preprocess_gfa_returns c p 10%float s Hok) as [b Hb].
  pose proof (preprocess_gfa_same_exposure c p 10%float s) as Hsame.
  unfold bind at 1.
  destruct (preprocess_gfa c p 10%float s) as [o s1]. simpl in Hb, Hsame. subst o.
  destruct Hsame as (Ha & _ & Hp & _).
  destruct b; simpl.
  2:{ exists s1, d. unfold ret. repeat split; try congruence. intros k.
      now rewrite andb_false_r, orb_false_r. }
  unfold bind at 1, get at 1. unfold bind at 1, modify at 1.
  unfold bind at 1, get at 1. cbn [GFA set_GFA].
  destruct (psf_stack (get_psfs (GFA s1))) as [[T WT]|] eqn:Estack.
  2:{ eexists _, d. unfold ret. repeat split; cbn; try congruence. intros k.
      now rewrite andb_false_r, orb_false_r. }
  pose proof (Hst _ _ _ Estack) as Hshape. rewrite <- Hp in Hshape.
  apply andb_prop in Hshape. destruct Hshape as [Hshape Hle].
  cbn [psf_pixels set_GFA GMM xdither ydither].
  rewrite Hshape, Hle. unfold lift, assert.
  unfold bind at 1. unfold bind at 1.
  set (s2 := set_GFA _ s1).
  assert (H2 : acquisition_results s2 = Some d) by (cbn; congruence).
  unfold bind at 1. rewrite (store_result_run _ _ _ _ H2).
  destruct (GMM_fit _ _ _ _) as [params|].
  - unfold bind at 1. erewrite store_result_run by reflexivity.
    unfold bind at 1. erewrite store_result_run by reflexivity.
    erewrite store_result_run by reflexivity.
    eexists _, _. split; [reflexivity|]. split; [reflexivity|].
    split; [exact Hp|]. intros k. cbn [acquisition_results set_acquisition_results].
    rewrite !dict_in_set, andb_true_r.
    destruct (dict_in k d), (String.eqb k c); reflexivity.
  - eexists _, _. split; [reflexivity|]. split; [reflexivity|].
    split; [exact Hp|]. intros k.
    rewrite !dict_in_set, andb_true_r. reflexivity.
Qed.

Lemma dict_get_camera_ok data c p :
  payload_ok data = true ->
  dict_get (images data) c = Some p ->
  camera_ok p = true.
Proof.
  unfold payload_ok. intros H Hp. apply andb_prop in H. destruct H as [_ H].
  rewrite forallb_forall in H. apply dict_get_In in Hp.
  exact (H _ Hp).
Qed.

(** The camera loop of [process_acquisition] on a well-formed payload: it
    returns, and the keys it adds are those stored in its turns. *)
Lemma acquire_loop_spec data l :
  forall s d,
    payload_ok data = true ->
    stamps_ok (psf_pixels s) ->
    acquisition_results s = Some d ->
    exists s' d',
      for_each l (acquire_camera data) s = (Return tt, s')
      /\ acquisition_results s' = Some d'
      /\ psf_pixels s' = psf_pixels s
      /\ forall k,
           dict_in k d'
           = dict_in k d || existsb (stored_in_turn data k) (camera_turns data l s).
Proof.
  induction l as [|c l IH]; intros s d Hok Hst Hd.
  - exists s, d. simpl. unfold ret. repeat split; auto.
    intros k. now rewrite orb_false_r.
  - destruct (acquire_camera_spec data c s d) as (s1 & d1 & Hrun & Hd1 & Hp1 & Hk1);
      auto.
    { intros p Hp. eapply dict_get_camera_ok; eauto. }
    destruct (IH s1 d1) as (s2 & d2 & Hrun2 & Hd2 & Hp2 & Hk2); auto.
    { now rewrite Hp1. }
    exists s2, d2. cbn [for_each camera_turns]. unfold bind at 1. rewrite Hrun.
    split; [exact Hrun2|]. split; [exact Hd2|]. split; [congruence|].
    intros k. rewrite Hk2, Hk1. cbn [snd existsb].
    unfold stored_in_turn at 1. cbn [fst snd]. now rewrite orb_assoc.
Qed.

Lemma camera_turns_In data l :
  forall s camera,
    (forall s0, In (camera, s0) (camera_turns data l s) -> In camera l)
    /\ (In camera l -> exists s0, In (camera, s0) (camera_turns data l s)).
Proof.
  induction l as [|c l IH]; intros s camera; cbn [camera_turns]; split.
  - intros s0 [].
  - intros [].
  - intros s0 [[= <- <-]|H]; [now left|].
    right. exact (proj1 (IH _ camera) s0 H).
  - intros [<-|H].
    + exists s. now left.
    + destruct (proj2 (IH (snd (acquire_camera data c s)) camera) H) as [s0 H0].
      exists s0. now right.
Qed.

(** [process_acquisition] on a well-formed payload: the call returns, the
    state of the exposure is reset, and the keys of [acquisition_results]
    are those stored in the turns of the camera loop. *)
Lemma process_acquisition_spec (data : payload) (s : ETC) :
  payload_ok data = true ->
  stamps_ok (psf_pixels s) ->
  exists s' results n e,
    process_acquisition data s = (Return tt, s')
    /\ header data = Some {| NIGHT := Some n; EXPID := Some e |}
    /\ acquisition_results s' = Some results
    /\ guide_stars s' = None
    /\ num_guide_frames s' = Bound 0
    /\ forall k,
         dict_in k results
         = existsb (stored_in_turn data k)
             (camera_turns data (guide_names (GFA s)) (acquisition_start n e s)).
Proof.
  intros Hok Hst.
  assert (Hex : exposure_ok data = true).
  { unfold payload_ok in Hok. now apply andb_prop in Hok. }
  unfold exposure_ok in Hex.
  cbv [process_acquisition bind lift key modify get ret].
  destruct (header data) as [[[n|] [e|]]|]; try discriminate. clear Hex.
  cbn [NIGHT EXPID].
  destruct (acquire_loop_spec data (guide_names (GFA s)) (acquisition_start n e s) [])
    as (s1 & d1 & Hrun & Hd1 & _ & Hk); auto.
  change (set_acquisition_results (Some []) (set_expid e (set_night n s)))
    with (acquisition_start n e s).
  change (GFA (acquisition_start n e s)) with (GFA s).
  rewrite Hrun.
  eexists _, d1, n, e. split; [reflexivity|]. split; [reflexivity|].
  split; [exact Hd1|]. split; [reflexivity|]. split; [reflexivity|].
  exact Hk.
Qed.

(** C6.  On a payload that has its keys, with PSF stamps that meet the two
    assertions, [process_acquisition] returns whatever cameras are
    missing.  [acquisition_results] then has no entry for a camera without
    an image; it has an entry for a camera exactly when, in a turn of the
    loop over the guide cameras, the image of that camera was there and
    passed [preprocess_gfa] and the search for PSFs; in particular it has
    one for each guide camera whose image passes them whatever the camera
    object holds. *)
Theorem acquisition_skips_missing_cameras :
  forall (data : payload) (s : ETC),
    payload_ok data = true ->
    stamps_ok (psf_pixels s) ->
    exists s' results n e,
      process_acquisition data s = (Return tt, s')
      /\ header data = Some {| NIGHT := Some n; EXPID := Some e |}
      /\ acquisition_results s' = Some results
      /\ (forall camera,
            dict_in camera (images data) = false ->
            dict_in camera results = false)
      /\ (forall camera,
            dict_in camera results = true
            <-> exists p s0,
                  In (camera, s0)
                    (camera_turns data (guide_names (GFA s))
                       (acquisition_start n e s))
                  /\ dict_get (images data) camera = Some p
                  /\ camera_processed camera p s0 = true)
      /\ (forall camera s0,
            In (camera, s0)
              (camera_turns data (guide_names (GFA s)) (acquisition_start n e s)) ->
            In camera (guide_names (GFA s)))
      /\ (forall camera p,
            In camera (guide_names (GFA s)) ->
            dict_get (images data) camera = Some p ->
            (forall s0, camera_processed camera p s0 = true) ->
            dict_in camera results = true).
Proof.
  intros data s Hok Hst.
  destruct (process_acquisition_spec data s Hok Hst)
    as (s' & results & n & e & Hrun & Hhdr & Hres & _ & _ & Hk).
  set (turns := camera_turns data (guide_names (GFA s)) (acquisition_start n e s))
    in *.
  assert (Hiff : forall camera,
             dict_in camera results = true
             <-> exists p s0,
                   In (camera, s0) turns
                   /\ dict_get (images data) camera = Some p
                   /\ camera_processed camera p s0 = true).
  { intros camera. rewrite Hk, existsb_exists. unfold stored_in_turn. split.
    - intros ([c s0] & Hin & Hst0). cbn [fst snd] in Hst0.
      apply andb_prop in Hst0. destruct Hst0 as [Hc Hp].
      apply String.eqb_eq in Hc. subst c.
      destruct (dict_get (images data) camera) as [p|]; [|discriminate].
      now exists p, s0.
    - intros (p & s0 & Hin & Hp & Hproc). exists (camera, s0).
      split; [exact Hin|]. cbn [fst snd].
      now rewrite String.eqb_refl, Hp, Hproc. }
  exists s', results, n, e.
  split; [exact Hrun|]. split; [exact Hhdr|]. split; [exact Hres|].
  split; [|split; [exact Hiff|split]].
  - intros camera Hmiss. destruct (dict_in camera results) eqn:E; [|reflexivity].
    apply Hiff in E. destruct E as (p & _ & _ & Hp & _).
    unfold dict_in in Hmiss. rewrite Hp in Hmiss. discriminate.
  - intros camera s0 Hin.
    exact (proj1 (camera_turns_In data _ _ camera) s0 Hin).
  - intros camera p Hc Hp Hproc. apply Hiff.
    destruct (proj2 (camera_turns_In data (guide_names (GFA s))
                       (acquisition_start n e s) camera) Hc) as [s0 Hin].
    exists p, s0. auto.
Qed.

(** One turn of the camera loop of [process_acquisition] leaves the night
    and the exposure identifier as they are and [acquisition_results] a
    dict, however it ends. *)
Lemma acquire_camera_keeps_ids data c s d o s' :
  acquisition_results s = Some d ->
  acquire_camera data c s = (o, s') ->
  night s' = night s
  /\ expid s' = expid s
  /\ exists d', acquisition_results s' = Some d'.
Proof.
  intros Hd. unfold acquire_camera.
  destruct (dict_get (images data) c) as [p|];
    [|intros [= <- <-]; eauto].
  pose proof (preprocess_gfa_same_exposure c p 10%float s) as Hsame.
  unfold bind at 1.
  destruct (preprocess_gfa c p 10%float s) as [[[|]|err] s1]; cbn [snd] in Hsame;
    destruct Hsame as (Ha & _ & _ & _ & _ & _ & Hn & He & _);
    rewrite Hd in Ha; cbn [negb]; unfold ret;
    try (intros [= <- <-]; eauto).
  cbv [bind get modify lift assert store_result raise ret].
  cbn [GFA set_GFA psf_pixels GMM xdither ydither acquisition_results].
  destruct (psf_stack (get_psfs (GFA s1))) as [[T WT]|];
    [|intros [= <- <-]; eauto].
  destruct (has_shape _ _ T && has_shape _ _ WT);
    [|intros [= <- <-]; eauto].
  destruct (psf_pixels s1 <=? _); [|intros [= <- <-]; eauto].
  cbn [acquisition_results set_GFA]. rewrite Ha.
  destruct (GMM_fit _ _ _ _); intros [= <- <-]; cbn; eauto.
Qed.

(** A call of [process_acquisition] that returns leaves results, a night,
    an exposure identifier and a counter: the state that [set_guide_stars]
    and [process_guide_frame] expect. *)
Lemma process_acquisition_binds_exposure data s s' :
  process_acquisition data s = (Return tt, s') ->
  exists results n e,
    acquisition_results s' = Some results
    /\ night s' = Bound n
    /\ expid s' = Bound e
    /\ num_guide_frames s' = Bound 0
    /\ guide_stars s' = None.
Proof.
  cbv [process_acquisition bind lift key modify get ret].
  destruct (header data) as [hdr|]; [|discriminate].
  destruct (NIGHT hdr) as [n|]; [|discriminate].
  destruct (EXPID hdr) as [e|]; [|discriminate].
  set (s0 := set_acquisition_results _ _).
  assert (Hloop : forall l s1 d1,
             acquisition_results s1 = Some d1 ->
             night (snd (for_each l (acquire_camera data) s1)) = night s1
             /\ expid (snd (for_each l (acquire_camera data) s1)) = expid s1
             /\ exists d', acquisition_results
                             (snd (for_each l (acquire_camera data) s1)) = Some d').
  { induction l as [|c l IH]; intros s1 d1 Hd1; [cbn; eauto|].
    cbn [for_each]. unfold bind.
    destruct (acquire_camera data c s1) as [o s2] eqn:Erun.
    destruct (acquire_camera_keeps_ids data c s1 d1 o s2 Hd1 Erun)
      as (Hn & He & d2 & Hd2).
    destruct o as [[]|err]; cbn [snd]; eauto.
    destruct (IH s2 d2 Hd2) as (Hn' & He' & d3 & Hd3).
    repeat split; try congruence. eauto. }
  destruct (Hloop (guide_names (GFA s0)) s0 [] eq_refl) as (Hn & He & d & Hd).
  destruct (for_each _ _ s0) as [[[]|err] s1]; [|discriminate].
  cbn [snd] in *. intros [= <-]. exists d, n, e. cbn. repeat split; auto.
Qed.

(** A guide frame that comes after an acquisition and before the guide
    stars is refused with [False], and the object is left as it was. *)
Lemma guide_frame_before_registration G data frame s s' :
  process_acquisition data s = (Return tt, s') ->
  process_guide_frame G frame s' = (Return false, s').
Proof.
  intros Hrun.
  destruct (process_acquisition_binds_exposure data s s' Hrun)
    as (results & n & e & Hres & _ & _ & Hn & Hg).
  cbv [process_guide_frame bind get lift attr]. rewrite Hn, Hres, Hg.
  reflexivity.
Qed.

(** A call of [process_acquisition] that raises at line 62 leaves the
    object as it was, with the registry and the counter of the exposure
    before. *)
Lemma process_acquisition_without_header data s :
  header data = None ->
  process_acquisition data s = (Raise (KeyError "header"), s).
Proof.
  intros H. cbv [process_acquisition bind lift key]. rewrite H. reflexivity.
Qed.


End Acquisition.

(** ** Registration of the guide stars *)

Section Registration.

Context {C : Collaborators}.

Lemma where_from_In (sel : list bool) :
  forall i j,
    In j (where_from i sel)
    <-> exists k, j = (i + k)%nat /\ nth_error sel k = Some true.
Proof.
  induction sel as [|b sel IH]; intros i j; simpl.
  - split; [intros []|]. intros (k & _ & H). destruct k; discriminate.
  - assert (Hrest : In j (where_from (S i) sel)
                    <-> exists k, j = (i + S k)%nat /\ nth_error sel k = Some true).
    { rewrite IH. split; intros (k & -> & H); exists k; split; auto; lia. }
    destruct b; simpl; rewrite Hrest; split.
    + intros [<-|(k & -> & H)].
      * exists 0%nat. split; [lia|reflexivity].
      * exists (S k). split; [reflexivity|exact H].
    + intros ([|k] & -> & H).
      * left. lia.
      * right. exists k. split; [reflexivity|exact H].
    + intros (k & -> & H). exists (S k). split; [reflexivity|exact H].
    + intros ([|k] & -> & H); [discriminate|].
      exists k. split; [reflexivity|exact H].
Qed.

Lemma np_where_In (sel : list bool) (j : nat) :
  In j (np_where sel) <-> nth_error sel j = Some true.
Proof.
  unfold np_where. rewrite where_from_In. split.
  - intros (k & -> & H). exact H.
  - intros H. exists j. split; [reflexivity|exact H].
Qed.

Lemma nth_error_combine_map {A B D : Type} (f : A -> B -> D) (a : list A) (b : list B) :
  forall j,
    nth_error (map (fun p => f (fst p) (snd p)) (combine a b)) j
    = match nth_error a j, nth_error b j with
      | Some x, Some y => Some (f x y)
      | _, _ => None
      end.
Proof.
  revert b. induction a as [|x a IH]; intros b j.
  - destruct j; reflexivity.
  - destruct b as [|y b].
    + simpl. destruct j; simpl; [reflexivity|]. destruct (nth_error a j); reflexivity.
    + destruct j; simpl; [reflexivity|apply IH].
Qed.

(** The mask of line 128 for a catalog whose arrays have one length. *)
Lemma star_selection_run gfa_loc mag camera :
  List.length gfa_loc = List.length mag ->
  exists sel,
    star_selection gfa_loc mag camera = Return sel
    /\ List.length sel = List.length mag
    /\ forall j,
         nth_error sel j
         = match nth_error gfa_loc j, nth_error mag j with
           | Some loc, Some m => Some (String.eqb loc camera && (0 <? m)%float)
           | _, _ => None
           end.
Proof.
  intros Hlen. unfold star_selection, broadcast2.
  rewrite !length_map, Hlen, Nat.eqb_refl.
  eexists. split; [reflexivity|]. split.
  - rewrite length_map, length_combine, !length_map. lia.
  - intros j. rewrite nth_error_combine_map, !nth_error_map.
    destruct (nth_error gfa_loc j), (nth_error mag j); reflexivity.
Qed.

(** What the star loop stores for a star that it keeps. *)
Lemma guide_star_kept pixels col row mag zeropoint profile halfsize ny nx sel i st :
  guide_star pixels col row mag zeropoint profile halfsize ny nx sel i
  = Return (Some st) ->
  exists c r m,
    nth_error col i = Some c
    /\ nth_error row i = Some r
    /\ nth_error mag i = Some m
    /\ x0 st = (c - 0.5)%float
    /\ y0 st = (r - 0.5)%float
    /\ rmag st = m
    /\ nelec_rate st
       = map (fun m => power 10 (- (m - zeropoint) / 2.5)%float) (mask_select sel mag)
    /\ outside_frame
         (wrap64 (np_round_int (y0 st) - halfsize))
         (wrap64 (wrap64 (np_round_int (y0 st) + halfsize) + 1))
         (wrap64 (np_round_int (x0 st) - halfsize))
         (wrap64 (wrap64 (np_round_int (x0 st) + halfsize) + 1)) ny nx
       = false
    /\ yslice st = {| start := wrap64 (np_round_int (y0 st) - halfsize);
                      stop := wrap64 (wrap64 (np_round_int (y0 st) + halfsize) + 1) |}
    /\ xslice st = {| start := wrap64 (np_round_int (x0 st) - halfsize);
                      stop := wrap64 (wrap64 (np_round_int (x0 st) + halfsize) + 1) |}
    /\ fiber_dx st = (x0 st - float_of_int64 (np_round_int (x0 st)))%float
    /\ fiber_dy st = (y0 st - float_of_int64 (np_round_int (y0 st)))%float
    /\ fiber st = make_template pixels profile (fiber_dx st) (fiber_dy st) false.
Proof.
  unfold guide_star, index, mask_index, obind.
  destruct (nth_error col i) as [c|]; [|discriminate].
  destruct (nth_error row i) as [r|]; [|discriminate].
  destruct (nth_error mag i) as [m|]; [|discriminate].
  destruct (Nat.eqb _ _); [|discriminate].
  destruct (outside_frame _ _ _ _ _ _) eqn:Eout; [discriminate|].
  intros [= <-]. exists c, r, m. cbn. repeat split; auto.
Qed.

(** The star loop returns for every index of a catalog whose arrays have
    one length, and keeps the star exactly when it passes the test of line
    147. *)
Lemma guide_star_run pixels col row mag zeropoint profile halfsize ny nx sel i c r m :
  nth_error col i = Some c ->
  nth_error row i = Some r ->
  nth_error mag i = Some m ->
  List.length sel = List.length mag ->
  exists o,
    guide_star pixels col row mag zeropoint profile halfsize ny nx sel i = Return o
    /\ (outside_frame
          (wrap64 (np_round_int (r - 0.5)%float - halfsize))
          (wrap64 (wrap64 (np_round_int (r - 0.5)%float + halfsize) + 1))
          (wrap64 (np_round_int (c - 0.5)%float - halfsize))
          (wrap64 (wrap64 (np_round_int (c - 0.5)%float + halfsize) + 1)) ny nx
        = false ->
        exists st, o = Some st).
Proof.
  intros Hc Hr Hm Hlen. unfold guide_star, index, mask_index, obind.
  rewrite Hc, Hr, Hm, Hlen, Nat.eqb_refl.
  destruct (outside_frame _ _ _ _ _ _).
  - eexists. split; [reflexivity|]. discriminate.
  - eexists. split; [reflexivity|]. intros _. eexists. reflexivity.
Qed.

Lemma collect_stars_run (build : nat -> outcome (option star)) (idx : list nat) :
  (forall i, In i idx -> exists o, build i = Return o) ->
  exists stars,
    collect_stars build idx = Return stars
    /\ forall st, In st stars <-> exists i, In i idx /\ build i = Return (Some st).
Proof.
  induction idx as [|i idx IH]; intros Hall.
  - exists []. split; [reflexivity|]. intros st. split; [intros []|].
    intros (i & [] & _).
  - destruct (Hall i (or_introl eq_refl)) as [o Ho].
    destruct IH as (stars & Hrun & Hin).
    { intros k Hk. apply Hall. now right. }
    simpl. rewrite Ho. simpl. rewrite Hrun. simpl.
    eexists. split; [reflexivity|]. intros st.
    destruct o as [st0|]; simpl; rewrite Hin; split.
    + intros [<-|(k & Hk & Hb)].
      * exists i. split; [now left|exact Ho].
      * exists k. split; [now right|exact Hb].
    + intros (k & [<-|Hk] & Hb).
      * left. congruence.
      * right. exists k. split; [exact Hk|exact Hb].
    + intros (k & Hk & Hb). exists k. split; [now right|exact Hb].
    + intros (k & [<-|Hk] & Hb); [congruence|].
      exists k. split; [exact Hk|exact Hb].
Qed.

Lemma nth_error_same_length {A B : Type} (a : list A) (b : list B) (i : nat) (x : A) :
  List.length b = List.length a ->
  nth_error a i = Some x ->
  exists y, nth_error b i = Some y.
Proof.
  intros Hlen Hx.
  assert (Hi : (i < List.length a)%nat).
  { apply nth_error_Some. congruence. }
  destruct (nth_error b i) as [y|] eqn:E; [now exists y|].
  apply nth_error_None in E. lia.
Qed.

Lemma catalog_ok_lengths gfa_loc col row mag :
  catalog_ok gfa_loc col row mag = true ->
  List.length gfa_loc = List.length mag
  /\ List.length col = List.length mag
  /\ List.length row = List.length mag.
Proof.
  unfold catalog_ok. intros H.
  apply andb_prop in H. destruct H as [H H3].
  apply andb_prop in H. destruct H as [H1 H2].
  apply Nat.eqb_eq in H1, H2, H3. auto.
Qed.

(** The stars of one camera, for a catalog whose arrays have one length:
    the loop returns, and it keeps the stars of the selected indices that
    [guide_star] keeps. *)
Lemma camera_stars_run pixels gfa_loc col row mag zeropoint profile halfsize ny nx camera :
  catalog_ok gfa_loc col row mag = true ->
  exists sel stars,
    star_selection gfa_loc mag camera = Return sel
    /\ List.length sel = List.length mag
    /\ camera_stars pixels gfa_loc col row mag zeropoint profile halfsize ny nx camera
       = Return stars
    /\ forall st,
         In st stars
         <-> exists j,
               nth_error sel j = Some true
               /\ guide_star pixels col row mag zeropoint profile halfsize ny nx sel j
                  = Return (Some st).
Proof.
  intros Hok. apply catalog_ok_lengths in Hok. destruct Hok as (Hl & Hc & Hr).
  destruct (star_selection_run gfa_loc mag camera Hl) as (sel & Hsel & Hlen & Hnth).
  destruct (collect_stars_run
              (guide_star pixels col row mag zeropoint profile halfsize ny nx sel)
              (np_where sel)) as (stars & Hrun & Hin).
  { intros i Hi. apply np_where_In in Hi. rewrite Hnth in Hi.
    destruct (nth_error gfa_loc i) as [loc|]; [|discriminate].
    destruct (nth_error mag i) as [m|] eqn:Em; [|discriminate].
    destruct (nth_error_same_length mag col i m Hc Em) as [c Ec].
    destruct (nth_error_same_length mag row i m Hr Em) as [r Er].
    destruct (guide_star_run pixels col row mag zeropoint profile halfsize ny nx
                sel i c r m Ec Er Em Hlen) as (o & Ho & _).
    now exists o. }
  exists sel, stars. split; [exact Hsel|]. split; [exact Hlen|]. split.
  - unfold camera_stars. rewrite Hsel. exact Hrun.
  - intros st. rewrite Hin. split; intros (j & Hj & Hb); exists j; split; auto;
      now apply np_where_In.
Qed.

Lemma where_from_none (sel : list bool) :
  forall i, existsb (fun b => b) sel = false -> where_from i sel = [].
Proof.
  induction sel as [|b sel IH]; intros i; simpl; [reflexivity|].
  destruct b; simpl; [discriminate|]. apply IH.
Qed.

Lemma set_guide_stars_attr_same (s : ETC) v :
  guide_stars s = v -> set_guide_stars_attr v s = s.
Proof. destruct s. simpl. intros ->. reflexivity. Qed.

(** One turn of the camera loop of [set_guide_stars]. *)
Lemma register_camera_run gfa_loc col row mag zeropoint profile halfsize ny nx
    camera s reg stars :
  guide_stars s = Some reg ->
  camera_stars (psf_pixels s) gfa_loc col row mag zeropoint profile halfsize ny nx camera
  = Return stars ->
  register_camera gfa_loc col row mag zeropoint profile halfsize ny nx camera s
  = (Return tt,
     set_guide_stars_attr
       (Some match stars with
             | [] => reg
             | _ :: _ => dict_set reg camera stars
             end) s).
Proof.
  intros Hreg. unfold camera_stars, register_camera.
  destruct (star_selection gfa_loc mag camera) as [sel|err]; [|discriminate].
  cbv [obind bind lift get ret]. intros Hrun.
  destruct (existsb (fun b => b) sel) eqn:Eany; cbv [negb].
  - rewrite Hrun. destruct stars as [|st stars].
    + now rewrite set_guide_stars_attr_same.
    + cbv [store_stars bind get modify raise]. rewrite Hreg. reflexivity.
  - unfold np_where in Hrun. rewrite where_from_none in Hrun by exact Eany.
    injection Hrun as <-. now rewrite set_guide_stars_attr_same.
Qed.

Section Catalog.

Variables (gfa_loc : list string) (col row mag : list float).
Hypothesis Hcat : catalog_ok gfa_loc col row mag = true.

(** The camera loop of [set_guide_stars]: it returns, assigns nothing but
    [guide_stars], and gives every camera of the loop that has stars its
    list of stars. *)
Lemma register_loop_spec zeropoint profile halfsize ny nx (l : list string) :
  forall s reg,
    guide_stars s = Some reg ->
    exists reg',
      for_each l (register_camera gfa_loc col row mag zeropoint profile halfsize ny nx) s
      = (Return tt, set_guide_stars_attr (Some reg') s)
      /\ (forall camera, ~ In camera l -> dict_get reg' camera = dict_get reg camera)
      /\ (forall camera stars,
            In camera l ->
            camera_stars (psf_pixels s) gfa_loc col row mag zeropoint profile
              halfsize ny nx camera = Return stars ->
            dict_get reg' camera
            = match stars with
              | [] => dict_get reg camera
              | _ :: _ => Some stars
              end).
Proof.
  induction l as [|c l IH]; intros s reg Hreg.
  - exists reg. simpl. unfold ret. rewrite set_guide_stars_attr_same by exact Hreg.
    split; [reflexivity|]. split; [reflexivity|]. intros camera stars [].
  - destruct (camera_stars_run (psf_pixels s) gfa_loc col row mag zeropoint profile
                halfsize ny nx c Hcat) as (sel & stars_c & _ & _ & Hc & _).
    pose proof (register_camera_run gfa_loc col row mag zeropoint profile halfsize
                  ny nx c s reg stars_c Hreg Hc) as Hrun.
    set (reg1 := match stars_c with [] => reg | _ :: _ => dict_set reg c stars_c end)
      in Hrun.
    destruct (IH (set_guide_stars_attr (Some reg1) s) reg1 eq_refl)
      as (reg2 & Hrun2 & Hframe & Hnew).
    assert (Hc1 : dict_get reg1 c
                  = match stars_c with [] => dict_get reg c | _ :: _ => Some stars_c end).
    { unfold reg1. destruct stars_c; [reflexivity|].
      rewrite dict_get_set, String.eqb_refl. reflexivity. }
    assert (Hother : forall camera, camera <> c ->
                                    dict_get reg1 camera = dict_get reg camera).
    { intros camera Hne. unfold reg1. destruct stars_c; [reflexivity|].
      rewrite dict_get_set. destruct (String.eqb camera c) eqn:E; [|reflexivity].
      apply String.eqb_eq in E. contradiction. }
    exists reg2. cbn [for_each]. unfold bind at 1. rewrite Hrun.
    split; [exact Hrun2|]. split.
    + intros camera Hnot. rewrite Hframe.
      * apply Hother. intros ->. apply Hnot. now left.
      * intros Hin. apply Hnot. now right.
    + intros camera stars Hin Hstars.
      destruct (in_dec string_dec camera l) as [Hl|Hl].
      * rewrite (Hnew camera stars Hl Hstars).
        destruct stars; [|reflexivity].
        destruct (string_dec camera c) as [->|Hne]; [|now apply Hother].
        rewrite Hc1. rewrite Hc in Hstars. injection Hstars as ->. reflexivity.
      * destruct Hin as [<-|Hin]; [|contradiction].
        rewrite Hframe by exact Hl. rewrite Hc1.
        rewrite Hc in Hstars. injection Hstars as ->. reflexivity.
Qed.

(** [set_guide_stars] once there are acquisition results: the call
    returns, assigns nothing but [guide_stars], binds it to a dict that
    has the cameras with at least one kept star, and returns whether that
    dict has a key. *)
Lemma set_guide_stars_spec zeropoint fiber_diam_um pixel_size_um s results n e :
  acquisition_results s = Some results ->
  night s = Bound n ->
  expid s = Bound e ->
  Qeq_bool pixel_size_um 0 = false ->
  exists reg,
    set_guide_stars gfa_loc col row mag zeropoint fiber_diam_um pixel_size_um s
    = (Return match reg with [] => false | _ :: _ => true end,
       set_guide_stars_attr (Some reg) s)
    /\ forall camera stars,
         dict_get reg camera = Some stars
         <-> In camera (guide_names (GFA s))
             /\ stars <> []
             /\ camera_stars (psf_pixels s) gfa_loc col row mag zeropoint
                  (fiber_profile (((1 # 2) * fiber_diam_um / pixel_size_um) ^ 2))
                  (psf_pixels s / 2) (2 * nampx (GFA s)) (2 * nampy (GFA s)) camera
                = Return stars.
Proof.
  intros Hres Hn He Hpix.
  set (profile := fiber_profile (((1 # 2) * fiber_diam_um / pixel_size_um) ^ 2)).
  destruct (register_loop_spec zeropoint profile (psf_pixels s / 2)
              (2 * nampx (GFA s)) (2 * nampy (GFA s)) (guide_names (GFA s))
              (set_guide_stars_attr (Some []) s) [] eq_refl)
    as (reg & Hrun & Hframe & Hnew).
  exists reg. split.
  - unfold set_guide_stars. unfold bind at 1, get at 1. rewrite Hres.
    assert (Hread : read_exposure_id s = (Return tt, s)).
    { cbv [read_exposure_id bind get lift attr ret]. rewrite Hn, He. reflexivity. }
    assert (Hread' : forall v, read_exposure_id (set_guide_stars_attr v s)
                               = (Return tt, set_guide_stars_attr v s)).
    { intros v. cbv [read_exposure_id bind get lift attr ret]. cbn [night expid set_guide_stars_attr].
      rewrite Hn, He. reflexivity. }
    unfold bind at 1.
    assert (Hfirst : match guide_stars s with
                     | Some _ => read_exposure_id
                     | None => ret tt
                     end s = (Return tt, s)).
    { destruct (guide_stars s); [exact Hread|reflexivity]. }
    rewrite Hfirst. rewrite Hpix. unfold bind at 1, ret at 1.
    unfold bind at 1, modify at 1. fold profile.
    unfold bind at 1. rewrite Hrun.
    unfold bind at 1, get at 1. cbn [guide_stars set_guide_stars_attr].
    change (set_guide_stars_attr (Some reg) (set_guide_stars_attr (Some []) s))
      with (set_guide_stars_attr (Some reg) s).
    destruct reg as [|kv reg]; unfold bind; rewrite Hread'; reflexivity.
  - intros camera stars. cbn [psf_pixels set_guide_stars_attr] in Hnew.
    destruct (camera_stars_run (psf_pixels s) gfa_loc col row mag zeropoint profile
                (psf_pixels s / 2) (2 * nampx (GFA s)) (2 * nampy (GFA s)) camera Hcat)
      as (sel & stars' & _ & _ & Hc & _).
    fold profile. split.
    + intros Hget.
      destruct (in_dec string_dec camera (guide_names (GFA s))) as [Hin|Hnot].
      * rewrite (Hnew camera stars' Hin Hc) in Hget.
        destruct stars'; [discriminate|]. injection Hget as <-.
        repeat split; [exact Hin|discriminate|exact Hc].
      * rewrite Hframe in Hget by exact Hnot. discriminate.
    + intros (Hin & Hne & Hstars). rewrite (Hnew camera stars Hin Hstars).
      destruct stars; [contradiction|reflexivity].
Qed.

End Catalog.

Lemma one_of_In (names : list string) (name : string) :
  one_of names name = true <-> In name names.
Proof.
  unfold one_of. rewrite existsb_exists. split.
  - intros (x & Hx & E). apply String.eqb_eq in E. now subst x.
  - intros H. exists name. split; [exact H|apply String.eqb_refl].
Qed.

Lemma inside_frame_bounds ylo yhi xlo xhi ny nx :
  outside_frame ylo yhi xlo xhi ny nx = false ->
  0 <= ylo /\ yhi <= ny /\ 0 <= xlo /\ xhi <= nx.
Proof.
  unfold outside_frame. intros H.
  apply orb_false_elim in H. destruct H as [H H4].
  apply orb_false_elim in H. destruct H as [H H3].
  apply orb_false_elim in H. destruct H as [H1 H2].
  rewrite Z.gtb_ltb in H2, H4.
  apply Z.ltb_ge in H1, H2, H3, H4. lia.
Qed.

Section Catalog2.

Variables (gfa_loc : list string) (col row mag : list float).
Hypothesis Hcat : catalog_ok gfa_loc col row mag = true.

(** A star that the camera loop keeps comes from a usable catalog entry. *)
Lemma kept_star_origin s zeropoint profile camera stars st :
  In camera (guide_names (GFA s)) ->
  camera_stars (psf_pixels s) gfa_loc col row mag zeropoint profile
    (psf_pixels s / 2) (2 * nampx (GFA s)) (2 * nampy (GFA s)) camera = Return stars ->
  In st stars ->
  exists sel j c r,
    star_selection gfa_loc mag camera = Return sel
    /\ guide_star (psf_pixels s) col row mag zeropoint profile (psf_pixels s / 2)
         (2 * nampx (GFA s)) (2 * nampy (GFA s)) sel j = Return (Some st)
    /\ nth_error gfa_loc j = Some camera
    /\ nth_error col j = Some c
    /\ nth_error row j = Some r
    /\ x0 st = (c - 0.5)%float
    /\ y0 st = (r - 0.5)%float
    /\ usable s gfa_loc col row mag j = true.
Proof.
  intros Hcam Hstars Hst.
  destruct (camera_stars_run (psf_pixels s) gfa_loc col row mag zeropoint profile
              (psf_pixels s / 2) (2 * nampx (GFA s)) (2 * nampy (GFA s)) camera Hcat)
    as (sel & stars' & Hsel & Hlen & Hc & Hin).
  rewrite Hc in Hstars. injection Hstars as ->.
  apply Hin in Hst. destruct Hst as (j & Hj & Hb).
  destruct (guide_star_kept _ _ _ _ _ _ _ _ _ _ _ _ Hb)
    as (c & r & m & Ec & Er & Em & Hx & Hy & _ & _ & Hout & _).
  pose proof (catalog_ok_lengths _ _ _ _ Hcat) as (Hl & _ & _).
  destruct (star_selection_run gfa_loc mag camera Hl) as (sel' & Hsel' & _ & Hnth).
  rewrite Hsel in Hsel'. injection Hsel' as <-.
  rewrite Hnth, Em in Hj.
  destruct (nth_error gfa_loc j) as [loc|] eqn:El; [|discriminate].
  injection Hj as Hj. apply andb_prop in Hj. destruct Hj as [Hloc Hm].
  apply String.eqb_eq in Hloc. subst loc.
  exists sel, j, c, r. repeat split; auto.
  unfold usable. rewrite El, Ec, Er, Em, Hm.
  apply one_of_In in Hcam. rewrite Hcam. unfold window_fits.
  rewrite <- Hx, <- Hy, Hout. reflexivity.
Qed.

(** A usable catalog entry gives its camera a star at its position. *)
Lemma usable_star_kept s zeropoint profile j :
  usable s gfa_loc col row mag j = true ->
  exists camera c r stars st,
    nth_error gfa_loc j = Some camera
    /\ nth_error col j = Some c
    /\ nth_error row j = Some r
    /\ In camera (guide_names (GFA s))
    /\ camera_stars (psf_pixels s) gfa_loc col row mag zeropoint profile
         (psf_pixels s / 2) (2 * nampx (GFA s)) (2 * nampy (GFA s)) camera
       = Return stars
    /\ In st stars
    /\ x0 st = (c - 0.5)%float
    /\ y0 st = (r - 0.5)%float.
Proof.
  unfold usable.
  destruct (nth_error gfa_loc j) as [loc|] eqn:El; [|discriminate].
  destruct (nth_error col j) as [c|] eqn:Ec; [|discriminate].
  destruct (nth_error row j) as [r|] eqn:Er; [|discriminate].
  destruct (nth_error mag j) as [m|] eqn:Em; [|discriminate].
  intros H. apply andb_prop in H. destruct H as [H Hfit].
  apply andb_prop in H. destruct H as [Hloc Hm].
  apply one_of_In in Hloc. unfold window_fits in Hfit.
  apply negb_true_iff in Hfit.
  destruct (camera_stars_run (psf_pixels s) gfa_loc col row mag zeropoint profile
              (psf_pixels s / 2) (2 * nampx (GFA s)) (2 * nampy (GFA s)) loc Hcat)
    as (sel & stars & Hsel & Hlen & Hc & Hin).
  destruct (guide_star_run (psf_pixels s) col row mag zeropoint profile
              (psf_pixels s / 2) (2 * nampx (GFA s)) (2 * nampy (GFA s)) sel j c r m
              Ec Er Em Hlen) as (o & Ho & Hkeep).
  destruct (Hkeep Hfit) as [st ->].
  destruct (guide_star_kept _ _ _ _ _ _ _ _ _ _ _ _ Ho)
    as (c' & r' & _ & Ec' & Er' & _ & Hx & Hy & _).
  rewrite Ec in Ec'. rewrite Er in Er'. injection Ec' as <-. injection Er' as <-.
  exists loc, c, r, stars, st. do 3 (split; [reflexivity|]).
  split; [exact Hloc|]. split; [exact Hc|]. split; [|split; assumption].
  apply Hin. exists j. split; [|exact Ho].
  pose proof (catalog_ok_lengths _ _ _ _ Hcat) as (Hl & _ & _).
  destruct (star_selection_run gfa_loc mag loc Hl) as (sel' & Hsel' & _ & Hnth).
  rewrite Hsel in Hsel'. injection Hsel' as <-.
  rewrite Hnth, El, Em, String.eqb_refl, Hm. reflexivity.
Qed.

(** [set_guide_stars] returns [True] exactly when some catalog entry is
    usable. *)
Lemma set_guide_stars_usable zeropoint fiber_diam_um pixel_size_um s results n e :
  acquisition_results s = Some results ->
  night s = Bound n ->
  expid s = Bound e ->
  Qeq_bool pixel_size_um 0 = false ->
  exists b reg,
    set_guide_stars gfa_loc col row mag zeropoint fiber_diam_um pixel_size_um s
    = (Return b, set_guide_stars_attr (Some reg) s)
    /\ (b = true <-> exists j, usable s gfa_loc col row mag j = true)
    /\ (b = false -> reg = [])
    /\ forall camera stars,
         dict_get reg camera = Some stars
         <-> In camera (guide_names (GFA s))
             /\ stars <> []
             /\ camera_stars (psf_pixels s) gfa_loc col row mag zeropoint
                  (fiber_profile (((1 # 2) * fiber_diam_um / pixel_size_um) ^ 2))
                  (psf_pixels s / 2) (2 * nampx (GFA s)) (2 * nampy (GFA s)) camera
                = Return stars.
Proof.
  intros Hres Hn He Hpix.
  destruct (set_guide_stars_spec gfa_loc col row mag Hcat zeropoint fiber_diam_um
              pixel_size_um s results n e Hres Hn He Hpix) as (reg & Hrun & Hreg).
  eexists _, reg. split; [exact Hrun|]. split; [|split; [|exact Hreg]].
  - split.
    + destruct reg as [|[camera stars] reg]; [discriminate|]. intros _.
      assert (Hget : dict_get ((camera, stars) :: reg) camera = Some stars).
      { simpl. now rewrite String.eqb_refl. }
      apply Hreg in Hget. destruct Hget as (Hcam & Hne & Hstars).
      destruct stars as [|st stars]; [contradiction|].
      destruct (kept_star_origin s _ _ camera _ st Hcam Hstars (or_introl eq_refl))
        as (_ & j & _ & _ & _ & _ & _ & _ & _ & _ & _ & Hu).
      now exists j.
    + intros (j & Hu).
      destruct (usable_star_kept s zeropoint
                  (fiber_profile (((1 # 2) * fiber_diam_um / pixel_size_um) ^ 2)) j Hu)
        as (camera & _ & _ & stars & st & _ & _ & _ & Hcam & Hstars & Hst & _).
      assert (Hget : dict_get reg camera = Some stars).
      { apply Hreg. repeat split; auto. intros ->. destruct Hst. }
      destruct reg; [discriminate|reflexivity].
  - destruct reg; [reflexivity|discriminate].
Qed.

End Catalog2.

Lemma odd_window_side (pixels centre : Z) :
  Z.odd pixels = true ->
  (centre + pixels / 2 + 1) - (centre - pixels / 2) = pixels.
Proof.
  intros H. pose proof (Z.bit0_mod pixels) as Hbit.
  rewrite Z.bit0_odd, H in Hbit. cbn in Hbit.
  pose proof (Z.div_mod pixels 2). lia.
Qed.

Lemma for_each_same_exposure {A : Type} (body : A -> M unit) (l : list A) :
  (forall x s, same_exposure s (snd (body x s))) ->
  forall s, same_exposure s (snd (for_each l body s)).
Proof.
  intros Hbody. induction l as [|x l IH]; intros s.
  - apply same_exposure_refl.
  - cbn [for_each]. unfold bind. pose proof (Hbody x s) as Hx.
    destruct (body x s) as [[[]|err] s1]; cbn [snd] in *; [|exact Hx].
    eapply same_exposure_trans; [exact Hx|apply IH].
Qed.

(** One turn of the camera loop of a guide frame assigns what
    [preprocess_gfa] assigns, and nothing else. *)
Lemma guide_camera_same_exposure G data item s :
  same_exposure s (snd (guide_camera G data item s)).
Proof.
  unfold guide_camera. cbv [bind get lift ret].
  destruct (guide_stars s) as [registry|]; [|apply same_exposure_refl].
  destruct (negb (dict_in (fst item) registry)).
  { destruct (global G "loggining") as [logger|err]; [|apply same_exposure_refl].
    destruct (attr_info logger); apply same_exposure_refl. }
  destruct (dict_get (images data) (fst item)) as [cdata|];
    [|apply same_exposure_refl].
  pose proof (preprocess_gfa_same_exposure (fst item) cdata 10%float s) as Hpre.
  destruct (preprocess_gfa (fst item) cdata 10%float s) as [[[|]|err] s1];
    cbn [snd negb] in *; try exact Hpre.
  destruct (acquisition_results s1) as [results|]; [|exact Hpre].
  destruct (key (fst item) (dict_get results (fst item))) as [psf|err];
    [|exact Hpre].
  destruct (guide_stars s1) as [registry1|]; [|exact Hpre].
  destruct (key (fst item) (dict_get registry1 (fst item))) as [stars|err];
    [|exact Hpre].
  eapply same_exposure_trans; [exact Hpre|].
  apply for_each_same_exposure. intros st s2.
  destruct (guide_star_fit G s2 psf st); apply same_exposure_refl.
Qed.

(** A guide frame leaves the acquisition results and the registry of
    guide stars as they are, however it ends. *)
Lemma guide_frame_keeps_registry G data s :
  guide_stars (snd (process_guide_frame G data s)) = guide_stars s
  /\ acquisition_results (snd (process_guide_frame G data s))
     = acquisition_results s.
Proof.
  unfold process_guide_frame.
  cbv [bind get lift ret read_exposure_id modify].
  destruct (attr "num_guide_frames" (num_guide_frames s)); [|now split].
  destruct (acquisition_results s) as [results|] eqn:Eres; [|now split].
  destruct (guide_stars s) as [registry|] eqn:Ereg; [|now split].
  destruct (key "header" (header data)) as [hdr|]; [|now split].
  destruct (attr "night" (night s)); [|now split].
  destruct (key "NIGHT" (NIGHT hdr)); [|now split].
  destruct (attr "expid" (expid s)); [|now split].
  destruct (key "EXPID" (EXPID hdr)); [|now split].
  pose proof (for_each_same_exposure (guide_camera G data) results
                (guide_camera_same_exposure G data) s) as Hloop.
  destruct (for_each results (guide_camera G data) s) as [[[]|err] s1];
    cbn [snd] in Hloop; destruct Hloop as (Ha & Hg & _).
  - destruct (attr "num_guide_frames" (num_guide_frames s1));
      cbn; split; congruence.
  - cbn. split; congruence.
Qed.

(** Rounding moves a number by at most one half. *)
Lemma round_half_even_near (q : Q) :
  (- (1 # 2) <= q - inject_Z (round_half_even q)
   /\ q - inject_Z (round_half_even q) <= 1 # 2)%Q.
Proof.
  unfold round_half_even.
  pose proof (Qfloor_le q) as Hlo. pose proof (Qlt_floor q) as Hhi.
  rewrite inject_Z_plus in Hhi.
  assert (Hnext : inject_Z (Qfloor q + 1) = (inject_Z (Qfloor q) + 1)%Q)
    by apply inject_Z_plus.
  change (inject_Z 1) with 1%Q in Hhi.
  destruct (Qcompare_spec (q - inject_Z (Qfloor q)) (1 # 2)) as [E|L|G].
  - destruct (Z.even (Qfloor q)); [|rewrite Hnext]; split; lra.
  - split; lra.
  - rewrite Hnext. split; lra.
Qed.

(** Rounding keeps a number between two integers between them. *)
Lemma round_half_even_between (q : Q) (lo hi : Z) :
  (inject_Z lo <= q)%Q -> (q <= inject_Z hi)%Q ->
  lo <= round_half_even q <= hi.
Proof.
  intros Hlo Hhi. destruct (round_half_even_near q) as [Hn1 Hn2].
  split.
  - apply Z.lt_succ_r. rewrite Zlt_Qlt. unfold Z.succ. rewrite inject_Z_plus.
    change (inject_Z 1) with 1%Q. lra.
  - apply Z.lt_succ_r. rewrite Zlt_Qlt. unfold Z.succ. rewrite inject_Z_plus.
    change (inject_Z 1) with 1%Q. lra.
Qed.

Lemma wrap64_inside (z : Z) : int64_min <= z <= int64_max -> wrap64 z = z.
Proof.
  unfold int64_min, int64_max, wrap64. intros H.
  rewrite Z.mod_small by lia. lia.
Qed.

(** For a moderate position and a moderate half size, lines 144 to 146
    compute the window in the integers: the cast gives the nearest integer
    and nothing wraps around. *)
Lemma moderate_window (x : float) (halfsize : Z) :
  moderate x = true ->
  - 2 ^ 61 <= halfsize <= 2 ^ 61 ->
  exists q,
    float_value x = Some q
    /\ np_round_int x = round_half_even q
    /\ wrap64 (np_round_int x - halfsize) = round_half_even q - halfsize
    /\ wrap64 (wrap64 (np_round_int x + halfsize) + 1)
       = round_half_even q + halfsize + 1.
Proof.
  unfold moderate, np_round_int. intros Hm Hh.
  destruct (float_value x) as [q|]; [|discriminate].
  apply andb_prop in Hm. destruct Hm as [Hlo Hhi].
  apply Qle_bool_iff in Hlo, Hhi. rewrite <- inject_Z_opp in Hlo.
  pose proof (round_half_even_between q _ _ Hlo Hhi) as Hz.
  assert (H62 : 2 ^ 62 = 4611686018427387904) by reflexivity.
  assert (H61 : 2 ^ 61 = 2305843009213693952) by reflexivity.
  assert (Hmin : int64_min = - 9223372036854775808) by reflexivity.
  assert (Hmax : int64_max = 9223372036854775807) by reflexivity.
  rewrite H62 in Hz. rewrite H61 in Hh.
  exists q. split; [reflexivity|]. cbv zeta.
  assert (Hin : (int64_min <=? round_half_even q)
                && (round_half_even q <=? int64_max) = true).
  { apply andb_true_intro. split; apply Z.leb_le; lia. }
  rewrite Hin. split; [reflexivity|].
  rewrite (wrap64_inside (round_half_even q - halfsize)) by lia.
  rewrite (wrap64_inside (round_half_even q + halfsize)) by lia.
  rewrite wrap64_inside by lia. split; reflexivity.
Qed.

(** C8.  Every registered star stores the catalog position minus 0.5 in
    each coordinate, the float subtraction of lines 137 and 138; its
    slices, its fiber offsets and its fiber template are computed from that
    stored position as lines 144 to 154 compute them, where the rounding
    of line 144 gives the integer nearest to a moderate position; every
    catalog entry that passes the tests of lines 128 and 147 has such a
    star in the registry of its camera; and a guide frame leaves
    [guide_stars] as it is, so the conversion is made once. *)
Theorem registered_position_is_catalog_minus_half :
  forall (gfa_loc : list string) (col row mag : list float) (zeropoint : float)
         (fiber_diam_um pixel_size_um : Q) (s : ETC)
         (results : dict camera_result) (n e : Z),
    catalog_ok gfa_loc col row mag = true ->
    acquisition_results s = Some results ->
    night s = Bound n ->
    expid s = Bound e ->
    Qeq_bool pixel_size_um 0 = false ->
    exists b reg,
      set_guide_stars gfa_loc col row mag zeropoint fiber_diam_um pixel_size_um s
      = (Return b, set_guide_stars_attr (Some reg) s)
      /\ (forall camera stars st,
           dict_get reg camera = Some stars ->
           In st stars ->
           exists j c r,
             nth_error gfa_loc j = Some camera
             /\ nth_error col j = Some c
             /\ nth_error row j = Some r
             /\ x0 st = (c - 0.5)%float
             /\ y0 st = (r - 0.5)%float
             /\ yslice st
                = {| start := wrap64 (np_round_int (y0 st) - psf_pixels s / 2);
                     stop := wrap64 (wrap64 (np_round_int (y0 st) + psf_pixels s / 2)
                                     + 1) |}
             /\ xslice st
                = {| start := wrap64 (np_round_int (x0 st) - psf_pixels s / 2);
                     stop := wrap64 (wrap64 (np_round_int (x0 st) + psf_pixels s / 2)
                                     + 1) |}
             /\ fiber_dx st = (x0 st - float_of_int64 (np_round_int (x0 st)))%float
             /\ fiber_dy st = (y0 st - float_of_int64 (np_round_int (y0 st)))%float
             /\ fiber st
                = make_template (psf_pixels s)
                    (fiber_profile (((1 # 2) * fiber_diam_um / pixel_size_um) ^ 2))
                    (fiber_dx st) (fiber_dy st) false
             /\ (moderate (x0 st) = true ->
                 exists q,
                   float_value (x0 st) = Some q
                   /\ np_round_int (x0 st) = round_half_even q)
             /\ (moderate (y0 st) = true ->
                 exists q,
                   float_value (y0 st) = Some q
                   /\ np_round_int (y0 st) = round_half_even q))
      /\ (forall j,
            usable s gfa_loc col row mag j = true ->
            exists camera c r stars st,
              nth_error gfa_loc j = Some camera
              /\ nth_error col j = Some c
              /\ nth_error row j = Some r
              /\ dict_get reg camera = Some stars
              /\ In st stars
              /\ x0 st = (c - 0.5)%float
              /\ y0 st = (r - 0.5)%float)
      /\ forall G data,
           guide_stars
             (snd (process_guide_frame G data (set_guide_stars_attr (Some reg) s)))
           = Some reg.
Proof.
  intros gfa_loc col row mag zeropoint fiber_diam_um pixel_size_um s results n e
    Hcat Hres Hn He Hpix.
  destruct (set_guide_stars_usable gfa_loc col row mag Hcat zeropoint fiber_diam_um
              pixel_size_um s results n e Hres Hn He Hpix)
    as (b & reg & Hrun & _ & _ & Hreg).
  exists b, reg. split; [exact Hrun|]. split; [|split].
  - intros camera stars st Hget Hst.
    apply Hreg in Hget. destruct Hget as (Hcam & _ & Hstars).
    destruct (kept_star_origin gfa_loc col row mag Hcat s _ _ camera stars st
                Hcam Hstars Hst)
      as (sel & j & c & r & _ & Hgs & El & Ec & Er & Hx & Hy & _).
    destruct (guide_star_kept _ _ _ _ _ _ _ _ _ _ _ _ Hgs)
      as (_ & _ & _ & _ & _ & _ & _ & _ & _ & _ & _ & Hys & Hxs & Hdx & Hdy & Hf).
    assert (Hzero : - 2 ^ 61 <= 0 <= 2 ^ 61) by (split; discriminate).
    exists j, c, r. do 10 (split; [assumption|]). split; intros Hm.
    + destruct (moderate_window (x0 st) 0 Hm Hzero) as (q & Hq & Hround & _).
      now exists q.
    + destruct (moderate_window (y0 st) 0 Hm Hzero) as (q & Hq & Hround & _).
      now exists q.
  - intros j Hj.
    destruct (usable_star_kept gfa_loc col row mag Hcat s zeropoint
                (fiber_profile (((1 # 2) * fiber_diam_um / pixel_size_um) ^ 2)) j Hj)
      as (camera & c & r & stars & st & El & Ec & Er & Hcam & Hstars & Hst & Hx & Hy).
    exists camera, c, r, stars, st. repeat split; auto.
    apply Hreg. repeat split; auto. intros ->. destruct Hst.
  - intros G data.
    now destruct (guide_frame_keeps_registry G data
                    (set_guide_stars_attr (Some reg) s)) as [-> _].
Qed.

(** The transparency that the star loop of a guide frame computes has one
    entry for each entry of the stored rate. *)
Lemma guide_star_fit_transp G self psf st r :
  guide_star_fit G self psf st = Return r ->
  exists t,
    gfa_exptime self = Bound (Some t)
    /\ transp r = map (fun rate => (flux r / (rate * t))%float) (nelec_rate st).
Proof.
  unfold guide_star_fit. cbv [obind].
  destruct (global G "GFA") as [gfa|]; [|discriminate].
  destruct (attr_data gfa); [|discriminate].
  destruct (attr_ivar gfa); [|discriminate].
  destruct (key "dithered" (cr_dithered psf)); [|discriminate].
  destruct (global G "WD") as [wd|]; [|discriminate].
  destruct (as_array wd); [|discriminate].
  destruct (gfa_exptime self) as [|[t|]]; cbn; try discriminate.
  intros [= <-]. exists t. split; reflexivity.
Qed.

(** C3.  The rate that [set_guide_stars] stores with a star is not the
    rate of that star: line 142 indexes [mag] with the mask [sel], so
    every star of a camera stores the array of the rates of all the
    catalog entries selected for that camera, and the transparency of line
    216 is an array of that length. *)
Theorem nelec_rate_spans_camera_selection :
  forall (gfa_loc : list string) (col row mag : list float) (zeropoint : float)
         (fiber_diam_um pixel_size_um : Q) (s : ETC)
         (results : dict camera_result) (n e : Z),
    catalog_ok gfa_loc col row mag = true ->
    acquisition_results s = Some results ->
    night s = Bound n ->
    expid s = Bound e ->
    Qeq_bool pixel_size_um 0 = false ->
    exists b reg,
      set_guide_stars gfa_loc col row mag zeropoint fiber_diam_um pixel_size_um s
      = (Return b, set_guide_stars_attr (Some reg) s)
      /\ forall camera stars st,
           dict_get reg camera = Some stars ->
           In st stars ->
           (exists sel,
              star_selection gfa_loc mag camera = Return sel
              /\ nelec_rate st
                 = map (fun m => power 10 (- (m - zeropoint) / 2.5)%float)
                     (mask_select sel mag))
           /\ forall G self psf r,
                guide_star_fit G self psf st = Return r ->
                List.length (transp r) = List.length (nelec_rate st).
Proof.
  intros gfa_loc col row mag zeropoint fiber_diam_um pixel_size_um s results n e
    Hcat Hres Hn He Hpix.
  destruct (set_guide_stars_usable gfa_loc col row mag Hcat zeropoint fiber_diam_um
              pixel_size_um s results n e Hres Hn He Hpix)
    as (b & reg & Hrun & _ & _ & Hreg).
  exists b, reg. split; [exact Hrun|].
  intros camera stars st Hget Hst.
  apply Hreg in Hget. destruct Hget as (Hcam & _ & Hstars).
  destruct (kept_star_origin gfa_loc col row mag Hcat s _ _ camera stars st
              Hcam Hstars Hst)
    as (sel & j & c & r & Hsel & Hgs & _).
  destruct (guide_star_kept _ _ _ _ _ _ _ _ _ _ _ _ Hgs)
    as (_ & _ & _ & _ & _ & _ & _ & _ & _ & Hrate & _).
  split; [now exists sel|].
  intros G self psf fit Hfit.
  destruct (guide_star_fit_transp G self psf st fit Hfit) as (t & _ & ->).
  apply length_map.
Qed.

(** A guide frame that finds acquisition results and a registry, even an
    empty one, is past the two checks of lines 176 to 181: whatever
    happens next, the call does not return [False]. *)
Lemma guide_frame_in_sequence G data s results registry :
  acquisition_results s = Some results ->
  guide_stars s = Some registry ->
  fst (process_guide_frame G data s) <> Return false.
Proof.
  intros Hres Hreg. unfold process_guide_frame.
  cbv [bind get lift ret read_exposure_id modify]. rewrite Hres, Hreg.
  destruct (attr "num_guide_frames" (num_guide_frames s)); [|discriminate].
  destruct (key "header" (header data)) as [hdr|]; [|discriminate].
  destruct (attr "night" (night s)); [|discriminate].
  destruct (key "NIGHT" (NIGHT hdr)); [|discriminate].
  destruct (attr "expid" (expid s)); [|discriminate].
  destruct (key "EXPID" (EXPID hdr)); [|discriminate].
  destruct (for_each results (guide_camera G data) s) as [[[]|err] s1];
    [|discriminate].
  destruct (attr "num_guide_frames" (num_guide_frames s1)); discriminate.
Qed.

(** C10.  When there are acquisition results and no catalog entry is
    usable, [set_guide_stars] returns [False] and leaves [guide_stars]
    bound to the empty dict, not to [None]; a guide frame that follows is
    therefore past the check of line 179 and does not return [False]. *)
Theorem rejected_catalog_leaves_empty_registry :
  forall (gfa_loc : list string) (col row mag : list float) (zeropoint : float)
         (fiber_diam_um pixel_size_um : Q) (s : ETC)
         (results : dict camera_result) (n e : Z),
    catalog_ok gfa_loc col row mag = true ->
    acquisition_results s = Some results ->
    night s = Bound n ->
    expid s = Bound e ->
    Qeq_bool pixel_size_um 0 = false ->
    (forall j, usable s gfa_loc col row mag j = false) ->
    exists s',
      set_guide_stars gfa_loc col row mag zeropoint fiber_diam_um pixel_size_um s
      = (Return false, s')
      /\ guide_stars s' = Some []
      /\ forall G data, fst (process_guide_frame G data s') <> Return false.
Proof.
  intros gfa_loc col row mag zeropoint fiber_diam_um pixel_size_um s results n e
    Hcat Hres Hn He Hpix Hnone.
  destruct (set_guide_stars_usable gfa_loc col row mag Hcat zeropoint fiber_diam_um
              pixel_size_um s results n e Hres Hn He Hpix)
    as (b & reg & Hrun & Hb & Hempty & _).
  assert (Eb : b = false).
  { destruct b; [|reflexivity]. destruct (proj1 Hb eq_refl) as [j Hj].
    rewrite Hnone in Hj. discriminate. }
  subst b. rewrite (Hempty eq_refl) in Hrun.
  exists (set_guide_stars_attr (Some []) s). split; [exact Hrun|].
  split; [reflexivity|].
  intros G data.
  apply (guide_frame_in_sequence G data _ results []); [exact Hres|reflexivity].
Qed.

End Registration.

(** ** Runs on the laboratory instance *)

Import Lab.

(** The stamps of the laboratory camera meet the assertions for a stamp
    size of three. *)
Lemma lab_stamps_ok : @stamps_ok lab 3.
Proof.
  intros g T WT. cbn [psf_stack lab]. unfold lab_psf_stack.
  destruct (_ && _ && _ && _) eqn:E; [|discriminate].
  intros [= <- <-]. apply andb_prop in E. destruct E as [E _]. exact E.
Qed.

(** The runs that build the laboratory states. *)
Lemma lab_init : ETC_init (C := lab) "sky" "gfa" 3 7 1200 = Return fresh.
Proof. reflexivity. Qed.

Lemma lab_acquisition : process_acquisition frames fresh = (Return tt, acquired).
Proof. vm_compute. reflexivity. Qed.

Lemma lab_registration :
  set_guide_stars cat_loc cat_col cat_row cat_mag default_zeropoint
    default_fiber_diam_um default_pixel_size_um acquired
  = (Return true, registered).
Proof. vm_compute. reflexivity. Qed.

Lemma lab_failed_registration :
  set_guide_stars cat_loc edge_col cat_row cat_mag default_zeropoint
    default_fiber_diam_um default_pixel_size_um acquired
  = (Return false, unregistered).
Proof. vm_compute. reflexivity. Qed.

(** C1.  A guide frame does not survive the failure of one camera or one
    star.  After an acquisition in which the fit of the PSF failed for
    GUIDE0 (its entry has no key ['dithered']) and a registration of stars
    on GUIDE0 and GUIDE2, [process_guide_frame] raises [NameError] at the
    first star, does not count the frame and never reaches GUIDE2; with
    the three misspelt names bound in the globals it raises [KeyError] on
    the entry of GUIDE0; and after a registration that kept no star it
    raises [NameError] at the misspelt logger of line 191. *)
Theorem guide_frame_aborts_on_first_failure :
  (exists cr,
     option_map (fun d => dict_get d "GUIDE0") (acquisition_results registered)
     = Some (Some cr)
     /\ cr_dithered cr = None)
  /\ option_map dict_keys (guide_stars registered) = Some ["GUIDE0"; "GUIDE2"]
  /\ fst (process_guide_frame etc_globals frames registered)
     = Raise (NameError "GFA")
  /\ num_guide_frames (snd (process_guide_frame etc_globals frames registered))
     = Bound 0
  /\ gfa_data (GFA (snd (process_guide_frame etc_globals frames registered)))
     = flat 0
  /\ fst (process_guide_frame (patched (GFA registered) (flat 1)) frames registered)
     = Raise (KeyError "dithered")
  /\ num_guide_frames
       (snd (process_guide_frame (patched (GFA registered) (flat 1)) frames registered))
     = Bound 0
  /\ fst (process_guide_frame etc_globals frames unregistered)
     = Raise (NameError "loggining").
Proof.
  split.
  { eexists. split; vm_compute; reflexivity. }
  repeat split; vm_compute; reflexivity.
Qed.

(** C5.  A star far outside the frame is not excluded.  For the catalog
    entry of GUIDE2 at the column 1e30 the cast of [np.round(x0)] to
    [int64] overflows to the smallest [int64], and [ix - halfsize] wraps
    around to the largest: the test of line 147 passes, [set_guide_stars]
    registers the star with a column slice from 2^63 - 1 to 2 - 2^63,
    which cuts an empty stamp out of a frame, and returns [True].  The
    entry of the same catalog at the column 0.7, too close to the border,
    is skipped. *)
Theorem far_star_is_registered :
  set_guide_stars Bench.far_loc Bench.far_col Bench.far_row Bench.far_mag
    default_zeropoint default_fiber_diam_um default_pixel_size_um acquired
  = (Return true, Bench.overflowed)
  /\ (exists st0 st1,
        guide_stars Bench.overflowed = Some [("GUIDE0", [st0]); ("GUIDE2", [st1])]
        /\ Some (x0 st1)
           = option_map (fun c => (c - 0.5)%float) (nth_error Bench.far_col 1)
        /\ option_map round_half_even (float_value (x0 st1))
           = Some 1000000000000000019884624838656
        /\ np_round_int (x0 st1) = int64_min
        /\ xslice st1 = {| start := 2 ^ 63 - 1; stop := 2 - 2 ^ 63 |}
        /\ yslice st1 = {| start := 2; stop := 5 |}
        /\ cutout (flat 1) (yslice st1) (xslice st1) = [[]; []; []])
  /\ usable acquired Bench.far_loc Bench.far_col Bench.far_row Bench.far_mag 1
     = true
  /\ usable acquired Bench.far_loc Bench.far_col Bench.far_row Bench.far_mag 2
     = false.
Proof.
  split; [vm_compute; reflexivity|]. split.
  - eexists _, _. split; [reflexivity|]. repeat split; vm_compute; reflexivity.
  - split; vm_compute; reflexivity.
Qed.

(** The constructor at the stamp sizes 24 and 25. *)
Lemma init_raises_exactly_on_even_psf_pixels_witness :
  ETC_init (C := lab) "sky" "gfa" 24 7 1200
  = Raise (ValueError "psf_pixels must be odd.")
  /\ exists self,
       ETC_init (C := lab) "sky" "gfa" 25 7 1200 = Return self
       /\ psf_pixels self = 25.
Proof.
  split.
  - apply (proj1 (init_raises_exactly_on_even_psf_pixels (C := lab)
                    "sky" "gfa" 24 7%Q 1200)).
    reflexivity.
  - apply (proj2 (init_raises_exactly_on_even_psf_pixels (C := lab)
                    "sky" "gfa" 25 7%Q 1200)).
    reflexivity.
Defined.

(** A guide frame sent to the object that the constructor returns. *)
Lemma guide_frame_before_acquisition_raises_witness :
  process_guide_frame etc_globals frames fresh
  = (Raise (AttributeError "num_guide_frames"), fresh).
Proof.
  apply (guide_frame_before_acquisition_raises (C := lab) "sky" "gfa" 3 7%Q 1200).
  reflexivity.
Defined.

(** Three guide cameras and no image for GUIDE3: two entries. *)
Lemma acquisition_skips_missing_cameras_witness :
  exists s' results,
    process_acquisition frames fresh = (Return tt, s')
    /\ acquisition_results s' = Some results
    /\ dict_in "GUIDE3" results = false
    /\ dict_in "GUIDE0" results = true
    /\ dict_in "GUIDE2" results = true
    /\ List.length results = 2%nat.
Proof.
  destruct (acquisition_skips_missing_cameras (C := lab) frames fresh
              eq_refl lab_stamps_ok)
    as (s' & results & n & e & Hrun & _ & Hres & Hmiss & _ & _ & Hall).
  exists s', results. split; [exact Hrun|]. split; [exact Hres|].
  split; [apply Hmiss; reflexivity|].
  split.
  { apply (Hall "GUIDE0" (shot (flat 0)));
      [simpl; auto|reflexivity|intros s0; reflexivity]. }
  split.
  { apply (Hall "GUIDE2" (shot (flat 1)));
      [simpl; auto|reflexivity|intros s0; reflexivity]. }
  rewrite lab_acquisition in Hrun. injection Hrun as <-.
  assert (E : option_map (@List.length _) (acquisition_results acquired)
              = Some 2%nat) by reflexivity.
  rewrite Hres in E. now injection E.
Defined.


(** The star that the first entry of the catalog gives GUIDE0: the entry
    is at (3.5, 3.5), the star at (3, 3). *)
Lemma registered_position_is_catalog_minus_half_witness :
  exists b reg stars st,
    set_guide_stars cat_loc cat_col cat_row cat_mag default_zeropoint
      default_fiber_diam_um default_pixel_size_um acquired
    = (Return b, set_guide_stars_attr (Some reg) acquired)
    /\ dict_get reg "GUIDE0" = Some stars
    /\ In st stars
    /\ x0 st = 3%float
    /\ y0 st = 3%float
    /\ xslice st = {| start := 2; stop := 5 |}
    /\ fiber_dx st = 0%float.
Proof.
  destruct (registered_position_is_catalog_minus_half (C := lab) cat_loc cat_col
              cat_row cat_mag default_zeropoint default_fiber_diam_um
              default_pixel_size_um acquired _ _ _ eq_refl eq_refl eq_refl eq_refl
              eq_refl)
    as (b & reg & Hrun & Hstar & Hkept & _).
  destruct (Hkept 0%nat eq_refl)
    as (camera & c & r & stars & st & El & Ec & Er & Hget & Hst & Hx & Hy).
  injection El as <-. injection Ec as <-. injection Er as <-.
  destruct (Hstar "GUIDE0" stars st Hget Hst)
    as (_ & _ & _ & _ & _ & _ & _ & _ & _ & Hxs & Hdx & _).
  exists b, reg, stars, st. split; [exact Hrun|]. split; [exact Hget|].
  split; [exact Hst|]. split; [exact Hx|]. split; [exact Hy|].
  rewrite Hxs, Hdx, Hx. split; reflexivity.
Defined.

(** Each star kept for GUIDE2 stores three rates: one for each catalog
    entry selected for GUIDE2, the skipped one included. *)
Lemma nelec_rate_spans_camera_selection_witness :
  exists b reg,
    set_guide_stars cat_loc cat_col cat_row cat_mag default_zeropoint
      default_fiber_diam_um default_pixel_size_um acquired
    = (Return b, set_guide_stars_attr (Some reg) acquired)
    /\ forall stars st,
         dict_get reg "GUIDE2" = Some stars ->
         In st stars ->
         List.length (nelec_rate st) = 3%nat.
Proof.
  destruct (nelec_rate_spans_camera_selection (C := lab) cat_loc cat_col cat_row
              cat_mag default_zeropoint default_fiber_diam_um default_pixel_size_um
              acquired _ _ _ eq_refl eq_refl eq_refl eq_refl eq_refl)
    as (b & reg & Hrun & Hstar).
  exists b, reg. split; [exact Hrun|]. intros stars st Hget Hst.
  destruct (Hstar "GUIDE2" stars st Hget Hst) as ((sel & Hsel & Hrate) & _).
  cbv in Hsel. injection Hsel as <-. rewrite Hrate. reflexivity.
Defined.

(** A catalog whose four stars are all too close to the border. *)
Lemma rejected_catalog_leaves_empty_registry_witness :
  exists s',
    set_guide_stars cat_loc edge_col cat_row cat_mag default_zeropoint
      default_fiber_diam_um default_pixel_size_um acquired
    = (Return false, s')
    /\ guide_stars s' = Some []
    /\ forall G data, fst (process_guide_frame G data s') <> Return false.
Proof.
  apply (rejected_catalog_leaves_empty_registry (C := lab) cat_loc edge_col cat_row
           cat_mag default_zeropoint default_fiber_diam_um default_pixel_size_um
           acquired _ _ _ eq_refl eq_refl eq_refl eq_refl eq_refl).
  intros j. do 4 (destruct j as [|j]; [reflexivity|]). destruct j; reflexivity.
Defined.

(** * Further properties of the methods *)

(** ** [preprocess_gfa] *)

Section Preprocessing.

Context {C : Collaborators}.

(** X1.  When [preprocess_gfa] returns [True] the header had an
    observation date and an exposure time for which the tests of lines 235
    and 239 came out false (they do for a date of 2019 or later and a
    positive time, and also for a NaN), both are stored in [gfa_mjd_obs]
    and [gfa_exptime], the raw data were accepted by [setraw], and the
    camera object holds them with the dark current for the CCD temperature
    of the header, or for the default one when the header has none,
    subtracted. *)
Theorem preprocess_gfa_success :
  forall (camera : string) (p : camera_payload) (t : float) (s s' : ETC),
    preprocess_gfa camera p t s = (Return true, s') ->
    exists hdr raw mjd exptime,
      cp_header p = Some hdr
      /\ cp_data p = Some raw
      /\ MJD_OBS hdr = Some mjd
      /\ (mjd <? 58484)%float = false
      /\ EXPTIME hdr = Some exptime
      /\ (exptime <=? 0)%float = false
      /\ gfa_mjd_obs s' = Bound (Some mjd)
      /\ gfa_exptime s' = Bound (Some exptime)
      /\ fst (setraw (GFA s) raw camera) = true
      /\ GFA s'
         = isub_data (snd (setraw (GFA s) raw camera))
             (get_dark_current (snd (setraw (GFA s) raw camera))
                (ccdtemp_of hdr t) exptime).
Proof.
  intros camera p t s s'.
  cbv [preprocess_gfa bind lift key modify ret get].
  destruct (cp_header p) as [hdr|]; [|discriminate].
  destruct (MJD_OBS hdr) as [mjd|] eqn:Em; [|discriminate].
  destruct (mjd <? 58484)%float eqn:Et; [discriminate|].
  destruct (EXPTIME hdr) as [exptime|] eqn:Ee; [|discriminate].
  destruct (exptime <=? 0)%float eqn:Ep; [discriminate|].
  destruct (cp_data p) as [raw|]; [|discriminate].
  cbn [GFA set_gfa_exptime set_gfa_mjd_obs].
  destruct (setraw (GFA s) raw camera) as [[|] g] eqn:Eraw; cbn [fst snd negb];
    [|discriminate].
  intros [= <-]. exists hdr, raw, mjd, exptime. rewrite Eraw. cbn.
  repeat split; auto.
Qed.

(** X2.  A camera image whose header fails the test of the observation
    date or of the exposure time is refused with [False] before its data
    are looked at: the camera object is untouched, a missing ['data'] key
    goes unnoticed, and when the date fails [gfa_exptime] keeps the value
    of the frame before. *)
Theorem preprocess_gfa_rejects_invalid_header :
  forall (camera : string) (p : camera_payload) (t : float) (s : ETC)
         (hdr : camera_header),
    cp_header p = Some hdr ->
    header_valid hdr = false ->
    exists s',
      preprocess_gfa camera p t s = (Return false, s')
      /\ GFA s' = GFA s
      /\ gfa_mjd_obs s' = Bound (MJD_OBS hdr)
      /\ gfa_exptime s'
         = match MJD_OBS hdr with
           | Some mjd =>
               if (mjd <? 58484)%float then gfa_exptime s else Bound (EXPTIME hdr)
           | None => gfa_exptime s
           end.
Proof.
  intros camera p t s hdr Hh Hv. unfold header_valid in Hv.
  cbv [preprocess_gfa bind lift key modify ret get]. rewrite Hh.
  destruct (MJD_OBS hdr) as [mjd|]; [|eexists; repeat split].
  destruct (mjd <? 58484)%float; [eexists; repeat split|].
  destruct (EXPTIME hdr) as [exptime|]; [|eexists; repeat split].
  destruct (exptime <=? 0)%float; [eexists; repeat split|discriminate].
Qed.

(** X3.  A camera image with a valid header and without the key
    ['data'] makes [preprocess_gfa] raise: the [KeyError] of line 247 is
    raised inside the [try], whose [except ValueError] does not catch it.
    The camera object is as before, while [gfa_mjd_obs] and [gfa_exptime]
    already hold the values of the header. *)
Theorem preprocess_gfa_missing_data_escapes :
  forall (camera : string) (p : camera_payload) (t : float) (s : ETC)
         (hdr : camera_header),
    cp_header p = Some hdr ->
    header_valid hdr = true ->
    cp_data p = None ->
    exists s',
      preprocess_gfa camera p t s = (Raise (KeyError "data"), s')
      /\ GFA s' = GFA s
      /\ gfa_mjd_obs s' = Bound (MJD_OBS hdr)
      /\ gfa_exptime s' = Bound (EXPTIME hdr).
Proof.
  intros camera p t s hdr Hh Hv Hd. unfold header_valid in Hv.
  cbv [preprocess_gfa bind lift key modify ret get]. rewrite Hh, Hd.
  destruct (MJD_OBS hdr) as [mjd|]; [|discriminate].
  destruct (EXPTIME hdr) as [exptime|]; [|discriminate].
  apply andb_prop in Hv. destruct Hv as [Hm He].
  apply negb_true_iff in Hm, He. rewrite Hm, He.
  eexists. repeat split.
Qed.

(** X4.  When [setraw] refuses the raw data of an image with a valid
    header, [preprocess_gfa] returns [False] and leaves the camera object
    as [setraw] left it: no dark current is subtracted, while
    [gfa_mjd_obs] and [gfa_exptime] already hold the values of the refused
    image. *)
Theorem preprocess_gfa_refused_raw_data :
  forall (camera : string) (p : camera_payload) (t : float) (s : ETC)
         (hdr : camera_header) (raw : raw_image),
    cp_header p = Some hdr ->
    header_valid hdr = true ->
    cp_data p = Some raw ->
    fst (setraw (GFA s) raw camera) = false ->
    exists s',
      preprocess_gfa camera p t s = (Return false, s')
      /\ GFA s' = snd (setraw (GFA s) raw camera)
      /\ gfa_mjd_obs s' = Bound (MJD_OBS hdr)
      /\ gfa_exptime s' = Bound (EXPTIME hdr).
Proof.
  intros camera p t s hdr raw Hh Hv Hd Hraw. unfold header_valid in Hv.
  cbv [preprocess_gfa bind lift key modify ret get]. rewrite Hh, Hd.
  destruct (MJD_OBS hdr) as [mjd|]; [|discriminate].
  destruct (EXPTIME hdr) as [exptime|]; [|discriminate].
  apply andb_prop in Hv. destruct Hv as [Hm He].
  apply negb_true_iff in Hm, He. rewrite Hm, He.
  cbn [GFA set_gfa_exptime set_gfa_mjd_obs]. rewrite Hraw. cbn [negb].
  eexists. repeat split.
Qed.

(** X5.  However it ends, [preprocess_gfa] assigns nothing but the camera
    object, [gfa_mjd_obs] and [gfa_exptime]: the results of the
    acquisition, the guide stars, the counter of guide frames, the night,
    the exposure identifier and the configuration of the fit are as
    before. *)
Theorem preprocess_gfa_keeps_exposure :
  forall (camera : string) (p : camera_payload) (t : float) (s : ETC),
    let s' := snd (preprocess_gfa camera p t s) in
    acquisition_results s' = acquisition_results s
    /\ guide_stars s' = guide_stars s
    /\ num_guide_frames s' = num_guide_frames s
    /\ night s' = night s
    /\ expid s' = expid s
    /\ psf_pixels s' = psf_pixels s
    /\ GMM s' = GMM s
    /\ xdither s' = xdither s
    /\ ydither s' = ydither s.
Proof.
  intros camera p t s s'.
  pose proof (preprocess_gfa_same_exposure camera p t s) as H.
  unfold same_exposure in H. fold s' in H. tauto.
Qed.

End Preprocessing.

(** ** Slices *)

Lemma take_slice_In {A : Type} (sl : slice) (l : list A) (x : A) :
  In x (take_slice sl l) -> In x l.
Proof.
  unfold take_slice. intros H.
  set (rest := skipn _ l) in H.
  assert (Hrest : In x rest).
  { rewrite <- (firstn_skipn (Z.to_nat
                   (clip_index (Z.of_nat (List.length l)) (stop sl)
                    - clip_index (Z.of_nat (List.length l)) (start sl))) rest).
    apply in_or_app. now left. }
  unfold rest in Hrest.
  rewrite <- (firstn_skipn
                (Z.to_nat (clip_index (Z.of_nat (List.length l)) (start sl))) l).
  apply in_or_app. now right.
Qed.

(** A slice whose bounds lie in the sequence has the length that the
    bounds give. *)
Lemma take_slice_length_inside {A : Type} (lo hi : Z) (l : list A) :
  0 <= lo -> lo <= hi -> hi <= Z.of_nat (List.length l) ->
  List.length (take_slice {| start := lo; stop := hi |} l) = Z.to_nat (hi - lo).
Proof.
  intros H0 H1 H2. unfold take_slice, clip_index. cbn [start stop].
  rewrite length_firstn, length_skipn.
  destruct (lo <? 0) eqn:El; [apply Z.ltb_lt in El; lia|].
  destruct (hi <? 0) eqn:Eh; [apply Z.ltb_lt in Eh; lia|].
  lia.
Qed.

(** The central slice of line 86 has [pixels] entries, none when [pixels]
    is negative. *)
Lemma trim_slice_length {A : Type} (pixels : Z) (l : list A) :
  pixels <= Z.of_nat (List.length l) ->
  List.length
    (take_slice
       {| start := (Z.of_nat (List.length l) - pixels) / 2;
          stop := (Z.of_nat (List.length l) - pixels) / 2 + pixels |} l)
  = Z.to_nat pixels.
Proof.
  intros Hle. unfold take_slice, clip_index. cbn [start stop].
  rewrite length_firstn, length_skipn.
  set (n := Z.of_nat (List.length l)) in *.
  pose proof (Z.div_mod (n - pixels) 2) as Hdiv.
  pose proof (Z.mod_pos_bound (n - pixels) 2) as Hmod.
  set (q := (n - pixels) / 2) in *.
  assert (Hn : List.length l = Z.to_nat n) by (unfold n; lia).
  rewrite Hn.
  destruct (q <? 0) eqn:El; [apply Z.ltb_lt in El|apply Z.ltb_ge in El];
    destruct (q + pixels <? 0) eqn:Eh;
    [apply Z.ltb_lt in Eh|apply Z.ltb_ge in Eh
    |apply Z.ltb_lt in Eh|apply Z.ltb_ge in Eh]; lia.
Qed.

Lemma cutout_shape (img : image) (ys xs : slice) (a b : nat) :
  List.length (take_slice ys img) = a ->
  (forall row, In row img -> List.length (take_slice xs row) = b) ->
  has_shape a b (cutout img ys xs) = true.
Proof.
  intros Ha Hb. unfold has_shape, cutout. rewrite length_map, Ha, Nat.eqb_refl.
  cbn [andb]. apply forallb_forall. intros row Hrow.
  apply in_map_iff in Hrow. destruct Hrow as (row0 & <- & Hin).
  apply Nat.eqb_eq. apply Hb. now apply take_slice_In in Hin.
Qed.

Lemma has_shape_rows (r c : nat) (img : image) :
  has_shape r c img = true ->
  List.length img = r /\ forall row, In row img -> List.length row = c.
Proof.
  unfold has_shape. intros H. apply andb_prop in H. destruct H as [Hr Hc].
  apply Nat.eqb_eq in Hr. split; [exact Hr|].
  intros row Hin. rewrite forallb_forall in Hc. apply Nat.eqb_eq. now apply Hc.
Qed.

(** The stamp that line 87 cuts from a square stack at least
    [pixels] wide is [pixels] by [pixels]. *)
Lemma trimmed_stamp_shape (pixels : Z) (T : image) :
  has_shape (List.length T) (List.length T) T = true ->
  pixels <= Z.of_nat (List.length T) ->
  has_shape (Z.to_nat pixels) (Z.to_nat pixels)
    (cutout T
       {| start := (Z.of_nat (List.length T) - pixels) / 2;
          stop := (Z.of_nat (List.length T) - pixels) / 2 + pixels |}
       {| start := (Z.of_nat (List.length T) - pixels) / 2;
          stop := (Z.of_nat (List.length T) - pixels) / 2 + pixels |}) = true.
Proof.
  intros Hsq Hle. apply has_shape_rows in Hsq. destruct Hsq as [_ Hrows].
  apply cutout_shape.
  - now apply trim_slice_length.
  - intros row Hin. rewrite <- (Hrows row Hin). apply trim_slice_length.
    rewrite (Hrows row Hin). exact Hle.
Qed.

(** ** [process_acquisition] *)

Section AcquisitionEntries.

Context {C : Collaborators}.

Lemma entry_ok_config (s s' : ETC) (cr : camera_result) :
  psf_pixels s' = psf_pixels s ->
  GMM s' = GMM s ->
  xdither s' = xdither s ->
  ydither s' = ydither s ->
  entry_ok s cr ->
  entry_ok s' cr.
Proof.
  unfold entry_ok. intros -> -> -> ->. auto.
Qed.

(** One turn of the camera loop of [process_acquisition], however it
    ends: it assigns nothing but the camera object, the two attributes of
    [preprocess_gfa] and [acquisition_results], and every entry that it
    leaves is complete. *)
Lemma acquire_camera_effect data c s o s' :
  acquire_camera data c s = (o, s') ->
  night s' = night s
  /\ expid s' = expid s
  /\ guide_stars s' = guide_stars s
  /\ num_guide_frames s' = num_guide_frames s
  /\ psf_pixels s' = psf_pixels s
  /\ GMM s' = GMM s
  /\ xdither s' = xdither s
  /\ ydither s' = ydither s
  /\ ((forall d k cr,
         acquisition_results s = Some d -> dict_get d k = Some cr -> entry_ok s cr) ->
      forall d k cr,
        acquisition_results s' = Some d -> dict_get d k = Some cr -> entry_ok s' cr).
Proof.
  unfold acquire_camera.
  destruct (dict_get (images data) c) as [p|].
  2:{ intros [= <- <-]. repeat split; auto. }
  pose proof (preprocess_gfa_same_exposure c p 10%float s) as Hsame.
  unfold bind at 1.
  destruct (preprocess_gfa c p 10%float s) as [[ok|err] s1]; cbn [snd] in Hsame;
    destruct Hsame as (Ha & Hg & Hp & Hm & Hx & Hy & Hn & He & Hc).
  2:{ intros [= <- <-]. repeat split; auto. intros Hinv d k cr Hd Hk.
      apply (entry_ok_config s); auto. apply (Hinv d k); congruence. }
  assert (Hkeep : forall s2,
             acquisition_results s2 = acquisition_results s1 ->
             psf_pixels s2 = psf_pixels s1 -> GMM s2 = GMM s1 ->
             xdither s2 = xdither s1 -> ydither s2 = ydither s1 ->
             (forall d k cr,
                 acquisition_results s = Some d -> dict_get d k = Some cr ->
                 entry_ok s cr) ->
             forall d k cr,
               acquisition_results s2 = Some d -> dict_get d k = Some cr ->
               entry_ok s2 cr).
  { intros s2 H1 H2 H3 H4 H5 Hinv d k cr Hd Hk.
    apply (entry_ok_config s); try congruence. apply (Hinv d k); congruence. }
  destruct ok; cbn [negb]; unfold ret.
  2:{ intros [= <- <-]. repeat split; auto. apply Hkeep; auto. }
  cbv [bind get modify lift assert store_result raise ret].
  cbn [GFA set_GFA psf_pixels GMM xdither ydither acquisition_results].
  destruct (psf_stack (get_psfs (GFA s1))) as [[T WT]|].
  2:{ intros [= <- <-]. cbn. repeat split; auto. apply Hkeep; auto. }
  destruct (has_shape _ _ T && has_shape _ _ WT) eqn:Eshape.
  2:{ intros [= <- <-]. cbn. repeat split; auto. apply Hkeep; auto. }
  destruct (psf_pixels s1 <=? _) eqn:Ele.
  2:{ intros [= <- <-]. cbn. repeat split; auto. apply Hkeep; auto. }
  cbn [acquisition_results set_GFA].
  destruct (acquisition_results s1) as [d1|] eqn:Ed1.
  2:{ intros [= <- <-]. cbn. repeat split; auto. intros _ d k cr Hd.
      rewrite Ed1 in Hd. discriminate. }
  apply andb_prop in Eshape. destruct Eshape as [HT HWT].
  apply Z.leb_le in Ele.
  assert (HsT := trimmed_stamp_shape (psf_pixels s1) T HT Ele).
  assert (Hlen : List.length WT = List.length T).
  { pose proof (has_shape_rows _ _ _ HWT) as [Hl _]. exact Hl. }
  assert (HWT' : has_shape (List.length WT) (List.length WT) WT = true).
  { now rewrite Hlen. }
  assert (HsWT := trimmed_stamp_shape (psf_pixels s1) WT HWT').
  rewrite Hlen in HsWT. specialize (HsWT Ele).
  set (S := {| start := _; stop := _ |}) in *.
  destruct (GMM_fit (GMM s1) (cutout T S S) (cutout WT S S) 3) as [params|] eqn:Efit;
    intros [= <- <-]; cbn; (repeat split; auto);
    intros Hinv d k cr [= <-]; rewrite !dict_get_set;
    (destruct (String.eqb k c);
     [intros [= <-]; unfold entry_ok; cbn;
      exists (cutout T S S), (cutout WT S S); rewrite Efit; repeat split; auto
     |intros Hk; apply (entry_ok_config s); cbn; auto;
      apply (Hinv d1 k); congruence]).
Qed.

(** The camera loop of [process_acquisition], however it ends. *)
Lemma acquire_loop_effect data l :
  forall s o s',
    for_each l (acquire_camera data) s = (o, s') ->
    night s' = night s
    /\ expid s' = expid s
    /\ guide_stars s' = guide_stars s
    /\ num_guide_frames s' = num_guide_frames s
    /\ psf_pixels s' = psf_pixels s
    /\ GMM s' = GMM s
    /\ xdither s' = xdither s
    /\ ydither s' = ydither s
    /\ ((forall d k cr,
           acquisition_results s = Some d -> dict_get d k = Some cr ->
           entry_ok s cr) ->
        forall d k cr,
          acquisition_results s' = Some d -> dict_get d k = Some cr ->
          entry_ok s' cr).
Proof.
  induction l as [|c l IH]; intros s o s'.
  - intros [= <- <-]. repeat split; auto.
  - cbn [for_each]. unfold bind.
    destruct (acquire_camera data c s) as [o1 s1] eqn:E1.
    pose proof (acquire_camera_effect data c s o1 s1 E1)
      as (Hn & He & Hg & Hc & Hp & Hm & Hx & Hy & Hinv).
    destruct o1 as [[]|err].
    + intros E2. pose proof (IH s1 o s' E2)
        as (Hn' & He' & Hg' & Hc' & Hp' & Hm' & Hx' & Hy' & Hinv').
      repeat split; try congruence.
      intros H0. apply Hinv'. apply Hinv. exact H0.
    + intros [= <- <-]. repeat split; auto.
Qed.

(** A call of [process_acquisition] that gets past the header. *)
Lemma process_acquisition_effect data s o s' hdr n e :
  header data = Some hdr ->
  NIGHT hdr = Some n ->
  EXPID hdr = Some e ->
  process_acquisition data s = (o, s') ->
  night s' = Bound n
  /\ expid s' = Bound e
  /\ psf_pixels s' = psf_pixels s
  /\ GMM s' = GMM s
  /\ xdither s' = xdither s
  /\ ydither s' = ydither s
  /\ (forall d k cr,
        acquisition_results s' = Some d -> dict_get d k = Some cr ->
        entry_ok s cr)
  /\ match o with
     | Return _ => True
     | Raise _ =>
         guide_stars s' = guide_stars s
         /\ num_guide_frames s' = num_guide_frames s
     end.
Proof.
  intros Hh Hn He.
  cbv [process_acquisition bind lift key modify get ret]. rewrite Hh, Hn, He.
  change (set_acquisition_results (Some []) (set_expid e (set_night n s)))
    with (acquisition_start n e s).
  destruct (for_each _ _ (acquisition_start n e s)) as [o1 s1] eqn:E1.
  pose proof (acquire_loop_effect data _ _ o1 s1 E1)
    as (Hn1 & He1 & Hg1 & Hc1 & Hp1 & Hm1 & Hx1 & Hy1 & Hinv).
  assert (Hentries : forall d k cr,
             acquisition_results s1 = Some d -> dict_get d k = Some cr ->
             entry_ok s cr).
  { intros d k cr Hd Hk. apply (entry_ok_config s1); auto.
    apply (Hinv) with (d := d) (k := k); auto.
    intros d0 k0 cr0 [= <-]. discriminate. }
  destruct o1 as [[]|err]; intros [= <- <-]; cbn; repeat split; auto.
Qed.

(** X6.  After a call of [process_acquisition] that returns, every entry
    of [acquisition_results] has the two stamps ['data'] and ['ivar'], and
    its other keys follow from the fit of those stamps: when the fit
    succeeded the entry has its parameters, their model and their dithered
    renderings at the offsets of the object, and when it failed the entry
    has none of the three keys. *)
Theorem acquisition_entries_follow_the_fit :
  forall (data : payload) (s s' : ETC),
    process_acquisition data s = (Return tt, s') ->
    exists results,
      acquisition_results s' = Some results
      /\ forall camera cr,
           dict_get results camera = Some cr ->
           exists T WT,
             cr_data cr = Some T
             /\ cr_ivar cr = Some WT
             /\ cr_gmm cr = GMM_fit (GMM s') T WT 3
             /\ match cr_gmm cr with
                | Some params =>
                    cr_model cr = Some (GMM_predict (GMM s') params)
                    /\ cr_dithered cr
                       = Some (GMM_dither (GMM s') params (xdither s') (ydither s'))
                | None => cr_model cr = None /\ cr_dithered cr = None
                end.
Proof.
  intros data s s' Hrun.
  destruct (process_acquisition_binds_exposure data s s' Hrun)
    as (results & _ & _ & Hres & _).
  pose proof Hrun as Hrun'.
  revert Hrun'. cbv [process_acquisition bind lift key].
  destruct (header data) as [hdr|] eqn:Hh; [|discriminate].
  destruct (NIGHT hdr) as [n|] eqn:Hn; [|discriminate].
  destruct (EXPID hdr) as [e|] eqn:He; [|discriminate]. intros _.
  destruct (process_acquisition_effect data s _ s' hdr n e Hh Hn He Hrun)
    as (_ & _ & _ & Hm & Hx & Hy & Hentries & _).
  exists results. split; [exact Hres|].
  intros camera cr Hget.
  destruct (Hentries results camera cr Hres Hget)
    as (T & WT & HT & HWT & _ & _ & Hfit & Hmodel & Hdith).
  exists T, WT. rewrite Hm, Hx, Hy. repeat split; auto.
  rewrite Hmodel, Hdith. destruct (cr_gmm cr); split; reflexivity.
Qed.

(** X7.  After a call of [process_acquisition] that returns, the stamps
    ['data'] and ['ivar'] of every entry are [psf_pixels] by
    [psf_pixels]: the central part of the stack of the camera. *)
Theorem acquisition_stamps_have_psf_size :
  forall (data : payload) (s s' : ETC),
    process_acquisition data s = (Return tt, s') ->
    exists results,
      acquisition_results s' = Some results
      /\ forall camera cr,
           dict_get results camera = Some cr ->
           exists T WT,
             cr_data cr = Some T
             /\ cr_ivar cr = Some WT
             /\ has_shape (Z.to_nat (psf_pixels s')) (Z.to_nat (psf_pixels s')) T
                = true
             /\ has_shape (Z.to_nat (psf_pixels s')) (Z.to_nat (psf_pixels s')) WT
                = true.
Proof.
  intros data s s' Hrun.
  destruct (process_acquisition_binds_exposure data s s' Hrun)
    as (results & _ & _ & Hres & _).
  pose proof Hrun as Hrun'.
  revert Hrun'. cbv [process_acquisition bind lift key].
  destruct (header data) as [hdr|] eqn:Hh; [|discriminate].
  destruct (NIGHT hdr) as [n|] eqn:Hn; [|discriminate].
  destruct (EXPID hdr) as [e|] eqn:He; [|discriminate]. intros _.
  destruct (process_acquisition_effect data s _ s' hdr n e Hh Hn He Hrun)
    as (_ & _ & Hp & _ & _ & _ & Hentries & _).
  exists results. split; [exact Hres|].
  intros camera cr Hget.
  destruct (Hentries results camera cr Hres Hget)
    as (T & WT & HT & HWT & HsT & HsWT & _).
  exists T, WT. rewrite Hp. auto.
Qed.

(** X8.  A call of [process_acquisition] that returns has stored the
    night and the exposure identifier of the header of its payload, and
    has left the stamp size, the fit object and the dither offsets of the
    object as they were. *)
Theorem acquisition_records_the_exposure :
  forall (data : payload) (s s' : ETC),
    process_acquisition data s = (Return tt, s') ->
    exists hdr n e,
      header data = Some hdr
      /\ NIGHT hdr = Some n
      /\ EXPID hdr = Some e
      /\ night s' = Bound n
      /\ expid s' = Bound e
      /\ psf_pixels s' = psf_pixels s
      /\ GMM s' = GMM s
      /\ xdither s' = xdither s
      /\ ydither s' = ydither s.
Proof.
  intros data s s' Hrun. pose proof Hrun as Hrun'.
  revert Hrun'. cbv [process_acquisition bind lift key].
  destruct (header data) as [hdr|] eqn:Hh; [|discriminate].
  destruct (NIGHT hdr) as [n|] eqn:Hn; [|discriminate].
  destruct (EXPID hdr) as [e|] eqn:He; [|discriminate]. intros _.
  destruct (process_acquisition_effect data s _ s' hdr n e Hh Hn He Hrun)
    as (Hn' & He' & Hp & Hm & Hx & Hy & _).
  exists hdr, n, e. repeat split; auto.
Qed.

(** X9.  A call of [process_acquisition] that raises, whether at a key of
    the header or in the camera loop, never reaches lines 105 and 106: the
    guide stars and the counter of guide frames of the exposure before are
    still in place. *)
Theorem acquisition_that_raises_keeps_the_registry :
  forall (data : payload) (s s' : ETC) (err : exn),
    process_acquisition data s = (Raise err, s') ->
    guide_stars s' = guide_stars s
    /\ num_guide_frames s' = num_guide_frames s.
Proof.
  intros data s s' err Hrun. pose proof Hrun as Hrun'.
  revert Hrun'. cbv [process_acquisition bind lift key modify].
  destruct (header data) as [hdr|] eqn:Hh; [|intros [= <- <-]; auto].
  destruct (NIGHT hdr) as [n|] eqn:Hn; [|intros [= <- <-]; auto].
  destruct (EXPID hdr) as [e|] eqn:He; [|intros [= <- <-]; auto]. intros _.
  now destruct (process_acquisition_effect data s _ s' hdr n e Hh Hn He Hrun)
    as (_ & _ & _ & _ & _ & _ & _ & H).
Qed.

End AcquisitionEntries.

(** ** [set_guide_stars] *)

Section RegistrationEffects.

Context {C : Collaborators}.

Lemma read_exposure_id_state (s : ETC) : snd (read_exposure_id s) = s.
Proof.
  cbv [read_exposure_id bind get lift attr ret].
  destruct (night s); [reflexivity|]. destruct (expid s); reflexivity.
Qed.

(** One turn of the camera loop of [set_guide_stars] assigns nothing but
    [guide_stars], however it ends. *)
Lemma register_camera_only_registry gfa_loc col row mag zeropoint profile
    halfsize ny nx camera s :
  exists v,
    snd (register_camera gfa_loc col row mag zeropoint profile halfsize ny nx
           camera s)
    = set_guide_stars_attr v s.
Proof.
  assert (Hsame : s = set_guide_stars_attr (guide_stars s) s).
  { symmetry. now apply set_guide_stars_attr_same. }
  unfold register_camera. cbv [bind lift get ret].
  destruct (star_selection gfa_loc mag camera) as [sel|err];
    [|now exists (guide_stars s)].
  destruct (negb (existsb (fun b => b) sel)); [now exists (guide_stars s)|].
  destruct (collect_stars _ _) as [[|st stars]|err];
    try (now exists (guide_stars s)).
  cbv [store_stars bind get modify raise].
  destruct (guide_stars s) as [d|] eqn:Eg.
  - eexists. reflexivity.
  - exists None. cbn [snd]. rewrite <- Eg at 1. symmetry.
    now apply set_guide_stars_attr_same.
Qed.

Lemma register_loop_only_registry gfa_loc col row mag zeropoint profile
    halfsize ny nx (l : list string) :
  forall s,
    exists v,
      snd (for_each l
             (register_camera gfa_loc col row mag zeropoint profile halfsize ny nx)
             s)
      = set_guide_stars_attr v s.
Proof.
  induction l as [|c l IH]; intros s.
  - exists (guide_stars s). cbn. symmetry. now apply set_guide_stars_attr_same.
  - cbn [for_each]. unfold bind.
    destruct (register_camera_only_registry gfa_loc col row mag zeropoint
                profile halfsize ny nx c s) as [v1 H1].
    destruct (register_camera _ _ _ _ _ _ _ _ _ c s) as [[[]|err] s1];
      cbn [snd] in *; [|now exists v1].
    destruct (IH s1) as [v2 H2]. exists v2. rewrite H2, H1. reflexivity.
Qed.

(** [set_guide_stars] assigns nothing but [guide_stars], however it
    ends. *)
Lemma set_guide_stars_only_registry gfa_loc col row mag zeropoint fiber_diam_um
    pixel_size_um s :
  exists v,
    snd (set_guide_stars gfa_loc col row mag zeropoint fiber_diam_um
           pixel_size_um s)
    = set_guide_stars_attr v s.
Proof.
  assert (Hsame : forall s0 : ETC, s0 = set_guide_stars_attr (guide_stars s0) s0).
  { intros s0. symmetry. now apply set_guide_stars_attr_same. }
  unfold set_guide_stars. unfold bind at 1, get at 1.
  destruct (acquisition_results s); [|now exists (guide_stars s)].
  unfold bind at 1.
  assert (Hfirst : snd (match guide_stars s with
                        | Some _ => read_exposure_id
                        | None => ret tt
                        end s) = s).
  { destruct (guide_stars s); [apply read_exposure_id_state|reflexivity]. }
  destruct (match guide_stars s with
            | Some _ => read_exposure_id
            | None => ret tt
            end s) as [[[]|err] s0]; cbn [snd] in Hfirst; subst s0;
    [|now exists (guide_stars s)].
  unfold bind at 1.
  destruct (Qeq_bool pixel_size_um 0); [now exists (guide_stars s)|].
  unfold ret at 1. unfold bind at 1, modify at 1. unfold bind at 1.
  destruct (register_loop_only_registry gfa_loc col row mag zeropoint
              (fiber_profile (((1 # 2) * fiber_diam_um / pixel_size_um) ^ 2))
              (psf_pixels s / 2) (2 * nampx (GFA s)) (2 * nampy (GFA s))
              (guide_names (GFA s)) (set_guide_stars_attr (Some []) s))
    as [v Hv].
  destruct (for_each _ _ (set_guide_stars_attr (Some []) s)) as [[[]|err] s1];
    cbn [snd] in Hv; subst s1; [|now exists v].
  unfold bind at 1, get at 1. cbn [guide_stars set_guide_stars_attr].
  assert (Hlast : forall (w : option (dict (list star))) (b : bool),
             snd (bind read_exposure_id (fun _ => ret b)
                    (set_guide_stars_attr w (set_guide_stars_attr (Some []) s)))
             = set_guide_stars_attr w s).
  { intros w b. unfold bind.
    pose proof (read_exposure_id_state
                  (set_guide_stars_attr w (set_guide_stars_attr (Some []) s)))
      as Hr.
    destruct (read_exposure_id _) as [[[]|err] s2]; cbn [snd] in Hr; subst s2;
      reflexivity. }
  destruct v as [[|kv reg]|].
  - exists (Some []). apply Hlast.
  - exists (Some (kv :: reg)). apply Hlast.
  - exists None. reflexivity.
Qed.

(** X10.  [set_guide_stars] never assigns anything but [guide_stars],
    however it ends, and before any acquisition it assigns nothing at all
    and returns [False]. *)
Theorem set_guide_stars_touches_only_the_registry :
  forall (gfa_loc : list string) (col row mag : list float) (zeropoint : float)
         (fiber_diam_um pixel_size_um : Q) (s : ETC),
    (exists v,
       snd (set_guide_stars gfa_loc col row mag zeropoint fiber_diam_um
              pixel_size_um s)
       = set_guide_stars_attr v s)
    /\ (acquisition_results s = None ->
        set_guide_stars gfa_loc col row mag zeropoint fiber_diam_um
          pixel_size_um s
        = (Return false, s)).
Proof.
  intros gfa_loc col row mag zeropoint fiber_diam_um pixel_size_um s. split.
  - apply set_guide_stars_only_registry.
  - intros H. unfold set_guide_stars, bind, get. rewrite H. reflexivity.
Qed.

(** A registration does not depend on the registry that it finds. *)
Lemma set_guide_stars_ignores_registry gfa_loc col row mag zeropoint
    fiber_diam_um pixel_size_um s results n e v :
  acquisition_results s = Some results ->
  night s = Bound n ->
  expid s = Bound e ->
  Qeq_bool pixel_size_um 0 = false ->
  set_guide_stars gfa_loc col row mag zeropoint fiber_diam_um pixel_size_um
    (set_guide_stars_attr v s)
  = set_guide_stars gfa_loc col row mag zeropoint fiber_diam_um pixel_size_um
      (set_guide_stars_attr None s).
Proof.
  intros Hres Hn He Hpix.
  assert (Hread : forall w, read_exposure_id (set_guide_stars_attr w s)
                            = (Return tt, set_guide_stars_attr w s)).
  { intros w. cbv [read_exposure_id bind get lift attr ret].
    cbn [night expid set_guide_stars_attr]. rewrite Hn, He. reflexivity. }
  cbv [set_guide_stars bind get ret modify raise].
  cbn [acquisition_results guide_stars set_guide_stars_attr].
  rewrite Hres. destruct v as [w|]; [rewrite Hread|]; rewrite Hpix; reflexivity.
Qed.

(** X11.  Once there are acquisition results, a registration overwrites
    the one before: registering a catalog after another one gives the
    outcome and the object that registering it alone gives. *)
Theorem second_registration_overwrites_the_first :
  forall (loc1 loc2 : list string) (col1 row1 mag1 col2 row2 mag2 : list float)
         (zp1 : float) (fd1 px1 : Q) (zp2 : float) (fd2 px2 : Q) (s : ETC)
         (results : dict camera_result) (n e : Z),
    acquisition_results s = Some results ->
    guide_stars s = None ->
    night s = Bound n ->
    expid s = Bound e ->
    Qeq_bool px2 0 = false ->
    set_guide_stars loc2 col2 row2 mag2 zp2 fd2 px2
      (snd (set_guide_stars loc1 col1 row1 mag1 zp1 fd1 px1 s))
    = set_guide_stars loc2 col2 row2 mag2 zp2 fd2 px2 s.
Proof.
  intros loc1 loc2 col1 row1 mag1 col2 row2 mag2 zp1 fd1 px1 zp2 fd2 px2 s
    results n e Hres Hg Hn He Hpix.
  destruct (set_guide_stars_only_registry loc1 col1 row1 mag1 zp1 fd1 px1 s)
    as [v ->].
  rewrite (set_guide_stars_ignores_registry loc2 col2 row2 mag2 zp2 fd2 px2 s
             results n e v Hres Hn He Hpix).
  now rewrite (set_guide_stars_attr_same s None Hg).
Qed.

End RegistrationEffects.

(** ** The registered stars *)

Section RegisteredStars.

Context {C : Collaborators}.

(** X12.  Once there are acquisition results, the registry that
    [set_guide_stars] builds for a catalog of equal-length arrays has keys
    among the guide cameras only, no key with an empty list, and under a
    key only stars of catalog entries assigned to that camera with a
    positive magnitude, which is the magnitude stored with the star. *)
Theorem registry_holds_positive_stars_of_guide_cameras :
  forall (gfa_loc : list string) (col row mag : list float) (zeropoint : float)
         (fiber_diam_um pixel_size_um : Q) (s : ETC)
         (results : dict camera_result) (n e : Z),
    catalog_ok gfa_loc col row mag = true ->
    acquisition_results s = Some results ->
    night s = Bound n ->
    expid s = Bound e ->
    Qeq_bool pixel_size_um 0 = false ->
    exists b reg,
      set_guide_stars gfa_loc col row mag zeropoint fiber_diam_um pixel_size_um s
      = (Return b, set_guide_stars_attr (Some reg) s)
      /\ forall camera stars,
           dict_get reg camera = Some stars ->
           In camera (guide_names (GFA s))
           /\ stars <> []
           /\ forall st,
                In st stars ->
                exists j m,
                  nth_error gfa_loc j = Some camera
                  /\ nth_error mag j = Some m
                  /\ rmag st = m
                  /\ (0 <? m)%float = true.
Proof.
  intros gfa_loc col row mag zeropoint fiber_diam_um pixel_size_um s results n e
    Hcat Hres Hn He Hpix.
  destruct (set_guide_stars_usable gfa_loc col row mag Hcat zeropoint fiber_diam_um
              pixel_size_um s results n e Hres Hn He Hpix)
    as (b & reg & Hrun & _ & _ & Hreg).
  exists b, reg. split; [exact Hrun|].
  intros camera stars Hget. apply Hreg in Hget.
  destruct Hget as (Hcam & Hne & Hstars). split; [exact Hcam|].
  split; [exact Hne|]. intros st Hst.
  destruct (kept_star_origin gfa_loc col row mag Hcat s _ _ camera stars st
              Hcam Hstars Hst)
    as (sel & j & c & r & _ & Hgs & El & Ec & Er & _ & _ & Hu).
  destruct (guide_star_kept _ _ _ _ _ _ _ _ _ _ _ _ Hgs)
    as (c' & r' & m & _ & _ & Em & _ & _ & Hm & _).
  exists j, m. repeat split; auto.
  unfold usable in Hu. rewrite El, Ec, Er, Em in Hu.
  apply andb_prop in Hu. destruct Hu as [Hu _].
  apply andb_prop in Hu. destruct Hu as [_ Hu]. exact Hu.
Qed.

(** X13.  A registered star whose position is moderate (finite and at
    most 2^62 in absolute value), for a stamp size below 2^62 in absolute
    value, has the window that the integers give: it starts [halfsize]
    pixels before the pixel nearest to the position of the star, which is
    within half a pixel of it, it ends [halfsize + 1] pixels after it, and
    it lies inside the frame. *)
Theorem window_is_centred_on_the_nearest_pixel :
  forall (gfa_loc : list string) (col row mag : list float) (zeropoint : float)
         (fiber_diam_um pixel_size_um : Q) (s : ETC)
         (results : dict camera_result) (n e : Z),
    catalog_ok gfa_loc col row mag = true ->
    acquisition_results s = Some results ->
    night s = Bound n ->
    expid s = Bound e ->
    Qeq_bool pixel_size_um 0 = false ->
    - 2 ^ 62 < psf_pixels s < 2 ^ 62 ->
    exists b reg,
      set_guide_stars gfa_loc col row mag zeropoint fiber_diam_um pixel_size_um s
      = (Return b, set_guide_stars_attr (Some reg) s)
      /\ forall camera stars st,
           dict_get reg camera = Some stars ->
           In st stars ->
           moderate (x0 st) = true ->
           moderate (y0 st) = true ->
           exists qx qy,
             float_value (x0 st) = Some qx
             /\ float_value (y0 st) = Some qy
             /\ (- (1 # 2) <= qx - inject_Z (round_half_even qx) <= 1 # 2)%Q
             /\ (- (1 # 2) <= qy - inject_Z (round_half_even qy) <= 1 # 2)%Q
             /\ xslice st
                = {| start := round_half_even qx - psf_pixels s / 2;
                     stop := round_half_even qx + psf_pixels s / 2 + 1 |}
             /\ yslice st
                = {| start := round_half_even qy - psf_pixels s / 2;
                     stop := round_half_even qy + psf_pixels s / 2 + 1 |}
             /\ 0 <= start (xslice st)
             /\ stop (xslice st) <= 2 * nampy (GFA s)
             /\ 0 <= start (yslice st)
             /\ stop (yslice st) <= 2 * nampx (GFA s).
Proof.
  intros gfa_loc col row mag zeropoint fiber_diam_um pixel_size_um s results n e
    Hcat Hres Hn He Hpix Hsize.
  destruct (set_guide_stars_usable gfa_loc col row mag Hcat zeropoint fiber_diam_um
              pixel_size_um s results n e Hres Hn He Hpix)
    as (b & reg & Hrun & _ & _ & Hreg).
  exists b, reg. split; [exact Hrun|].
  intros camera stars st Hget Hst Hmx Hmy. apply Hreg in Hget.
  destruct Hget as (Hcam & _ & Hstars).
  destruct (kept_star_origin gfa_loc col row mag Hcat s _ _ camera stars st
              Hcam Hstars Hst)
    as (sel & j & c & r & _ & Hgs & _).
  destruct (guide_star_kept _ _ _ _ _ _ _ _ _ _ _ _ Hgs)
    as (_ & _ & _ & _ & _ & _ & _ & _ & _ & _ & Hout & Hys & Hxs & _).
  assert (Hhalf : - 2 ^ 61 <= psf_pixels s / 2 <= 2 ^ 61).
  { assert (H62 : 2 ^ 62 = 2 * 2 ^ 61) by reflexivity.
    pose proof (Z.div_mod (psf_pixels s) 2) as Hdiv.
    pose proof (Z.mod_pos_bound (psf_pixels s) 2). lia. }
  destruct (moderate_window (x0 st) (psf_pixels s / 2) Hmx Hhalf)
    as (qx & Hqx & _ & Hxlo & Hxhi).
  destruct (moderate_window (y0 st) (psf_pixels s / 2) Hmy Hhalf)
    as (qy & Hqy & _ & Hylo & Hyhi).
  rewrite Hxlo, Hxhi, Hylo, Hyhi in Hout.
  apply inside_frame_bounds in Hout.
  rewrite Hylo, Hyhi in Hys. rewrite Hxlo, Hxhi in Hxs.
  exists qx, qy. rewrite Hys, Hxs. cbn [start stop].
  split; [exact Hqx|]. split; [exact Hqy|].
  split; [apply round_half_even_near|]. split; [apply round_half_even_near|].
  repeat split; lia.
Qed.

(** X14.  For a registered star whose position is moderate, the cutout
    that the slices of the star take from a frame of the size of the
    camera has the full size of the PSF stamp: [psf_pixels] rows of
    [psf_pixels] pixels, for an odd and positive [psf_pixels] below
    2^62. *)
Theorem registered_cutout_has_stamp_size :
  forall (gfa_loc : list string) (col row mag : list float) (zeropoint : float)
         (fiber_diam_um pixel_size_um : Q) (s : ETC)
         (results : dict camera_result) (n e : Z) (img : image),
    catalog_ok gfa_loc col row mag = true ->
    acquisition_results s = Some results ->
    night s = Bound n ->
    expid s = Bound e ->
    Qeq_bool pixel_size_um 0 = false ->
    Z.odd (psf_pixels s) = true ->
    0 < psf_pixels s < 2 ^ 62 ->
    has_shape (Z.to_nat (2 * nampx (GFA s))) (Z.to_nat (2 * nampy (GFA s))) img
    = true ->
    exists b reg,
      set_guide_stars gfa_loc col row mag zeropoint fiber_diam_um pixel_size_um s
      = (Return b, set_guide_stars_attr (Some reg) s)
      /\ forall camera stars st,
           dict_get reg camera = Some stars ->
           In st stars ->
           moderate (x0 st) = true ->
           moderate (y0 st) = true ->
           has_shape (Z.to_nat (psf_pixels s)) (Z.to_nat (psf_pixels s))
             (cutout img (yslice st) (xslice st)) = true.
Proof.
  intros gfa_loc col row mag zeropoint fiber_diam_um pixel_size_um s results n e
    img Hcat Hres Hn He Hpix Hodd Hsize Himg.
  destruct (set_guide_stars_usable gfa_loc col row mag Hcat zeropoint fiber_diam_um
              pixel_size_um s results n e Hres Hn He Hpix)
    as (b & reg & Hrun & _ & _ & Hreg).
  exists b, reg. split; [exact Hrun|].
  intros camera stars st Hget Hst Hmx Hmy. apply Hreg in Hget.
  destruct Hget as (Hcam & _ & Hstars).
  destruct (kept_star_origin gfa_loc col row mag Hcat s _ _ camera stars st
              Hcam Hstars Hst)
    as (sel & j & c & r & _ & Hgs & _).
  destruct (guide_star_kept _ _ _ _ _ _ _ _ _ _ _ _ Hgs)
    as (_ & _ & _ & _ & _ & _ & _ & _ & _ & _ & Hout & Hys & Hxs & _).
  assert (Hpos : 0 <= psf_pixels s / 2) by (apply Z.div_pos; lia).
  assert (Hhalf : - 2 ^ 61 <= psf_pixels s / 2 <= 2 ^ 61).
  { assert (H62 : 2 ^ 62 = 2 * 2 ^ 61) by reflexivity.
    pose proof (Z.div_mod (psf_pixels s) 2) as Hdiv.
    pose proof (Z.mod_pos_bound (psf_pixels s) 2). lia. }
  destruct (moderate_window (x0 st) (psf_pixels s / 2) Hmx Hhalf)
    as (qx & _ & _ & Hxlo & Hxhi).
  destruct (moderate_window (y0 st) (psf_pixels s / 2) Hmy Hhalf)
    as (qy & _ & _ & Hylo & Hyhi).
  rewrite Hxlo, Hxhi, Hylo, Hyhi in Hout.
  apply inside_frame_bounds in Hout. destruct Hout as (Hy0 & Hy1 & Hx0 & Hx1).
  rewrite Hylo, Hyhi in Hys. rewrite Hxlo, Hxhi in Hxs.
  apply has_shape_rows in Himg. destruct Himg as [Hrows Hcols].
  pose proof (odd_window_side (psf_pixels s) (round_half_even qy) Hodd) as Hsy.
  pose proof (odd_window_side (psf_pixels s) (round_half_even qx) Hodd) as Hsx.
  rewrite Hys, Hxs. apply cutout_shape.
  - rewrite take_slice_length_inside; lia.
  - intros row0 Hin. rewrite take_slice_length_inside; try lia.
    rewrite (Hcols row0 Hin). lia.
Qed.

(** X19.  Once there are acquisition results, [set_guide_stars] returns
    [True] exactly when some catalog entry passes the tests of lines 128
    and 147 for one of the guide cameras; the registry then has a key, and
    it is the empty dict when the call returns [False]. *)
Theorem registration_succeeds_exactly_with_a_usable_entry :
  forall (gfa_loc : list string) (col row mag : list float) (zeropoint : float)
         (fiber_diam_um pixel_size_um : Q) (s : ETC)
         (results : dict camera_result) (n e : Z),
    catalog_ok gfa_loc col row mag = true ->
    acquisition_results s = Some results ->
    night s = Bound n ->
    expid s = Bound e ->
    Qeq_bool pixel_size_um 0 = false ->
    exists b reg,
      set_guide_stars gfa_loc col row mag zeropoint fiber_diam_um pixel_size_um s
      = (Return b, set_guide_stars_attr (Some reg) s)
      /\ (b = true <-> exists j, usable s gfa_loc col row mag j = true)
      /\ (b = true <-> reg <> [])
      /\ (forall j camera,
            usable s gfa_loc col row mag j = true ->
            nth_error gfa_loc j = Some camera ->
            dict_in camera reg = true).
Proof.
  intros gfa_loc col row mag zeropoint fiber_diam_um pixel_size_um s results n e
    Hcat Hres Hn He Hpix.
  destruct (set_guide_stars_usable gfa_loc col row mag Hcat zeropoint fiber_diam_um
              pixel_size_um s results n e Hres Hn He Hpix)
    as (b & reg & Hrun & Hb & Hempty & Hreg).
  exists b, reg. split; [exact Hrun|]. split; [exact Hb|]. split.
  - split.
    + intros -> ->. destruct (proj1 Hb eq_refl) as [j Hj].
      destruct (usable_star_kept gfa_loc col row mag Hcat s zeropoint
                  (fiber_profile (((1 # 2) * fiber_diam_um / pixel_size_um) ^ 2))
                  j Hj)
        as (camera & _ & _ & stars & st & _ & _ & _ & Hcam & Hstars & Hst & _).
      assert (Hget : dict_get [] camera = Some stars).
      { apply Hreg. repeat split; auto. intros ->. destruct Hst. }
      discriminate Hget.
    + intros Hne. destruct b; [reflexivity|]. now specialize (Hempty eq_refl).
  - intros j camera Hj El.
    destruct (usable_star_kept gfa_loc col row mag Hcat s zeropoint
                (fiber_profile (((1 # 2) * fiber_diam_um / pixel_size_um) ^ 2))
                j Hj)
      as (camera' & _ & _ & stars & st & El' & _ & _ & Hcam & Hstars & Hst & _).
    rewrite El in El'. injection El' as <-.
    assert (Hget : dict_get reg camera = Some stars).
    { apply Hreg. repeat split; auto. intros ->. destruct Hst. }
    unfold dict_in. now rewrite Hget.
Qed.

End RegisteredStars.

(** ** [process_guide_frame] *)

Section GuideFrames.

Context {C : Collaborators}.

(** X15.  However a guide frame ends, it stores no measurement: the
    results of the acquisition, the guide stars, the night, the exposure
    identifier and the configuration of the fit are as before.  The
    counter of guide frames goes up by one exactly when the call returns
    [True], and a call that returns [False] leaves the whole object as it
    was. *)
Theorem guide_frame_counts_completed_frames :
  forall (G : namespace) (data : payload) (s s' : ETC) (o : outcome bool),
    process_guide_frame G data s = (o, s') ->
    same_pipeline s s'
    /\ match o with
       | Return true =>
           exists n, num_guide_frames s = Bound n
                     /\ num_guide_frames s' = Bound (n + 1)
       | Return false => s' = s
       | Raise _ => num_guide_frames s' = num_guide_frames s
       end.
Proof.
  intros G data s s' o. unfold process_guide_frame, same_pipeline.
  cbv [bind get lift ret read_exposure_id modify].
  destruct (num_guide_frames s) as [|n] eqn:En; cbn [attr].
  { intros [= <- <-]. repeat split; auto. }
  destruct (acquisition_results s) as [results|] eqn:Eres.
  2:{ intros [= <- <-]. repeat split; auto. }
  destruct (guide_stars s) as [registry|] eqn:Ereg.
  2:{ intros [= <- <-]. repeat split; auto. }
  destruct (key "header" (header data)) as [hdr|].
  2:{ intros [= <- <-]. repeat split; auto. }
  destruct (attr "night" (night s)); [|intros [= <- <-]; repeat split; auto].
  destruct (key "NIGHT" (NIGHT hdr)); [|intros [= <- <-]; repeat split; auto].
  destruct (attr "expid" (expid s)); [|intros [= <- <-]; repeat split; auto].
  destruct (key "EXPID" (EXPID hdr)); [|intros [= <- <-]; repeat split; auto].
  pose proof (for_each_same_exposure (guide_camera G data) results
                (guide_camera_same_exposure G data) s) as Hloop.
  destruct (for_each results (guide_camera G data) s) as [[[]|err] s1];
    cbn [snd] in Hloop;
    destruct Hloop as (Ha & Hg & Hp & Hm & Hx & Hy & Hn & He & Hc).
  - rewrite Hc, En. cbn [attr]. intros [= <- <-]. cbn.
    repeat split; try congruence. exists n. split; [reflexivity|reflexivity].
  - intros [= <- <-]. repeat split; congruence.
Qed.

(** X16.  The night and the exposure identifier of the header of a guide
    frame are compared with those of the acquisition for a log message
    only: a frame is processed in the same way whatever values its header
    gives them. *)
Theorem guide_frame_ignores_header_values :
  forall (G : namespace) (hdr hdr' : exposure_header)
         (imgs : dict camera_payload) (s : ETC) (n e n' e' : Z),
    NIGHT hdr = Some n ->
    EXPID hdr = Some e ->
    NIGHT hdr' = Some n' ->
    EXPID hdr' = Some e' ->
    process_guide_frame G {| header := Some hdr; images := imgs |} s
    = process_guide_frame G {| header := Some hdr'; images := imgs |} s.
Proof.
  intros G hdr hdr' imgs s n e n' e' Hn He Hn' He'.
  unfold process_guide_frame.
  cbv [bind get lift ret key header]. rewrite Hn, He, Hn', He'.
  reflexivity.
Qed.

(** X17.  After an acquisition that left no entry (no camera had a usable
    image), a guide frame that finds a registry is accepted: it returns
    [True] and is counted, although no camera is looked at and the object
    is otherwise as before, whatever the names of the module are bound
    to. *)
Theorem guide_frame_without_results_is_counted :
  forall (G : namespace) (data : payload) (s : ETC)
         (registry : dict (list star)) (k n e : Z),
    acquisition_results s = Some [] ->
    guide_stars s = Some registry ->
    num_guide_frames s = Bound k ->
    night s = Bound n ->
    expid s = Bound e ->
    exposure_ok data = true ->
    process_guide_frame G data s = (Return true, set_num_guide_frames (k + 1) s).
Proof.
  intros G data s registry k n e Hres Hreg Hk Hn He Hok.
  unfold exposure_ok in Hok. unfold process_guide_frame.
  cbv [bind get lift ret read_exposure_id modify]. rewrite Hk, Hres, Hreg.
  destruct (header data) as [hdr|]; [|discriminate].
  cbn [attr key]. rewrite Hn, He. cbn [attr].
  destruct (NIGHT hdr); [|discriminate].
  destruct (EXPID hdr); [|discriminate].
  cbn [key for_each]. unfold ret. rewrite Hk. reflexivity.
Qed.

End GuideFrames.

(** ** [__init__] *)

Section Initialisation.

Context {C : Collaborators}.

(** X18.  The constructor gives the fit object the edges of the pixels of
    the PSF stamp on both axes: [psf_pixels + 1] points one pixel apart,
    from minus to plus half the stamp size, symmetric about zero; and it
    takes the dither offsets from [diskgrid] with a density exponent of
    two. *)
Theorem init_builds_the_pixel_edges :
  forall (sky_calib gfa_calib : string) (pixels : Z) (max_dither : Q)
         (num_dither : Z) (self : ETC),
    ETC_init sky_calib gfa_calib pixels max_dither num_dither = Return self ->
    GMM self = GMMFit_new (psf_grid pixels) (psf_grid pixels)
    /\ (xdither self, ydither self) = diskgrid num_dither max_dither 2
    /\ List.length (psf_grid pixels) = Z.to_nat (pixels + 1)
    /\ forall i,
         0 <= i <= pixels ->
         nth_error (psf_grid pixels) (Z.to_nat i)
         = Some (inject_Z i - inject_Z pixels / 2)%Q
         /\ exists a b,
              nth_error (psf_grid pixels) (Z.to_nat i) = Some a
              /\ nth_error (psf_grid pixels) (Z.to_nat (pixels - i)) = Some b
              /\ (a + b == 0)%Q.
Proof.
  intros sky_calib gfa_calib pixels max_dither num_dither self.
  unfold ETC_init. destruct (pixels mod 2 =? 0); [discriminate|].
  intros [= <-]. cbn [GMM xdither ydither].
  split; [reflexivity|].
  split; [now destruct (diskgrid num_dither max_dither 2)|].
  assert (Hnth : forall i, 0 <= i <= pixels ->
                   nth_error (psf_grid pixels) (Z.to_nat i)
                   = Some (inject_Z i - inject_Z pixels / 2)%Q).
  { intros i Hi. unfold psf_grid, arange.
    rewrite !nth_error_map, nth_error_seq.
    destruct (Nat.ltb_spec (Z.to_nat i) (Z.to_nat (pixels + 1))) as [_|H];
      [|lia].
    cbn. rewrite Z2Nat.id by lia. reflexivity. }
  split.
  - unfold psf_grid, arange. now rewrite !length_map, length_seq.
  - intros i Hi. split; [now apply Hnth|].
    eexists _, _. split; [now apply Hnth|]. split; [apply Hnth; lia|].
    unfold Zminus. rewrite inject_Z_plus, inject_Z_opp. field.
Qed.

End Initialisation.

(** * The further properties in the laboratory *)

Section BenchRuns.

Import Lab Bench.

Lemma bench_preprocess :
  preprocess_gfa "GUIDE2" (shot (flat 1)) 10%float fresh = (Return true, exposed).
Proof. vm_compute. reflexivity. Qed.

Lemma bench_preprocess_nan :
  preprocess_gfa "GUIDE2" nan_shot 10%float fresh = (Return true, dazed).
Proof. vm_compute. reflexivity. Qed.

Lemma bench_failed_assertion :
  process_acquisition frames oversized = (Raise AssertionError, aborted).
Proof. vm_compute. reflexivity. Qed.

Lemma bench_idle_frame :
  process_guide_frame etc_globals blank idle_registered
  = (Return true, set_num_guide_frames 1 idle_registered).
Proof. vm_compute. reflexivity. Qed.

(** The star that the first entry of the catalog gives GUIDE0. *)
Lemma bench_first_star (b : bool) (reg : dict (list star)) :
  set_guide_stars cat_loc cat_col cat_row cat_mag default_zeropoint
    default_fiber_diam_um default_pixel_size_um acquired
  = (Return b, set_guide_stars_attr (Some reg) acquired) ->
  exists st,
    dict_get reg "GUIDE0" = Some [st] /\ x0 st = 3%float /\ y0 st = 3%float.
Proof.
  rewrite lab_registration. intros H. apply (f_equal snd) in H. cbn [snd] in H.
  assert (Hreg : guide_stars registered = Some reg) by (rewrite H; reflexivity).
  vm_compute in Hreg. injection Hreg as Hreg. subst reg.
  eexists. split; [reflexivity|]. split; reflexivity.
Qed.


(** An image of GUIDE2 taken in December 2020 with five seconds of
    exposure, and one whose date and exposure time are NaN. *)
Lemma preprocess_gfa_success_witness :
  (gfa_mjd_obs exposed = Bound (Some 59197%float)
   /\ gfa_exptime exposed = Bound (Some 5%float))
  /\ (gfa_mjd_obs dazed = Bound (Some nan)
      /\ gfa_exptime dazed = Bound (Some nan)).
Proof.
  split.
  - destruct (preprocess_gfa_success (C := lab) "GUIDE2" (shot (flat 1)) 10%float
                fresh exposed bench_preprocess)
      as (hdr & raw & mjd & exptime & Hh & _ & Hm & _ & He & _ & Hmjd & Hexp & _).
    injection Hh as <-. injection Hm as <-. injection He as <-.
    split; assumption.
  - destruct (preprocess_gfa_success (C := lab) "GUIDE2" nan_shot 10%float
                fresh dazed bench_preprocess_nan)
      as (hdr & raw & mjd & exptime & Hh & _ & Hm & _ & He & _ & Hmjd & Hexp & _).
    injection Hh as <-. injection Hm as <-. injection He as <-.
    split; assumption.
Defined.

(** An image of 2017 sent after the acquisition. *)
Lemma preprocess_gfa_rejects_invalid_header_witness :
  exists s',
    preprocess_gfa "GUIDE0" old_shot 10%float acquired = (Return false, s')
    /\ GFA s' = GFA acquired
    /\ gfa_mjd_obs s' = Bound (Some 58000%float)
    /\ gfa_exptime s' = gfa_exptime acquired.
Proof.
  exact (preprocess_gfa_rejects_invalid_header (C := lab) "GUIDE0" old_shot
           10%float acquired
           {| MJD_OBS := Some 58000%float; EXPTIME := Some 5%float;
              GCCDTEMP := None |}
           eq_refl eq_refl).
Defined.

(** An image without data sent after the acquisition. *)
Lemma preprocess_gfa_missing_data_escapes_witness :
  exists s',
    preprocess_gfa "GUIDE2" no_data 10%float acquired
    = (Raise (KeyError "data"), s')
    /\ GFA s' = GFA acquired
    /\ gfa_mjd_obs s' = Bound (Some 59197%float)
    /\ gfa_exptime s' = Bound (Some 5%float).
Proof.
  exact (preprocess_gfa_missing_data_escapes (C := lab) "GUIDE2" no_data
           10%float acquired
           {| MJD_OBS := Some 59197%float; EXPTIME := Some 5%float;
              GCCDTEMP := None |}
           eq_refl eq_refl eq_refl).
Defined.

(** An image without any row of pixels. *)
Lemma preprocess_gfa_refused_raw_data_witness :
  exists s',
    preprocess_gfa "GUIDE0" empty_shot 10%float acquired = (Return false, s')
    /\ GFA s' = GFA acquired
    /\ gfa_mjd_obs s' = Bound (Some 59197%float)
    /\ gfa_exptime s' = Bound (Some 5%float).
Proof.
  exact (preprocess_gfa_refused_raw_data (C := lab) "GUIDE0" empty_shot 10%float
           acquired
           {| MJD_OBS := Some 59197%float; EXPTIME := Some 5%float;
              GCCDTEMP := Some 3%float |}
           [] eq_refl eq_refl eq_refl eq_refl).
Defined.

(** The entry of GUIDE0, whose fit failed, has neither model nor
    renderings. *)
Lemma acquisition_entries_follow_the_fit_witness :
  exists results cr,
    acquisition_results acquired = Some results
    /\ dict_get results "GUIDE0" = Some cr
    /\ cr_gmm cr = None
    /\ cr_model cr = None
    /\ cr_dithered cr = None.
Proof.
  destruct (acquisition_entries_follow_the_fit (C := lab) frames fresh acquired
              lab_acquisition)
    as (results & Hres & Hall).
  assert (E : exists cr,
             option_map (fun d => dict_get d "GUIDE0") (acquisition_results acquired)
             = Some (Some cr)
             /\ cr_gmm cr = None).
  { eexists. split; reflexivity. }
  destruct E as (cr & Hget & Hgmm). rewrite Hres in Hget.
  injection Hget as Hget.
  destruct (Hall "GUIDE0" cr Hget) as (T & WT & _ & _ & _ & Hrest).
  rewrite Hgmm in Hrest. destruct Hrest as (Hm & Hd).
  exists results, cr. repeat split; assumption.
Defined.

(** The stamps of the acquisition with [psf_pixels=3]. *)
Lemma acquisition_stamps_have_psf_size_witness :
  exists results,
    acquisition_results acquired = Some results
    /\ forall camera cr,
         dict_get results camera = Some cr ->
         exists T WT,
           cr_data cr = Some T
           /\ cr_ivar cr = Some WT
           /\ has_shape 3 3 T = true
           /\ has_shape 3 3 WT = true.
Proof.
  exact (acquisition_stamps_have_psf_size (C := lab) frames fresh acquired
           lab_acquisition).
Defined.

(** The exposure 68000 of the night 20201214. *)
Lemma acquisition_records_the_exposure_witness :
  night acquired = Bound 20201214 /\ expid acquired = Bound 68000.
Proof.
  destruct (acquisition_records_the_exposure (C := lab) frames fresh acquired
              lab_acquisition)
    as (hdr & n & e & Hh & Hn & He & Hnight & Hexpid & _).
  injection Hh as <-. injection Hn as <-. injection He as <-.
  split; assumption.
Defined.

(** A second acquisition that fails the assertion of line 84 leaves the
    guide stars of the first in place. *)
Lemma acquisition_that_raises_keeps_the_registry_witness :
  guide_stars aborted = guide_stars registered
  /\ num_guide_frames aborted = Bound 0.
Proof.
  exact (acquisition_that_raises_keeps_the_registry (C := lab) frames oversized
           aborted AssertionError bench_failed_assertion).
Defined.

(** A catalog sent to the object that the constructor returns. *)
Lemma set_guide_stars_touches_only_the_registry_witness :
  set_guide_stars cat_loc cat_col cat_row cat_mag default_zeropoint
    default_fiber_diam_um default_pixel_size_um fresh
  = (Return false, fresh).
Proof.
  exact (proj2 (set_guide_stars_touches_only_the_registry (C := lab) cat_loc
                  cat_col cat_row cat_mag default_zeropoint default_fiber_diam_um
                  default_pixel_size_um fresh)
           eq_refl).
Defined.

(** The catalog sent after the one whose stars were all refused. *)
Lemma second_registration_overwrites_the_first_witness :
  set_guide_stars cat_loc cat_col cat_row cat_mag default_zeropoint
    default_fiber_diam_um default_pixel_size_um unregistered
  = (Return true, registered).
Proof.
  pose proof (second_registration_overwrites_the_first (C := lab)
                cat_loc cat_loc edge_col cat_row cat_mag cat_col cat_row cat_mag
                default_zeropoint default_fiber_diam_um default_pixel_size_um
                default_zeropoint default_fiber_diam_um default_pixel_size_um
                acquired _ _ _ eq_refl eq_refl eq_refl eq_refl eq_refl) as H.
  rewrite lab_failed_registration, lab_registration in H. exact H.
Defined.

(** The registry of the catalog. *)
Lemma registry_holds_positive_stars_of_guide_cameras_witness :
  exists b reg,
    set_guide_stars cat_loc cat_col cat_row cat_mag default_zeropoint
      default_fiber_diam_um default_pixel_size_um acquired
    = (Return b, set_guide_stars_attr (Some reg) acquired)
    /\ forall camera stars,
         dict_get reg camera = Some stars ->
         In camera ["GUIDE0"; "GUIDE2"; "GUIDE3"] /\ stars <> [].
Proof.
  destruct (registry_holds_positive_stars_of_guide_cameras (C := lab) cat_loc
              cat_col cat_row cat_mag default_zeropoint default_fiber_diam_um
              default_pixel_size_um acquired _ _ _ eq_refl eq_refl eq_refl eq_refl
              eq_refl)
    as (b & reg & Hrun & Hall).
  exists b, reg. split; [exact Hrun|]. intros camera stars Hget.
  destruct (Hall camera stars Hget) as (Hin & Hne & _). split; assumption.
Defined.

(** The window of the star of GUIDE0, at (3, 3), for a stamp of three
    pixels. *)
Lemma window_is_centred_on_the_nearest_pixel_witness :
  exists b reg st,
    set_guide_stars cat_loc cat_col cat_row cat_mag default_zeropoint
      default_fiber_diam_um default_pixel_size_um acquired
    = (Return b, set_guide_stars_attr (Some reg) acquired)
    /\ dict_get reg "GUIDE0" = Some [st]
    /\ x0 st = 3%float
    /\ y0 st = 3%float
    /\ xslice st = {| start := 2; stop := 5 |}
    /\ yslice st = {| start := 2; stop := 5 |}.
Proof.
  destruct (window_is_centred_on_the_nearest_pixel (C := lab) cat_loc cat_col
              cat_row cat_mag default_zeropoint default_fiber_diam_um
              default_pixel_size_um acquired _ _ _ eq_refl eq_refl eq_refl eq_refl
              eq_refl (conj eq_refl eq_refl))
    as (b & reg & Hrun & Hall).
  destruct (bench_first_star b reg Hrun) as (st & Hget & Hx & Hy).
  assert (Hmx : moderate (x0 st) = true) by (rewrite Hx; reflexivity).
  assert (Hmy : moderate (y0 st) = true) by (rewrite Hy; reflexivity).
  destruct (Hall "GUIDE0" [st] st Hget (or_introl eq_refl) Hmx Hmy)
    as (qx & qy & Hqx & Hqy & _ & _ & Hxs & Hys & _).
  rewrite Hx in Hqx. rewrite Hy in Hqy. cbv in Hqx, Hqy.
  injection Hqx as <-. injection Hqy as <-.
  exists b, reg, st. split; [exact Hrun|]. split; [exact Hget|].
  split; [exact Hx|]. split; [exact Hy|]. rewrite Hxs, Hys.
  split; reflexivity.
Defined.

(** The cutout that the star of GUIDE0 takes from a frame of six by six
    pixels. *)
Lemma registered_cutout_has_stamp_size_witness :
  exists b reg st,
    set_guide_stars cat_loc cat_col cat_row cat_mag default_zeropoint
      default_fiber_diam_um default_pixel_size_um acquired
    = (Return b, set_guide_stars_attr (Some reg) acquired)
    /\ dict_get reg "GUIDE0" = Some [st]
    /\ has_shape 3 3 (cutout (flat 1) (yslice st) (xslice st)) = true.
Proof.
  destruct (registered_cutout_has_stamp_size (C := lab) cat_loc cat_col cat_row
              cat_mag default_zeropoint default_fiber_diam_um default_pixel_size_um
              acquired _ _ _ (flat 1) eq_refl eq_refl eq_refl eq_refl eq_refl
              eq_refl (conj eq_refl eq_refl) eq_refl)
    as (b & reg & Hrun & Hall).
  destruct (bench_first_star b reg Hrun) as (st & Hget & Hx & Hy).
  assert (Hmx : moderate (x0 st) = true) by (rewrite Hx; reflexivity).
  assert (Hmy : moderate (y0 st) = true) by (rewrite Hy; reflexivity).
  exists b, reg, st. split; [exact Hrun|]. split; [exact Hget|].
  exact (Hall "GUIDE0" [st] st Hget (or_introl eq_refl) Hmx Hmy).
Defined.

(** The catalog has a usable entry for GUIDE0 and the catalog of border
    stars has none. *)
Lemma registration_succeeds_exactly_with_a_usable_entry_witness :
  (exists reg,
     set_guide_stars cat_loc cat_col cat_row cat_mag default_zeropoint
       default_fiber_diam_um default_pixel_size_um acquired
     = (Return true, set_guide_stars_attr (Some reg) acquired)
     /\ dict_in "GUIDE0" reg = true)
  /\ set_guide_stars cat_loc edge_col cat_row cat_mag default_zeropoint
       default_fiber_diam_um default_pixel_size_um acquired
     = (Return false, set_guide_stars_attr (Some []) acquired).
Proof.
  split.
  - destruct (registration_succeeds_exactly_with_a_usable_entry (C := lab) cat_loc
                cat_col cat_row cat_mag default_zeropoint default_fiber_diam_um
                default_pixel_size_um acquired _ _ _ eq_refl eq_refl eq_refl
                eq_refl eq_refl)
      as (b & reg & Hrun & Hb & _ & Hkey).
    assert (Eb : b = true) by (apply Hb; exists 0%nat; reflexivity).
    subst b. exists reg. split; [exact Hrun|].
    exact (Hkey 0%nat "GUIDE0" eq_refl eq_refl).
  - destruct (registration_succeeds_exactly_with_a_usable_entry (C := lab) cat_loc
                edge_col cat_row cat_mag default_zeropoint default_fiber_diam_um
                default_pixel_size_um acquired _ _ _ eq_refl eq_refl eq_refl
                eq_refl eq_refl)
      as (b & reg & Hrun & Hb & Hne & _).
    destruct b.
    + destruct (proj1 Hb eq_refl) as [j Hj].
      do 4 (destruct j as [|j]; [discriminate Hj|]). destruct j; discriminate Hj.
    + destruct reg as [|kv reg]; [exact Hrun|].
      assert (E : false = true) by (apply Hne; discriminate). discriminate E.
Defined.

(** The first guide frame after an acquisition without images. *)
Lemma guide_frame_counts_completed_frames_witness :
  same_pipeline idle_registered (set_num_guide_frames 1 idle_registered)
  /\ exists n,
       num_guide_frames idle_registered = Bound n
       /\ num_guide_frames (set_num_guide_frames 1 idle_registered) = Bound (n + 1).
Proof.
  exact (guide_frame_counts_completed_frames (C := lab) etc_globals blank
           idle_registered (set_num_guide_frames 1 idle_registered) (Return true)
           bench_idle_frame).
Defined.

(** The frames of the acquisition, relabelled with another night. *)
Lemma guide_frame_ignores_header_values_witness :
  process_guide_frame etc_globals frames registered
  = process_guide_frame etc_globals other_night registered.
Proof.
  exact (guide_frame_ignores_header_values (C := lab) etc_globals
           {| NIGHT := Some 20201214; EXPID := Some 68000 |}
           {| NIGHT := Some 20201215; EXPID := Some 1 |}
           (images frames) registered 20201214 68000 20201215 1
           eq_refl eq_refl eq_refl eq_refl).
Defined.

(** Guide frames with images, after an acquisition that had none. *)
Lemma guide_frame_without_results_is_counted_witness :
  process_guide_frame etc_globals other_night idle_registered
  = (Return true, set_num_guide_frames (0 + 1) idle_registered).
Proof.
  exact (guide_frame_without_results_is_counted (C := lab) etc_globals other_night
           idle_registered _ 0 20201214 68001
           eq_refl eq_refl eq_refl eq_refl eq_refl eq_refl).
Defined.

(** The four edges of a stamp of three pixels. *)
Lemma init_builds_the_pixel_edges_witness :
  List.length (psf_grid 3) = 4%nat
  /\ nth_error (psf_grid 3) 0 = Some (inject_Z 0 - inject_Z 3 / 2)%Q.
Proof.
  destruct (init_builds_the_pixel_edges (C := lab) "sky" "gfa" 3 7%Q 1200 fresh
              lab_init)
    as (_ & _ & Hlen & Hnth).
  split; [exact Hlen|].
  destruct (Hnth 0 (conj (Z.le_refl 0) (Z.lt_le_incl 0 3 eq_refl))) as (H & _).
  exact H.
Defined.

End BenchRuns.
